(** * Vertex Framework: change capture, undo engine and typed reads

    A shallow embedding of the parts of the Vertex Framework that wrap
    every write to the graph database in an Action:

    - [neoNodeToRawVNode] (layer 2, cypher-return-shape),
    - [updateToOneRelationship] (layer 4, action-helpers),
    - the [trackActionChanges] trigger (layer 4, schema),
    - [UndoAction] (layer 4, action-generic).

    The graph database is an explicit store: nodes and relationships are
    finite maps keyed by their internal identity, and every Cypher query of
    the source is written out as a function on that store, clause by
    clause.  Code that throws returns [Err]. *)

From Stdlib Require Import Ascii.
From stdpp Require Import gmap strings list fin_maps pretty.

(** ** Values and property maps *)

(** The property values the code stores and compares: strings (VNIDs, slugs,
    names), integers and booleans.  A property that is absent reads as
    [null]; so a nullable value is an [option PropValue]. *)
Inductive PropValue :=
  | PStr (s : string)
  | PInt (z : Z)
  | PBool (b : bool).

#[global] Instance PropValue_eq_dec : EqDecision PropValue.
Proof. solve_decision. Defined.

Abbreviation Props := (gmap string PropValue).
Abbreviation VNID := string (only parsing).

(** JavaScript truthiness of a value read from the database. *)
Definition truthy (v : PropValue) : bool :=
  match v with
  | PStr s => negb (bool_decide (s = EmptyString))
  | PInt z => negb (bool_decide (z = 0%Z))
  | PBool b => b
  end.

(** The double quote character. *)
Definition dquote : string := String (Ascii.ascii_of_nat 34) EmptyString.

(** [typeof v] *)
Definition typeof (v : PropValue) : string :=
  match v with
  | PStr _ => "string"
  | PInt _ => "number"
  | PBool _ => "boolean"
  end.

(** ** Failure *)

Inductive Exn :=
  | Error (msg : string)
  | TypeError (msg : string)
  | UndoConflictError (msg : string)
  | Neo4jError (msg : string).

#[global] Instance Exn_eq_dec : EqDecision Exn.
Proof. solve_decision. Defined.

Inductive Result (A : Type) :=
  | Ok (a : A)
  | Err (e : Exn).
Arguments Ok {A} a.
Arguments Err {A} e.

#[global] Instance Result_ret : MRet Result := λ A a, Ok a.
#[global] Instance Result_bind : MBind Result := λ A B k r,
  match r with
  | Ok a => k a
  | Err e => Err e
  end.

Definition is_ok {A} (r : Result A) : bool :=
  match r with Ok _ => true | Err _ => false end.

(** [throw_if c e]: [if (c) throw e]. *)
Definition throw_if (c : bool) (e : Exn) : Result unit :=
  if c then Err e else Ok tt.

(** ** Nodes as the driver returns them *)

Record NodeData := mkNode {
  labels : list string;
  properties : Props
}.

#[global] Instance NodeData_eq_dec : EqDecision NodeData.
Proof. solve_decision. Defined.

Definition has_label (l : string) (n : NodeData) : bool :=
  bool_decide (l ∈ labels n).

(** A value found in a field of a query result. Only a node carries
    [__isNode__]. *)
Inductive FieldValue :=
  | FNode (identity : nat) (n : NodeData)
  | FNull
  | FPlain (v : PropValue).

(** The values of the fields of the object [neoNodeToRawVNode] returns.
    [JInherited name] is the value that reading [name] finds on
    [Object.prototype]: a built-in function, and for [__proto__] the
    prototype object itself. *)
Inductive JsValue :=
  | JNull
  | JUndefined
  | JVal (v : PropValue)
  | JNum (n : nat)
  | JStrings (l : list string)
  | JInherited (name : string).

#[global] Instance JsValue_eq_dec : EqDecision JsValue.
Proof. solve_decision. Defined.

(** The schema of one property; the conversion does not look at it. *)
Record PropSchema := { nullable : bool }.

(** A relationship declaration of a VNode type. [decl_ref] stands for the
    identity of the JavaScript object ([!==] compares references),
    [rel_to] lists the labels of the allowed target types and
    [relTypeKey] is the name stored by [storeRelationshipType]. *)
Record RelationshipDeclaration := {
  decl_ref : nat;
  rel_to : list string;
  relTypeKey : option string
}.

#[global] Instance RelationshipDeclaration_eq_dec :
  EqDecision RelationshipDeclaration.
Proof. solve_decision. Defined.

Record BaseVNodeType := {
  label : string;
  name : string;
  vt_properties : list (string * PropSchema);
  vt_rel : gmap string RelationshipDeclaration
}.

(** ** neoNodeToRawVNode *)

(** [fieldValue.properties] and the object that [{}] creates are ordinary
    objects: next to their own properties they inherit those of
    [Object.prototype], whose names are these. *)
Definition Object_prototype : list string :=
  ["constructor"; "__defineGetter__"; "__defineSetter__"; "hasOwnProperty";
   "__lookupGetter__"; "__lookupSetter__"; "isPrototypeOf";
   "propertyIsEnumerable"; "toString"; "valueOf"; "__proto__";
   "toLocaleString"].

(** [propName in obj], for an object with the own properties [props]: the
    operator looks along the prototype chain. *)
Definition js_in (propName : string) (props : Props) : bool :=
  bool_decide (is_Some (props !! propName))
  || bool_decide (propName ∈ Object_prototype).

(** [obj[propName]] *)
Definition js_get (propName : string) (props : Props) : JsValue :=
  match props !! propName with
  | Some v => JVal v
  | None =>
      if bool_decide (propName ∈ Object_prototype) then JInherited propName
      else JUndefined
  end.

(** [obj[propName] = v] on an object made by [{}]: the assignment creates
    or overwrites an own property, except for [__proto__], which is an
    accessor of [Object.prototype]: its setter creates no property (it sets
    the prototype, to the value read from an ordinary object here, which is
    [Object.prototype] again, and it ignores a value that is no object). *)
Definition js_set (propName : string) (v : JsValue)
    (obj : gmap string JsValue) : gmap string JsValue :=
  if bool_decide (propName = "__proto__") then obj
  else <[propName := v]> obj.

(** One turn of the loop over [Object.entries(vnodeType.properties)]. *)
Definition clean_property (props : Props) (acc : gmap string JsValue)
    (entry : string * PropSchema) : gmap string JsValue :=
  let propName := entry.1 in
  if js_in propName props then js_set propName (js_get propName props) acc
  else js_set propName JNull acc.

Definition clean_properties (declared : list (string * PropSchema))
    (props : Props) : gmap string JsValue :=
  foldl (clean_property props) ∅ declared.

Definition neoNodeToRawVNode (fieldValue : FieldValue)
    (vnodeType : BaseVNodeType) (fieldName : string)
    : Result (gmap string JsValue) :=
  match fieldValue with
  | FNull => Err (TypeError "Cannot read properties of null")
  | FPlain v =>
      Err (Error ("Field " +:+ fieldName +:+ " is of type " +:+ typeof v
                  +:+ ", not a VNode."))
  | FNode identity n =>
      if has_label "DeletedVNode" n then
        Err (Error ("Field " +:+ fieldName +:+
          " matched a deleted VNode - check your query and match only nodes with the :VNode label"))
      else if negb (has_label "VNode" n) then
        Err (Error ("Field " +:+ fieldName +:+
          " is a node but is missing the VNode label"))
      else
        (* {...properties, _identity, _labels}: the own properties *)
        Ok (<["_labels" := JStrings (labels n)]>
              (<["_identity" := JNum identity]>
                 (clean_properties (vt_properties vnodeType) (properties n))))
  end.

(** ** The graph store *)

(** A relationship: its type, the identities of its start and end nodes and
    its properties. *)
Record Rel := mkRel {
  rtype : string;
  rstart : nat;
  rend : nat;
  rprops : Props
}.

#[global] Instance Rel_eq_dec : EqDecision Rel.
Proof. solve_decision. Defined.

Record Graph := mkGraph {
  nodes : gmap nat NodeData;
  rels : gmap nat Rel
}.

#[global] Instance Graph_eq_dec : EqDecision Graph.
Proof. solve_decision. Defined.

(** [n.id = vnid] *)
Definition has_vnid (vnid : VNID) (n : NodeData) : bool :=
  bool_decide (properties n !! "id" = Some (PStr vnid)).

(** [n.id IN ids] (a missing id is [null], and [null IN ...] matches
    nothing). *)
Definition vnid_in (ids : list VNID) (n : NodeData) : bool :=
  match properties n !! "id" with
  | Some (PStr s) => bool_decide (s ∈ ids)
  | _ => false
  end.

(** [MATCH (n) WHERE P n]: the matched nodes, with their identities. *)
Definition match_nodes (P : NodeData → bool) (g : Graph)
    : list (nat * NodeData) :=
  filter (λ x, P x.2 = true) (map_to_list (nodes g)).

(** [MATCH (n:VNode {id: vnid})] *)
Definition vnodes_with_id (vnid : VNID) (g : Graph) : list nat :=
  (match_nodes (λ n, has_label "VNode" n && has_vnid vnid n) g).*1.

(** Does the node with this identity exist and satisfy [P]? *)
Definition node_is (P : NodeData → bool) (g : Graph) (i : nat) : bool :=
  match nodes g !! i with
  | Some n => P n
  | None => false
  end.

(** [SET n:to REMOVE n:from] *)
Definition swap_label (from to : string) (n : NodeData) : NodeData :=
  {| labels := filter (λ l, l ≠ from)
                 (if has_label to n then labels n
                  else (labels n ++ [to])%list);
     properties := properties n |}.

Definition update_nodes_where (P : NodeData → bool)
    (f : NodeData → NodeData) (g : Graph) : Graph :=
  {| nodes := (λ n, if P n then f n else n) <$> nodes g;
     rels := rels g |}.

(** [apoc.create.setProperty(node, p, v)]; a [null] value removes the
    property. *)
Definition set_property (i : nat) (p : string) (v : option PropValue)
    (g : Graph) : Graph :=
  {| nodes := alter (λ n, {| labels := labels n;
                             properties := partial_alter (λ _, v) p
                                             (properties n) |}) i (nodes g);
     rels := rels g |}.

(** Creating a relationship gives it an unused identity. *)
Definition create_relationship (r : Rel) (g : Graph) : Graph :=
  {| nodes := nodes g;
     rels := <[fresh (dom (rels g)) := r]> (rels g) |}.

Definition delete_relationships (ids : list nat) (g : Graph) : Graph :=
  {| nodes := nodes g;
     rels := foldr delete (rels g) ids |}.

(** ** Write transactions *)

(** [Vertex._restrictedWrite]: the code runs inside one write transaction
    of the driver; when it throws, the transaction is rolled back and the
    store is as before. *)
Definition _restrictedWrite {A} (code : Graph → Result (A * Graph))
    (g : Graph) : Result A * Graph :=
  match code g with
  | Ok (a, g') => (Ok a, g')
  | Err e => (Err e, g)
  end.

(** ** updateToOneRelationship *)

(** The argument [to]: a key or [null], or an object [{key,
    ...relationshipProps}]. *)
Inductive ToArg :=
  | ToKey (key : option string)
  | ToSpec (key : option string) (relationshipProps : Props).

Definition toKey_of (to : ToArg) : option string :=
  match to with
  | ToKey key => key
  | ToSpec key _ => key
  end.

Definition relationshipProps_of (to : ToArg) : Props :=
  match to with
  | ToKey _ => ∅
  | ToSpec _ relationshipProps => relationshipProps
  end.

Definition getRelationshipType (rel : RelationshipDeclaration)
    : Result string :=
  match relTypeKey rel with
  | Some result => Ok result
  | None =>
      Err (Error "A VNodeType's relationships were not declared using this.hasRelationshipsFromThisTo({...})")
  end.

(** The object [{key: key, ...props}]: a property named [key] of the
    relationship would overwrite the key. *)
Definition relationship_spec (key : option PropValue) (props : Props)
    : gmap string (option PropValue) :=
  (Some <$> props) ∪ {[ "key" := key ]}.

(** [{key: rows[0]["target.id"], ...rows[0].relProps}], or [{key: null}]
    when there is no row. *)
Definition prevTo_of (g : Graph) (rows : list (nat * Rel))
    : gmap string (option PropValue) :=
  match head rows with
  | Some row => relationship_spec (nodes g !! rend row.2
                                     ≫= λ n, properties n !! "id")
                  (rprops row.2)
  | None => {[ "key" := None ]}
  end.

(** [(start)-[rel:relType]->(target:VNode)] for the start nodes [P]. *)
Definition outgoing (g : Graph) (P : nat → bool) (relType : string)
    : list (nat * Rel) :=
  filter (λ x : nat * Rel,
            rtype x.2 = relType ∧ P (rstart x.2) = true
            ∧ node_is (has_label "VNode") g (rend x.2) = true)
    (map_to_list (rels g)).

(** [(self)-[rel:relType]->(target)], whatever the labels of the target. *)
Definition merge_matches (g : Graph) (relType : string) (self target : nat)
    : list nat :=
  (filter (λ x : nat * Rel,
             rtype x.2 = relType ∧ rstart x.2 = self ∧ rend x.2 = target)
     (map_to_list (rels g))).*1.

(** [MERGE (self)-[rel:relType]->(target)] for one row [(self, target)]:
    the rows [(self, rel)] for every relationship matched, or for the one
    created when there is none. *)
Definition merge_row (relType : string) (st : Graph * list (nat * nat))
    (row : nat * nat) : Graph * list (nat * nat) :=
  let ms := merge_matches st.1 relType row.1 row.2 in
  if bool_decide (ms = []) then
    (create_relationship (mkRel relType row.1 row.2 ∅) st.1,
     st.2 ++ [(row.1, fresh (dom (rels st.1)))])
  else (st.1, st.2 ++ ((λ i, (row.1, i)) <$> ms)).

(** [SET rel = $relationshipProps] *)
Definition set_rel_properties (props : Props) (g : Graph) (i : nat) : Graph :=
  {| nodes := nodes g;
     rels := alter (λ r, mkRel (rtype r) (rstart r) (rend r) props) i
               (rels g) |}.

(** [OPTIONAL MATCH (self)-[oldRel:relType]->(oldTarget:VNode)
     WHERE oldRel <> rel] for one row [(self, rel)]. *)
Definition other_rels (g : Graph) (relType : string) (row : nat * nat)
    : list nat :=
  filter (λ i, i ≠ row.2)
    (outgoing g (λ i, bool_decide (i = row.1)) relType).*1.


Section UpdateToOneRelationship.

(** The queries use two pieces of the Cypher sugar of layer 2, which is not
    embedded here and stays a parameter: the labels that an interpolated
    VNode type stands for in a node pattern, and the predicate
    [target HAS KEY $key]. *)
Variable type_labels : BaseVNodeType → list string.
Variable has_key : Graph → nat → string → bool.

(** [(:${fromType} {id: ${fromId}})] *)
Definition is_from (fromType : BaseVNodeType) (fromId : VNID) (n : NodeData)
    : bool :=
  forallb (λ l, has_label l n) (type_labels fromType) && has_vnid fromId n.

Definition from_nodes (g : Graph) (fromType : BaseVNodeType) (fromId : VNID)
    : list nat :=
  (match_nodes (is_from fromType fromId) g).*1.

(** [MATCH (target:VNode), target HAS KEY $toKey WHERE target:L1 OR ...] *)
Definition target_nodes (g : Graph) (targetLabels : list string)
    (toKey : string) : list nat :=
  (filter (λ x : nat * NodeData,
             has_label "VNode" x.2 = true ∧ has_key g x.1 toKey = true
             ∧ existsb (λ l, has_label l x.2) targetLabels = true)
     (map_to_list (nodes g))).*1.

Definition updateToOneRelationship (from : BaseVNodeType * VNID)
    (rel : RelationshipDeclaration) (to : ToArg) (g : Graph)
    : Result (gmap string (option PropValue) * Graph) :=
  let fromType := from.1 in
  let fromId := from.2 in
  relType ← getRelationshipType rel;
  let toKey := toKey_of to in
  let relationshipProps := relationshipProps_of to in
  throw_if (bool_decide (vt_rel fromType !! relType ≠ Some rel))
    (Error ("Mismatch between relationship " +:+ relType +:+ " and VNodeType "
            +:+ label fromType
            +:+ " which doesn't declare that exact relationship."));;
  let targetLabels := rel_to rel in
  match toKey with
  | None =>
      (* clear the relationship *)
      let delResult :=
        outgoing g (node_is (is_from fromType fromId) g) relType in
      Ok (prevTo_of g delResult, delete_relationships delResult.*1 g)
  | Some toKey =>
      (* an empty list of labels leaves [WHERE] without a condition *)
      throw_if (bool_decide (targetLabels = []))
        (Neo4jError "Invalid input: expected an expression");;
      let rows := self ← from_nodes g fromType fromId;
                  target ← target_nodes g targetLabels toKey;
                  [(self, target)] in
      let oldTargets (self : nat) :=
        outgoing g (λ i, bool_decide (i = self)) relType in
      let merged := foldl (merge_row relType) (g, []) rows in
      let g1 := foldl (set_rel_properties relationshipProps)
                  merged.1 merged.2.*2 in
      let mergeResult :=
        row ← merged.2;
        replicate (length (other_rels g1 relType row) `max` 1)
          (oldTargets row.1) in
      let g2 := delete_relationships
                  (row ← merged.2; other_rels g1 relType row) g1 in
      match mergeResult with
      | [] =>
          Err (Error ("Cannot change " +:+ name fromType +:+ " relationship "
                      +:+ relType +:+ " to " +:+ dquote +:+ toKey +:+ dquote
                      +:+ " - target not found."))
      | row :: _ => Ok (prevTo_of g row, g2)
      end
  end.

End UpdateToOneRelationship.

(** ** The trackActionChanges trigger *)

(** The transaction data APOC hands to a trigger ([$createdNodes],
    [$deletedNodes], ...).  Nodes are given by their identity; a
    relationship by its identity and its type, ends and properties.  The
    maps are keyed by label, respectively by property name. *)
Module TxData.

Record PropChange (R : Type) := {
  key : string;
  old : option PropValue;
  new : option PropValue;
  ref : R
}.
Arguments key {R} _.
Arguments old {R} _.
Arguments new {R} _.
Arguments ref {R} _.

#[global] Instance PropChange_eq_dec `{EqDecision R} :
  EqDecision (PropChange R).
Proof. solve_decision. Defined.

Record t := {
  createdNodes : list nat;
  deletedNodes : list nat;
  assignedLabels : gmap string (list nat);
  removedLabels : gmap string (list nat);
  assignedNodeProperties : gmap string (list (PropChange nat));
  removedNodeProperties : gmap string (list (PropChange nat));
  createdRelationships : list (nat * Rel);
  deletedRelationships : list (nat * Rel);
  assignedRelationshipProperties : gmap string (list (PropChange (nat * Rel)));
  removedRelationshipProperties : gmap string (list (PropChange (nat * Rel)))
}.

End TxData.

(** One element of the list the trigger unwinds: [{modifiedNode,
    changeDetails}]. *)
Record Change := {
  modifiedNode : nat;
  changeDetails : list (string * option PropValue)
}.

Definition node_labels (g : Graph) (i : nat) : list string :=
  match nodes g !! i with
  | Some n => labels n
  | None => []
  end.

(** [n:l] *)
Definition labelled (g : Graph) (l : string) (i : nat) : bool :=
  bool_decide (l ∈ node_labels g i).

(** [n.id] *)
Definition node_vnid (g : Graph) (i : nat) : option PropValue :=
  nodes g !! i ≫= λ n, properties n !! "id".

(** [apoc.coll.flatten(apoc.map.values(m, keys(m)))] *)
Definition flatten_values {A} (m : gmap string (list A)) : list A :=
  mjoin (map_to_list m).*2.

(** The [{label, node}] pairs made from a map of label to nodes. *)
Definition label_pairs (m : gmap string (list nat)) : list (string * nat) :=
  kv ← map_to_list m; (λ n, (kv.1, n)) <$> kv.2.

(** [[n IN $createdNodes WHERE n:Action:VNode]] *)
Definition created_actions (g : Graph) (tx : TxData.t) : list nat :=
  filter (λ n, labelled g "Action" n = true ∧ labelled g "VNode" n = true)
    (TxData.createdNodes tx).

Definition msg_one_action (found : nat) : string :=
  "every data write transaction should be associated with one Action, found "
  +:+ pretty found.

Definition msg_rel_props : string :=
  "Changing relationship properties is not supported by Vertex Framework. Delete and re-create it instead.".

(** [$removedLabels['VNode']]; a missing key gives [null], and [dn IN null]
    is not true. *)
Definition nodes_of_label (m : gmap string (list nat)) (l : string)
    : list nat :=
  default [] (m !! l).

(** The fully deleted nodes that had the VNode or the DeletedVNode label. *)
Definition deleted_vnodes (tx : TxData.t) : list nat :=
  filter (λ dn, dn ∈ nodes_of_label (TxData.removedLabels tx) "VNode"
                ∨ dn ∈ nodes_of_label (TxData.removedLabels tx) "DeletedVNode")
    (TxData.deletedNodes tx).

Definition trigger_createdNodes (g : Graph) (tx : TxData.t) : list Change :=
  (λ n, {| modifiedNode := n;
           changeDetails :=
             [("created", Some (PStr (String.concat "," (node_labels g n))))] |})
  <$> filter (λ n, labelled g "Action" n = false ∧ labelled g "SlugId" n = false)
        (TxData.createdNodes tx).

Definition trigger_newLabels (g : Graph) (tx : TxData.t) : list Change :=
  (λ pair, {| modifiedNode := pair.2;
              changeDetails := [("addedLabel:" +:+ pair.1, Some (PBool true))] |})
  <$> filter (λ pair, (labelled g "VNode" pair.2 = true
                       ∨ labelled g "DeletedVNode" pair.2 = true)
                      ∧ (pair.2 ∉ TxData.createdNodes tx))
        (label_pairs (TxData.assignedLabels tx)).

Definition trigger_removedLabels (g : Graph) (tx : TxData.t) : list Change :=
  (λ pair, {| modifiedNode := pair.2;
              changeDetails := [("removedLabel:" +:+ pair.1, Some (PBool true))] |})
  <$> filter (λ pair, (labelled g "VNode" pair.2 = true
                       ∨ labelled g "DeletedVNode" pair.2 = true)
                      ∧ (pair.2 ∉ TxData.deletedNodes tx))
        (label_pairs (TxData.removedLabels tx)).

Definition node_property_changes (tx : TxData.t)
    : list (TxData.PropChange nat) :=
  flatten_values (TxData.assignedNodeProperties tx)
  ++ flatten_values (TxData.removedNodeProperties tx).

Definition trigger_newPropertyNodes (g : Graph) (action : nat)
    (tx : TxData.t) : list Change :=
  (λ changedPropData,
     {| modifiedNode := TxData.ref changedPropData;
        changeDetails :=
          [("newProp:" +:+ TxData.key changedPropData,
            TxData.new changedPropData);
           ("oldProp:" +:+ TxData.key changedPropData,
            TxData.old changedPropData)] |})
  <$> filter (λ changedPropData,
                labelled g "VNode" (TxData.ref changedPropData) = true
                ∧ TxData.ref changedPropData ≠ action
                ∧ (TxData.ref changedPropData ∉ TxData.deletedNodes tx))
        (node_property_changes tx).

Definition trigger_newRelationships (g : Graph) (action : nat)
    (tx : TxData.t) : list Change :=
  (λ r : nat * Rel,
     {| modifiedNode := rstart r.2;
        changeDetails :=
          ("newRel:" +:+ pretty r.1 +:+ ":" +:+ rtype r.2,
           node_vnid g (rend r.2))
          :: ((λ pv : string * PropValue,
                 ("newRelProp:" +:+ pretty r.1 +:+ ":" +:+ pv.1, Some pv.2))
              <$> map_to_list (rprops r.2)) |})
  <$> filter (λ r : nat * Rel,
                labelled g "VNode" (rstart r.2) = true
                ∧ rstart r.2 ≠ action ∧ rend r.2 ≠ action)
        (TxData.createdRelationships tx).

Definition trigger_deletedRelationships (g : Graph) (action : nat)
    (tx : TxData.t) : list Change :=
  (λ r : nat * Rel,
     {| modifiedNode := rstart r.2;
        changeDetails :=
          ("deletedRel:" +:+ pretty r.1 +:+ ":" +:+ rtype r.2,
           node_vnid g (rend r.2))
          :: ((λ chg : TxData.PropChange (nat * Rel),
                 ("deletedRelProp:" +:+ pretty r.1 +:+ ":" +:+ TxData.key chg,
                  TxData.old chg))
              <$> filter (λ chg : TxData.PropChange (nat * Rel),
                            (TxData.ref chg).1 = r.1)
                    (flatten_values (TxData.removedRelationshipProperties tx))) |})
  <$> filter (λ r : nat * Rel,
                (labelled g "VNode" (rstart r.2) = true
                 ∨ labelled g "DeletedVNode" (rstart r.2) = true)
                ∧ rstart r.2 ≠ action ∧ rend r.2 ≠ action
                ∧ (rstart r.2 ∉ TxData.deletedNodes tx)
                ∧ (rend r.2 ∉ TxData.deletedNodes tx))
        (TxData.deletedRelationships tx).

Definition rel_property_changes (tx : TxData.t)
    : list (TxData.PropChange (nat * Rel)) :=
  flatten_values (TxData.assignedRelationshipProperties tx)
  ++ flatten_values (TxData.removedRelationshipProperties tx).

(** The relationship property changes for which [preventRelChanges] reaches
    [apoc.util.validatePredicate(true, ...)]. *)
Definition trigger_preventRelChanges (g : Graph) (tx : TxData.t)
    : list (TxData.PropChange (nat * Rel)) :=
  filter (λ changedRelPropData,
            labelled g "VNode" (rstart (TxData.ref changedRelPropData).2) = true
            ∧ ((TxData.ref changedRelPropData).1
                 ∉ (TxData.createdRelationships tx).*1)
            ∧ ((TxData.ref changedRelPropData).1
                 ∉ (TxData.deletedRelationships tx).*1))
    (rel_property_changes tx).

(** The list the trigger unwinds. *)
Definition trigger_changes (g : Graph) (action : nat) (tx : TxData.t)
    : list Change :=
  trigger_createdNodes g tx ++ trigger_newLabels g tx
  ++ trigger_removedLabels g tx ++ trigger_newPropertyNodes g action tx
  ++ trigger_newRelationships g action tx
  ++ trigger_deletedRelationships g action tx.

(** [OPTIONAL MATCH (action)-[modRel:MODIFIED]->(modifiedNode)] *)
Definition modified_rels (g : Graph) (action node : nat) : list nat :=
  (filter (λ x : nat * Rel, rtype x.2 = "MODIFIED" ∧ rstart x.2 = action
                            ∧ rend x.2 = node)
     (map_to_list (rels g))).*1.

Definition msg_not_marked (g : Graph) (action : nat) (change : Change)
    : string :=
  "A :" +:+ default "null" (last (node_labels g (modifiedNode change)))
  +:+ " node was modified by this "
  +:+ match nodes g !! action ≫= λ n, properties n !! "type" with
      | Some (PStr type) => type
      | _ => "null"
      end
  +:+ " action (" +:+ default "null" (head (changeDetails change).*1)
  +:+ ") but not explicitly marked as modified by the Action.".

(** [SET modRel += changeDetails]; a [null] value removes the key. *)
Definition add_details (details : list (string * option PropValue))
    (props : Props) : Props :=
  foldl (λ m kv, partial_alter (λ _, kv.2) kv.1 m) props details.

Definition set_rel_details (details : list (string * option PropValue))
    (g : Graph) (modRel : nat) : Graph :=
  {| nodes := nodes g;
     rels := alter (λ r, mkRel (rtype r) (rstart r) (rend r)
                           (add_details details (rprops r)))
               modRel (rels g) |}.

(** One unwound [change]: the validation of its MODIFIED relationship, then
    the [SET]. *)
Definition record_change (action : nat) (acc : Result Graph)
    (change : Change) : Result Graph :=
  g ← acc;
  let modRels := modified_rels g action (modifiedNode change) in
  throw_if (bool_decide (modRels = []))
    (Neo4jError (msg_not_marked g action change));;
  Ok (foldl (set_rel_details (changeDetails change)) g modRels).

(** The trigger, run in the "before" phase on the store [g] as the
    transaction's own writes left it. *)
Definition trackActionChanges (g : Graph) (tx : TxData.t) : Result Graph :=
  let actions := created_actions g tx in
  throw_if (bool_decide (length actions ≠ 1))
    (Neo4jError (msg_one_action (length actions)));;
  match head actions with
  | None => Err (Neo4jError (msg_one_action (length actions)))
  | Some action =>
      let g := set_property action "deletedNodesCount"
                 (Some (PInt (Z.of_nat (length (deleted_vnodes tx))))) g in
      throw_if (bool_decide (trigger_preventRelChanges g tx ≠ []))
        (Neo4jError msg_rel_props);;
      foldl (record_change action) (Ok g) (trigger_changes g action tx)
  end.

(** A write transaction with the trigger installed: [before] is the store
    when the transaction began, [after] the store as its writes left it and
    [tx] its transaction data.  When the trigger fails the transaction is
    rolled back. *)
Definition commit (before after : Graph) (tx : TxData.t)
    : Result unit * Graph :=
  match trackActionChanges after tx with
  | Ok g => (Ok tt, g)
  | Err e => (Err e, before)
  end.

(** The Action has a MODIFIED relationship to the node. *)
Definition linked (g : Graph) (action n : nat) : Prop :=
  ∃ i r, rels g !! i = Some r
         ∧ rtype r = "MODIFIED" ∧ rstart r = action ∧ rend r = n.

(** The nodes for which the trigger records a change, read off the
    transaction data: the six list comprehensions of the trigger. *)
Definition recorded_change (g : Graph) (action : nat) (tx : TxData.t)
    (n : nat) : Prop :=
  (* a created node that is neither an Action nor a SlugId *)
  (n ∈ TxData.createdNodes tx
   ∧ labelled g "Action" n = false ∧ labelled g "SlugId" n = false)
  (* a label added to a (soft-deleted) VNode that was not created here *)
  ∨ ((∃ l ns, TxData.assignedLabels tx !! l = Some ns ∧ n ∈ ns)
     ∧ (labelled g "VNode" n = true ∨ labelled g "DeletedVNode" n = true)
     ∧ (n ∉ TxData.createdNodes tx))
  (* a label removed from a (soft-deleted) VNode that was not deleted *)
  ∨ ((∃ l ns, TxData.removedLabels tx !! l = Some ns ∧ n ∈ ns)
     ∧ (labelled g "VNode" n = true ∨ labelled g "DeletedVNode" n = true)
     ∧ (n ∉ TxData.deletedNodes tx))
  (* a property assigned or removed on a VNode other than the Action *)
  ∨ ((∃ chg, chg ∈ node_property_changes tx ∧ TxData.ref chg = n)
     ∧ labelled g "VNode" n = true ∧ n ≠ action
     ∧ (n ∉ TxData.deletedNodes tx))
  (* a relationship created from a VNode, neither end being the Action *)
  ∨ (∃ r, r ∈ TxData.createdRelationships tx ∧ rstart r.2 = n
          ∧ labelled g "VNode" n = true ∧ n ≠ action ∧ rend r.2 ≠ action)
  (* a relationship deleted from a (soft-deleted) VNode, neither end being
     the Action or a deleted node *)
  ∨ (∃ r, r ∈ TxData.deletedRelationships tx ∧ rstart r.2 = n
          ∧ (labelled g "VNode" n = true ∨ labelled g "DeletedVNode" n = true)
          ∧ n ≠ action ∧ rend r.2 ≠ action
          ∧ (n ∉ TxData.deletedNodes tx)
          ∧ (rend r.2 ∉ TxData.deletedNodes tx)).

(** ** UndoAction *)

(** The change set of an Action, as [getActionChanges] hands it to
    [UndoAction].  That helper and the [pullOne] read belong to other
    modules (action-changes, pull) that are not embedded here: their
    results are arguments of [UndoAction_apply].  The fields are the ones
    that [UndoAction.apply] reads. *)
Record CreatedNode := {
  cn_id : VNID;
  cn_properties : list (string * option PropValue)
}.

Record ModifiedNode := {
  mn_id : VNID;
  (* property name ↦ {old, new} *)
  mn_properties : list (string * (option PropValue * option PropValue))
}.

Record RelChange := {
  rc_type : string;
  rc_from : VNID;
  rc_to : VNID;
  rc_properties : Props
}.

#[global] Instance RelChange_eq_dec : EqDecision RelChange.
Proof. solve_decision. Defined.

Record ActionChangeSet := {
  createdNodes : list CreatedNode;
  modifiedNodes : list ModifiedNode;
  createdRelationships : list RelChange;
  deletedRelationships : list RelChange;
  softDeletedNodes : list VNID;
  unDeletedNodes : list VNID;
  deletedNodesCount : nat
}.

(** The result of
    [tx.pullOne(Action, a => a.deletedNodesCount.revertedBy(ra => ra.id))]. *)
Record PrevAction := {
  pa_deletedNodesCount : nat;
  revertedBy : option VNID
}.

Definition msg_already_undone : string :=
  "That action was already undone.".
Definition msg_permanently_deleted : string :=
  "Cannot undo an Action that permanently deleted data.".
Definition msg_cannot_recreate : string :=
  "One of the nodes relationships deleted by that action cannot be re-created; cannot undo.".
Definition msg_property_changed : string :=
  "One of the node properties changed by that action has since been changed; cannot undo.".
Definition msg_cannot_delete : string :=
  "One of the relationships created by that action cannot be deleted; cannot undo.".
Definition msg_since_deleted : string :=
  "One of the nodes created by that action has since been deleted; cannot undo.".
Definition msg_internal : string :=
  "Internal error, couldn't match current node to created node record.".
Definition msg_new_property : string :=
  "One of the nodes created by that action has since been modified (new property); cannot undo.".
Definition msg_modified (propName : string) : string :=
  "One of the nodes created by that action has since been modified (property "
  +:+ propName +:+ " changed); cannot undo.".

(** Restore soft deleted nodes:
    [MATCH (n:DeletedVNode) WHERE n.id IN $ids SET n:VNode REMOVE n:DeletedVNode] *)
Definition restore_soft_deleted (ids : list VNID) (g : Graph) : Graph :=
  update_nodes_where (λ n, has_label "DeletedVNode" n && vnid_in ids n)
    (swap_label "DeletedVNode" "VNode") g.

(** [MATCH (n:VNode) WHERE n.id IN $ids SET n:DeletedVNode REMOVE n:VNode] *)
Definition soft_delete (ids : list VNID) (g : Graph) : Graph :=
  update_nodes_where (λ n, has_label "VNode" n && vnid_in ids n)
    (swap_label "VNode" "DeletedVNode") g.

(** Restore deleted relationships: one row, and one new relationship, for
    every record and every pair of VNodes matching its two ends. *)
Definition recreate_rows (drs : list RelChange) (g : Graph) : list Rel :=
  dr ← drs;
  from ← vnodes_with_id (rc_from dr) g;
  to ← vnodes_with_id (rc_to dr) g;
  [mkRel (rc_type dr) from to (rc_properties dr)].

Definition restore_deleted_relationships (drs : list RelChange) (g : Graph)
    : nat * Graph :=
  let rows := recreate_rows drs g in
  (length rows, foldl (λ g r, create_relationship r g) g rows).

(** [(newValue IS NULL AND node[p] IS NULL) OR (node[p] = newValue)];
    a comparison with [null] is not true. *)
Definition still_new (current newValue : option PropValue) : bool :=
  match newValue, current with
  | None, None => true
  | Some v, Some c => bool_decide (c = v)
  | _, _ => false
  end.

Definition current_property (g : Graph) (i : nat) (p : string)
    : option PropValue :=
  nodes g !! i ≫= λ n, properties n !! p.

(** One row of the property query: the node [i] and one changed property of
    its record.  A row that passes the [WHERE] sets the old value and is
    returned. *)
Definition revert_property (i : nat)
    (entry : string * (option PropValue * option PropValue))
    (st : nat * Graph) : nat * Graph :=
  if still_new (current_property st.2 i entry.1) entry.2.2
  then (S st.1, set_property i entry.1 entry.2.1 st.2)
  else st.

(** Change any modified properties: [UNWIND $modifiedNodes AS change MATCH
    (node:VNode {id: change.id}) ... UNWIND keys(change.properties)].  The
    result is the number of rows returned and the new store. *)
Definition revert_modified_nodes (mns : list ModifiedNode) (g : Graph)
    : nat * Graph :=
  foldl (λ st change,
           foldl (λ st i,
                    foldl (λ st entry, revert_property i entry st)
                      st (mn_properties change))
             st (vnodes_with_id (mn_id change) st.2))
    (0, g) mns.

(** [MATCH (from:VNode {id: cr.from})-[rel]->(to:VNode {id: cr.to})
     WHERE type(rel) = cr.type AND properties(rel) = cr.properties] *)
Definition matching_rels (cr : RelChange) (g : Graph) : list nat :=
  (filter (λ x, rtype x.2 = rc_type cr
                ∧ rprops x.2 = rc_properties cr
                ∧ node_is (λ n, has_label "VNode" n
                                && has_vnid (rc_from cr) n) g (rstart x.2) = true
                ∧ node_is (λ n, has_label "VNode" n
                                && has_vnid (rc_to cr) n) g (rend x.2) = true)
     (map_to_list (rels g))).*1.

(** Delete any created relationships.  [WITH createdRelationship,
    head(collect(rel))] groups the matches by the record, so equal records
    make one group, and a record without a match makes none; one
    relationship per group is deleted and one row returned. *)
Definition delete_created_relationships (crs : list RelChange) (g : Graph)
    : nat * Graph :=
  let victims := omap (λ cr, head (matching_rels cr g)) (remove_dups crs) in
  (length victims, delete_relationships victims g).

(** [currentProperties[propName] ?? null !== createdValue]: [!==] binds
    tighter than [??], so this is
    [currentProperties[propName] ?? (null !== createdValue)], and the [if]
    takes its truthiness. *)
Definition property_check (current createdValue : option PropValue) : bool :=
  match current with
  | Some v => truthy v
  | None => bool_decide (createdValue ≠ None)
  end.

(** One step of [Object.entries(createdProperties).forEach(...)]: nothing
    more is checked once a callback has thrown. *)
Definition check_property (currentProperties : Props) (acc : Result unit)
    (entry : string * option PropValue) : Result unit :=
  acc;;
  throw_if (property_check (currentProperties !! entry.1) entry.2)
    (UndoConflictError (msg_modified entry.1)).

(** The body of [for (const row of createdNodesNow)]. *)
Definition check_created_node (cns : list CreatedNode) (n : NodeData)
    : Result unit :=
  let currentProperties := properties n in
  match (s ← (match currentProperties !! "id" with
              | Some (PStr s) => Some s
              | _ => None
              end);
         find (λ cn, bool_decide (cn_id cn = s)) cns) with
  | None => Err (Error msg_internal)
  | Some cn =>
      let createdProperties := cn_properties cn in
      throw_if (bool_decide (length createdProperties < size currentProperties))
        (UndoConflictError msg_new_property);;
      foldl (check_property currentProperties) (Ok tt) createdProperties
  end.

(** One turn of [for (const row of createdNodesNow)]: [row.n] is the node
    as the query left it. *)
Definition check_row (cns : list CreatedNode) (g : Graph) (acc : Result unit)
    (i : nat) : Result unit :=
  acc;;
  match nodes g !! i with
  | Some n => check_created_node cns n
  | None => Ok tt
  end.

(** [Set.add] and [Array.from]: insertion order, no duplicates. *)
Definition set_add (s : list VNID) (x : VNID) : list VNID :=
  if bool_decide (x ∈ s) then s else (s ++ [x])%list.

Definition undo_modifiedNodes (changes : ActionChangeSet) : list VNID :=
  foldl set_add []
    ((cn_id <$> createdNodes changes)
     ++ (rc_from <$> createdRelationships changes)
     ++ (rc_from <$> deletedRelationships changes)
     ++ (mn_id <$> modifiedNodes changes)
     ++ softDeletedNodes changes
     ++ unDeletedNodes changes)%list.

(** [UndoAction.apply]: the result is the list [modifiedNodes] (the
    [resultData] is empty) and the store after the queries. *)
Definition UndoAction_apply (prevAction : PrevAction)
    (changes : ActionChangeSet) (g : Graph) : Result (list VNID * Graph) :=
  throw_if (bool_decide (revertedBy prevAction ≠ None))
    (UndoConflictError msg_already_undone);;
  throw_if (bool_decide (0 < deletedNodesCount changes))
    (UndoConflictError msg_permanently_deleted);;
  (* Restore soft deleted nodes *)
  let g := if bool_decide (0 < length (softDeletedNodes changes))
           then restore_soft_deleted (softDeletedNodes changes) g else g in
  (* Restore any deleted relationships *)
  g ← (if bool_decide (0 < length (deletedRelationships changes)) then
         let relsCreated :=
           restore_deleted_relationships (deletedRelationships changes) g in
         throw_if (bool_decide (relsCreated.1
                                ≠ length (deletedRelationships changes)))
           (UndoConflictError msg_cannot_recreate);;
         Ok relsCreated.2
       else Ok g);
  (* Change any modified properties *)
  g ← (if bool_decide (0 < length (modifiedNodes changes)) then
         let nodesWithModifiedProperties :=
           revert_modified_nodes (modifiedNodes changes) g in
         throw_if (bool_decide (nodesWithModifiedProperties.1
                                ≠ length (modifiedNodes changes)))
           (UndoConflictError msg_property_changed);;
         Ok nodesWithModifiedProperties.2
       else Ok g);
  (* Delete any created relationships *)
  g ← (if bool_decide (0 < length (createdRelationships changes)) then
         let relsDeleted :=
           delete_created_relationships (createdRelationships changes) g in
         throw_if (bool_decide (relsDeleted.1
                                ≠ length (createdRelationships changes)))
           (UndoConflictError msg_cannot_delete);;
         Ok relsDeleted.2
       else Ok g);
  (* Soft delete any created nodes *)
  g ← (if bool_decide (0 < length (createdNodes changes)) then
         let ids := cn_id <$> createdNodes changes in
         let g' := soft_delete ids g in
         let createdNodesNow :=
           (match_nodes (λ n, has_label "VNode" n && vnid_in ids n) g).*1 in
         throw_if (bool_decide (length createdNodesNow
                                < length (createdNodes changes)))
           (UndoConflictError msg_since_deleted);;
         foldl (check_row (createdNodes changes) g') (Ok tt) createdNodesNow;;
         Ok g'
       else Ok g);
  (* Re-delete un-deleted nodes *)
  let g := soft_delete (unDeletedNodes changes) g in
  Ok (undo_modifiedNodes changes, g).

(** ** The movie scenario of the UndoAction tests *)

Module Scenario.

Definition system_user : NodeData :=
  mkNode ["User"; "VNode"]
    (list_to_map [("id", PStr "_0"); ("slugId", PStr "user-system");
                  ("fullName", PStr "System")]).

Definition action_node (id type : string) : NodeData :=
  mkNode ["Action"; "VNode"]
    (list_to_map [("id", PStr id); ("type", PStr type);
                  ("deletedNodesCount", PInt 0)]).

Definition mcu : NodeData :=
  mkNode ["TestMovieFranchise"; "VNode"]
    (list_to_map [("id", PStr "_mcu"); ("slugId", PStr "mcu");
                  ("name", PStr "Marvel Cinematic Universe")]).

Definition guardians : NodeData :=
  mkNode ["TestMovie"; "VNode"]
    (list_to_map [("id", PStr "_gg"); ("slugId", PStr "guardians-galaxy");
                  ("title", PStr "Guardians of the Galaxy");
                  ("year", PInt 2014)]).

Definition slug (s : string) : NodeData :=
  mkNode ["SlugId"] (list_to_map [("slugId", PStr s)]).

(** After Action1 = CreateMovieFranchise({slugId: "mcu", ...}). *)
Definition after1 : Graph :=
  {| nodes := list_to_map
       [(0, system_user); (1, action_node "_a1" "CreateMovieFranchise");
        (2, mcu); (3, slug "mcu")];
     rels := list_to_map
       [(0, mkRel "PERFORMED" 0 1 ∅);
        (1, mkRel "MODIFIED" 1 2
              {[ "created" := PStr "TestMovieFranchise,VNode" ]});
        (2, mkRel "IDENTIFIES" 3 2 ∅)] |}.

(** After Action2 = CreateMovie({slugId: "guardians-galaxy", ...,
    franchiseId: "mcu"}). *)
Definition after2 : Graph :=
  {| nodes := <[4 := action_node "_a2" "CreateMovie"]>
                (<[5 := guardians]>
                   (<[6 := slug "guardians-galaxy"]> (nodes after1)));
     rels := <[3 := mkRel "PERFORMED" 0 4 ∅]>
               (<[4 := mkRel "MODIFIED" 4 5
                         {[ "created" := PStr "TestMovie,VNode" ]}]>
                  (<[5 := mkRel "IDENTIFIES" 6 5 ∅]>
                     (<[6 := mkRel "FRANCHISE_IS" 5 2 ∅]> (rels after1)))) |}.

(** After UpdateMovie({key: "guardians-galaxy", franchiseId: null}): the
    FRANCHISE_IS relationship is gone. *)
Definition after3 : Graph :=
  {| nodes := <[7 := action_node "_a3" "UpdateMovie"]> (nodes after2);
     rels := <[7 := mkRel "PERFORMED" 0 7 ∅]>
               (<[8 := mkRel "MODIFIED" 7 5 ∅]>
                  (delete 6 (rels after2))) |}.

(** What the reads return for an Action that was not reverted and deleted
    nothing. *)
Definition not_reverted : PrevAction :=
  {| pa_deletedNodesCount := 0; revertedBy := None |}.

Definition changes1 : ActionChangeSet :=
  {| createdNodes :=
       [ {| cn_id := "_mcu";
            cn_properties :=
              [("id", Some (PStr "_mcu")); ("slugId", Some (PStr "mcu"));
               ("name", Some (PStr "Marvel Cinematic Universe"))] |} ];
     modifiedNodes := [];
     createdRelationships := [];
     deletedRelationships := [];
     softDeletedNodes := [];
     unDeletedNodes := [];
     deletedNodesCount := 0 |}.

Definition franchise_is : RelChange :=
  {| rc_type := "FRANCHISE_IS"; rc_from := "_gg"; rc_to := "_mcu";
     rc_properties := ∅ |}.

Definition changes2 : ActionChangeSet :=
  {| createdNodes :=
       [ {| cn_id := "_gg";
            cn_properties :=
              [("id", Some (PStr "_gg"));
               ("slugId", Some (PStr "guardians-galaxy"));
               ("title", Some (PStr "Guardians of the Galaxy"));
               ("year", Some (PInt 2014))] |} ];
     modifiedNodes := [];
     createdRelationships := [franchise_is];
     deletedRelationships := [];
     softDeletedNodes := [];
     unDeletedNodes := [];
     deletedNodesCount := 0 |}.

(** An update of two properties of the movie: the title and the year. *)
Definition changes_update : ActionChangeSet :=
  {| createdNodes := [];
     modifiedNodes :=
       [ {| mn_id := "_gg";
            mn_properties :=
              [("title", (Some (PStr "Guardians of the Galaxy"),
                          Some (PStr "Guardians of the Galaxy Vol. 1")));
               ("year", (Some (PInt 2014), Some (PInt 2015)))] |} ];
     createdRelationships := [];
     deletedRelationships := [];
     softDeletedNodes := [];
     unDeletedNodes := [];
     deletedNodesCount := 0 |}.

Definition movie_with (title : string) (year : Z) : NodeData :=
  mkNode ["TestMovie"; "VNode"]
    (list_to_map [("id", PStr "_gg"); ("slugId", PStr "guardians-galaxy");
                  ("title", PStr title); ("year", PInt year)]).

(** The store after that update, and after a later Action has set the
    year to 2016. *)
Definition year_changed_again : Graph :=
  {| nodes := <[5 := movie_with "Guardians of the Galaxy Vol. 1" 2016]>
                (nodes after2);
     rels := rels after2 |}.

(** The same store with the title put back and the year left at 2016. *)
Definition half_reverted : Graph :=
  {| nodes := <[5 := movie_with "Guardians of the Galaxy" 2016]>
                (nodes after2);
     rels := rels after2 |}.

(** *** Transactions for the trigger *)

Definition no_tx : TxData.t :=
  {| TxData.createdNodes := []; TxData.deletedNodes := [];
     TxData.assignedLabels := ∅; TxData.removedLabels := ∅;
     TxData.assignedNodeProperties := ∅; TxData.removedNodeProperties := ∅;
     TxData.createdRelationships := []; TxData.deletedRelationships := [];
     TxData.assignedRelationshipProperties := ∅;
     TxData.removedRelationshipProperties := ∅ |}.

(** The movie, soft-deleted: the VNode label is swapped for DeletedVNode and
    the relationship to the franchise stays. *)
Definition movie_soft_deleted : Graph :=
  {| nodes := <[5 := mkNode ["TestMovie"; "DeletedVNode"]
                       (properties guardians)]> (nodes after2);
     rels := rels after2 |}.

(** A write without an Action: the year of the movie is set. *)
Definition after_bare_write : Graph :=
  {| nodes := <[5 := movie_with "Guardians of the Galaxy" 2015]>
                (nodes after2);
     rels := rels after2 |}.

Definition bare_write : TxData.t :=
  {| TxData.createdNodes := []; TxData.deletedNodes := [];
     TxData.assignedLabels := ∅; TxData.removedLabels := ∅;
     TxData.assignedNodeProperties :=
       {[ "year" := [ {| TxData.key := "year";
                         TxData.old := Some (PInt 2014);
                         TxData.new := Some (PInt 2015);
                         TxData.ref := 5 |} ] ]};
     TxData.removedNodeProperties := ∅;
     TxData.createdRelationships := []; TxData.deletedRelationships := [];
     TxData.assignedRelationshipProperties := ∅;
     TxData.removedRelationshipProperties := ∅ |}.

(** The same write inside an Action (node 7, performed by the system user)
    that did not declare the movie as modified. *)
Definition after_undeclared_write : Graph :=
  {| nodes := <[7 := action_node "_a3" "GenericCypherAction"]>
                (nodes after_bare_write);
     rels := <[7 := mkRel "PERFORMED" 0 7 ∅]> (rels after2) |}.

Definition undeclared_write : TxData.t :=
  {| TxData.createdNodes := [7]; TxData.deletedNodes := [];
     TxData.assignedLabels := {[ "Action" := [7]; "VNode" := [7] ]};
     TxData.removedLabels := ∅;
     TxData.assignedNodeProperties :=
       TxData.assignedNodeProperties bare_write;
     TxData.removedNodeProperties := ∅;
     TxData.createdRelationships := [(7, mkRel "PERFORMED" 0 7 ∅)];
     TxData.deletedRelationships := [];
     TxData.assignedRelationshipProperties := ∅;
     TxData.removedRelationshipProperties := ∅ |}.

(** An Action (node 7) on the store with the soft-deleted movie: it sets
    the year of the soft-deleted movie and declares nothing. *)
Definition after_prop_write_on_deleted : Graph :=
  {| nodes := <[7 := action_node "_a3" "GenericCypherAction"]>
                (<[5 := mkNode ["TestMovie"; "DeletedVNode"]
                          (properties (movie_with "Guardians of the Galaxy" 2015))]>
                   (nodes after2));
     rels := <[7 := mkRel "PERFORMED" 0 7 ∅]> (rels after2) |}.

Definition prop_write_on_deleted : TxData.t :=
  {| TxData.createdNodes := [7]; TxData.deletedNodes := [];
     TxData.assignedLabels := {[ "Action" := [7]; "VNode" := [7] ]};
     TxData.removedLabels := ∅;
     TxData.assignedNodeProperties :=
       TxData.assignedNodeProperties bare_write;
     TxData.removedNodeProperties := ∅;
     TxData.createdRelationships := [(7, mkRel "PERFORMED" 0 7 ∅)];
     TxData.deletedRelationships := [];
     TxData.assignedRelationshipProperties := ∅;
     TxData.removedRelationshipProperties := ∅ |}.

(** The FRANCHISE_IS relationship of the movie (identity 6) with a property
    [since] set on it in place. *)
Definition franchise_rel_since : Rel :=
  mkRel "FRANCHISE_IS" 5 2 {[ "since" := PInt 2014 ]}.

Definition rel_since_change : TxData.PropChange (nat * Rel) :=
  {| TxData.key := "since"; TxData.old := None;
     TxData.new := Some (PInt 2014);
     TxData.ref := (6, franchise_rel_since) |}.

(** An Action (node 7) on the store with the soft-deleted movie that sets
    [since] on the relationship from the soft-deleted movie. *)
Definition after_rel_write_on_deleted : Graph :=
  {| nodes := <[7 := action_node "_a3" "GenericCypherAction"]>
                (nodes movie_soft_deleted);
     rels := <[7 := mkRel "PERFORMED" 0 7 ∅]>
               (<[6 := franchise_rel_since]> (rels after2)) |}.

Definition rel_write_on_deleted : TxData.t :=
  {| TxData.createdNodes := [7]; TxData.deletedNodes := [];
     TxData.assignedLabels := {[ "Action" := [7]; "VNode" := [7] ]};
     TxData.removedLabels := ∅;
     TxData.assignedNodeProperties := ∅;
     TxData.removedNodeProperties := ∅;
     TxData.createdRelationships := [(7, mkRel "PERFORMED" 0 7 ∅)];
     TxData.deletedRelationships := [];
     TxData.assignedRelationshipProperties :=
       {[ "since" := [rel_since_change] ]};
     TxData.removedRelationshipProperties := ∅ |}.

(** The same relationship property set while the movie is a VNode. *)
Definition after_rel_write : Graph :=
  {| nodes := <[7 := action_node "_a3" "GenericCypherAction"]>
                (nodes after2);
     rels := <[7 := mkRel "PERFORMED" 0 7 ∅]>
               (<[8 := mkRel "MODIFIED" 7 5 ∅]>
                  (<[6 := franchise_rel_since]> (rels after2))) |}.

Definition rel_write : TxData.t :=
  {| TxData.createdNodes := [7]; TxData.deletedNodes := [];
     TxData.assignedLabels := {[ "Action" := [7]; "VNode" := [7] ]};
     TxData.removedLabels := ∅;
     TxData.assignedNodeProperties := ∅;
     TxData.removedNodeProperties := ∅;
     TxData.createdRelationships :=
       [(7, mkRel "PERFORMED" 0 7 ∅); (8, mkRel "MODIFIED" 7 5 ∅)];
     TxData.deletedRelationships := [];
     TxData.assignedRelationshipProperties :=
       {[ "since" := [rel_since_change] ]};
     TxData.removedRelationshipProperties := ∅ |}.

(** *** The movie types and their to-one relationship *)

Definition franchise_is_decl : RelationshipDeclaration :=
  {| decl_ref := 1; rel_to := ["TestMovieFranchise"];
     relTypeKey := Some "FRANCHISE_IS" |}.

Definition Movie : BaseVNodeType :=
  {| label := "TestMovie"; name := "Movie";
     vt_properties :=
       [("id", {| nullable := false |}); ("slugId", {| nullable := false |});
        ("title", {| nullable := false |}); ("year", {| nullable := false |})];
     vt_rel := {[ "FRANCHISE_IS" := franchise_is_decl ]} |}.

(** An interpolated VNode type stands for its label and VNode. *)
Definition type_labels (vnt : BaseVNodeType) : list string :=
  [label vnt; "VNode"].

(** A key is the VNID or the current slugId of the node. *)
Definition has_key (g : Graph) (i : nat) (key : string) : bool :=
  node_is (λ n, bool_decide (properties n !! "id" = Some (PStr key))
                || bool_decide (properties n !! "slugId" = Some (PStr key)))
    g i.

Definition dcu : NodeData :=
  mkNode ["TestMovieFranchise"; "VNode"]
    (list_to_map [("id", PStr "_dcu"); ("slugId", PStr "dcu");
                  ("name", PStr "DC Universe")]).

(** A second franchise next to the first. *)
Definition two_franchises : Graph :=
  {| nodes := <[8 := dcu]> (nodes after2); rels := rels after2 |}.

(** The same store after the first franchise, to which the movie points,
    was soft-deleted. *)
Definition franchise_soft_deleted : Graph :=
  {| nodes := <[2 := mkNode ["TestMovieFranchise"; "DeletedVNode"]
                       (properties mcu)]> (nodes two_franchises);
     rels := rels after2 |}.

(** The movie points at the first franchise twice. *)
Definition doubled : Graph :=
  {| nodes := nodes two_franchises;
     rels := <[9 := mkRel "FRANCHISE_IS" 5 2 ∅]> (rels after2) |}.

(** The movie is pointed at the second franchise. *)
Definition retargeted : Graph :=
  {| nodes := nodes two_franchises;
     rels := <[7 := mkRel "FRANCHISE_IS" 5 8 ∅]> (delete 6 (rels after2)) |}.

(** *** Nodes as query results *)



(** A type that declares a property named like a method of
    [Object.prototype]: the constructor of a racing car. *)
Definition Car : BaseVNodeType :=
  {| label := "Car"; name := "Car";
     vt_properties :=
       [("id", {| nullable := false |});
        ("constructor", {| nullable := true |})];
     vt_rel := ∅ |}.

Definition car : NodeData :=
  mkNode ["Car"; "VNode"] (list_to_map [("id", PStr "_c1")]).

(** The movie as the driver returns it when the query did not ask for the
    year. *)
Definition movie_without_year : NodeData :=
  mkNode ["TestMovie"; "VNode"]
    (list_to_map [("id", PStr "_gg"); ("slugId", PStr "guardians-galaxy");
                  ("title", PStr "Guardians of the Galaxy")]).

End Scenario.

(** ** VDate (lib/types/vdate) *)

(** The table [DAYS_PER_MONTH]; the entry of February is [undefined]. *)
Definition DAYS_PER_MONTH : list (option Z) :=
  [Some 31; None; Some 31; Some 30; Some 31; Some 30;
   Some 31; Some 31; Some 30; Some 31; Some 30; Some 31]%Z.

(** [%] keeps the sign of the dividend, and [-0 === 0]. *)
Definition isLeapYear (year : Z) : bool :=
  (Z.rem year 4 =? 0)%Z
  && (negb (Z.rem year 100 =? 0)%Z || (Z.rem year 400 =? 0)%Z).

(** [DAYS_PER_MONTH[i]] for an integer index: [undefined] out of range. *)
Definition days_per_month_at (i : Z) : option Z :=
  if (i <? 0)%Z then None else mjoin (DAYS_PER_MONTH !! Z.to_nat i).

Record VDate := mkVDate {
  year : Z;
  month : Z;
  day : Z
}.

#[global] Instance VDate_eq_dec : EqDecision VDate.
Proof. solve_decision. Defined.

(** A string of JavaScript is taken as its sequence of code units, each in
    the range of [ascii] (0 to 255).  The white space that [parseInt]
    skips, in that range: TAB, LF, VT, FF, CR, SP and NBSP. *)
Definition is_whitespace (c : Ascii.ascii) : bool :=
  bool_decide (Ascii.nat_of_ascii c ∈ [9; 10; 11; 12; 13; 32; 160]).

Fixpoint trim_start (s : string) : string :=
  match s with
  | String c s' => if is_whitespace c then trim_start s' else s
  | EmptyString => s
  end.

Definition digit_of (c : Ascii.ascii) : option Z :=
  let n := Ascii.nat_of_ascii c in
  if bool_decide (48 ≤ n ≤ 57) then Some (Z.of_nat (n - 48)) else None.

(** The value of the longest prefix of decimal digits; [acc] is the value
    of the digits read so far, [None] when there are none. *)
Fixpoint parse_digits (acc : option Z) (s : string) : option Z :=
  match s with
  | String c s' =>
      match digit_of c with
      | Some d => parse_digits (Some (10 * default 0 acc + d))%Z s'
      | None => acc
      end
  | EmptyString => acc
  end.

(** [parseInt(s, 10)]; [None] is [NaN]. *)
Definition parseInt (s : string) : option Z :=
  match trim_start s with
  | String "-"%char s' => Z.opp <$> parse_digits None s'
  | String "+"%char s' => parse_digits None s'
  | s' => parse_digits None s'
  end.

(** [str.charAt(i) === c] *)
Definition charAt_is (str : string) (i : nat) (c : Ascii.ascii) : bool :=
  bool_decide (String.get i str = Some c).

Section VDate.

(** The constructor of the superclass, the [Date] of the database driver,
    checks the ranges of year, month and day; it is a parameter. *)
Variable neo4j_date_valid : Z → Z → Z → bool.

(** [new VDate(y, m, d)] *)
Definition VDate_new (y m d : Z) : Result VDate :=
  throw_if (negb (neo4j_date_valid y m d))
    (Neo4jError "value is out of range");;
  let maxDaysPerMonth :=
    default (if isLeapYear y then 29 else 28)%Z (days_per_month_at (m - 1)) in
  throw_if (d >? maxDaysPerMonth)%Z (Error "Invalid date");;
  Ok (mkVDate y m d).

(** [VDate.fromString] *)
Definition fromString (str : string) : Result VDate :=
  let year := parseInt (String.substring 0 4 str) in
  let month_day :=
    if bool_decide (String.length str = 10)
       && charAt_is str 4 "-"%char && charAt_is str 7 "-"%char then
      (* YYYY-MM-DD format, presumably *)
      (parseInt (String.substring 5 2 str), parseInt (String.substring 8 2 str))
    else if bool_decide (String.length str = 8)
            && bool_decide (pretty <$> parseInt str = Some str) then
      (* YYYYMMDD format, presumably *)
      (parseInt (String.substring 4 2 str), parseInt (String.substring 6 2 str))
    else (None, None) in
  match year, month_day.1, month_day.2 with
  | Some year, Some month, Some day => VDate_new year month day
  | _, _, _ =>
      Err (Error "Date string not in YYYY-MM-DD or YYYYMMDD format")
  end.

End VDate.

(** The ranges that the driver checks: the year within 999999999 on either
    side of zero, the month from 1 to 12, the day from 1 to 31. *)
Definition driver_date_valid (y m d : Z) : bool :=
  bool_decide ((-999999999 ≤ y ≤ 999999999)%Z
               ∧ (1 ≤ m ≤ 12)%Z ∧ (1 ≤ d ≤ 31)%Z).

(** The length of a month of the calendar, to compare with. *)
Definition days_in_month (y m : Z) : Z :=
  (if bool_decide (m = 2) then (if isLeapYear y then 29 else 28)
   else if bool_decide (m ∈ [4; 6; 9; 11]) then 30 else 31)%Z.

(** The decimal digit [n] as a character, and numbers padded with zeros to
    two and to four digits, as in an ISO 8601 date. *)
Definition digit_char (n : N) : Ascii.ascii :=
  Ascii.ascii_of_N (48 + n `mod` 10).

Definition pad2 (n : N) : string :=
  String (digit_char (n `div` 10)) (String (digit_char n) EmptyString).

Definition pad4 (n : N) : string :=
  String (digit_char (n `div` 1000)) (String (digit_char (n `div` 100))
    (pad2 n)).

(** ** Change sets and stores for the steps of UndoAction *)

(** The node [n'] is [n] with the same labels, VNode and DeletedVNode
    apart. *)
Definition same_entity (n n' : NodeData) : Prop :=
  ∀ l, l ≠ "VNode" → l ≠ "DeletedVNode" → l ∈ labels n' ↔ l ∈ labels n.

(** The two stores hold the same nodes, each with the same labels, VNode
    and DeletedVNode apart. *)
Definition same_entities (g g' : Graph) : Prop :=
  ∀ i, match nodes g !! i, nodes g' !! i with
       | Some n, Some n' => same_entity n n'
       | None, None => True
       | _, _ => False
       end.



(** One changed property of one node, as an Action that updates a single
    field records it. *)
Record PropertyChange := {
  pc_id : VNID;
  pc_name : string;
  pc_old : option PropValue;
  pc_new : option PropValue
}.

#[global] Instance PropertyChange_eq_dec : EqDecision PropertyChange.
Proof. solve_decision. Defined.

Definition record_of (pc : PropertyChange) : ModifiedNode :=
  {| mn_id := pc_id pc;
     mn_properties := [(pc_name pc, (pc_old pc, pc_new pc))] |}.

(** The change set of an Action that changed nothing but these
    properties, each in a record of its own. *)
Definition property_changes (pcs : list PropertyChange) : ActionChangeSet :=
  {| createdNodes := [];
     modifiedNodes := record_of <$> pcs;
     createdRelationships := []; deletedRelationships := [];
     softDeletedNodes := []; unDeletedNodes := [];
     deletedNodesCount := 0 |}.


(** The rows of the property query for one record of [modifiedNodes]: the
    step of the outer fold of [revert_modified_nodes]. *)
Definition revert_step (st : nat * Graph) (change : ModifiedNode)
    : nat * Graph :=
  foldl (λ st i,
           foldl (λ st entry, revert_property i entry st)
             st (mn_properties change))
    st (vnodes_with_id (mn_id change) st.2).

(** [(n:VNode {id: id})] *)
Definition vnode_with (id : VNID) (n : NodeData) : bool :=
  has_label "VNode" n && has_vnid id n.

(** The change sets of an Action that did nothing but delete, respectively
    create, these relationships. *)
Definition relationship_deletions (drs : list RelChange) : ActionChangeSet :=
  {| createdNodes := []; modifiedNodes := [];
     createdRelationships := []; deletedRelationships := drs;
     softDeletedNodes := []; unDeletedNodes := [];
     deletedNodesCount := 0 |}.

Definition relationship_creations (crs : list RelChange) : ActionChangeSet :=
  {| createdNodes := []; modifiedNodes := [];
     createdRelationships := crs; deletedRelationships := [];
     softDeletedNodes := []; unDeletedNodes := [];
     deletedNodesCount := 0 |}.

(** At most one VNode has each of the two ids of the record, as the
    constraint [vnode_id_uniq] of the [vnode] migration makes sure. *)
Definition ends_unique (g : Graph) (dr : RelChange) : Prop :=
  length (vnodes_with_id (rc_from dr) g) ≤ 1
  ∧ length (vnodes_with_id (rc_to dr) g) ≤ 1.

(** Exactly one VNode has each of the two ids of the record. *)
Definition ends_exist (g : Graph) (dr : RelChange) : Prop :=
  length (vnodes_with_id (rc_from dr) g) = 1
  ∧ length (vnodes_with_id (rc_to dr) g) = 1.

(** The store of the scenario after the third Action, with the franchise
    soft-deleted since. *)
Definition franchise_gone : Graph :=
  {| nodes := <[2 := mkNode ["TestMovieFranchise"; "DeletedVNode"]
                       (properties Scenario.mcu)]> (nodes Scenario.after3);
     rels := rels Scenario.after3 |}.

(** ** What the trigger writes *)

(** The change [c] is written on the relationship [r]: a MODIFIED
    relationship from the Action to the node of the change. *)
Definition written_on (action : nat) (c : Change) (r : Rel) : bool :=
  bool_decide (rtype r = "MODIFIED" ∧ rstart r = action
               ∧ rend r = modifiedNode c).

(** The properties of the relationship [r] after the details of the
    changes [cs] have been written, in their order. *)
Definition details_on (action : nat) (cs : list Change) (r : Rel) : Props :=
  foldl (λ props c, if written_on action c r
                    then add_details (changeDetails c) props else props)
    (rprops r) cs.

Definition with_props (r : Rel) (props : Props) : Rel :=
  mkRel (rtype r) (rstart r) (rend r) props.

(** The write of the year of the movie inside an Action (node 7) that
    declared the movie as modified: the runner has created the MODIFIED
    relationship (identity 8) in the same transaction. *)
Definition after_declared_write : Graph :=
  {| nodes := nodes Scenario.after_undeclared_write;
     rels := <[8 := mkRel "MODIFIED" 7 5 ∅]>
               (rels Scenario.after_undeclared_write) |}.

Definition year_change : TxData.PropChange nat :=
  {| TxData.key := "year"; TxData.old := Some (PInt 2014);
     TxData.new := Some (PInt 2015); TxData.ref := 5 |}.

Definition declared_write : TxData.t :=
  {| TxData.createdNodes := [7]; TxData.deletedNodes := [];
     TxData.assignedLabels := {[ "Action" := [7]; "VNode" := [7] ]};
     TxData.removedLabels := ∅;
     TxData.assignedNodeProperties := {[ "year" := [year_change] ]};
     TxData.removedNodeProperties := ∅;
     TxData.createdRelationships :=
       [(7, mkRel "PERFORMED" 0 7 ∅); (8, mkRel "MODIFIED" 7 5 ∅)];
     TxData.deletedRelationships := [];
     TxData.assignedRelationshipProperties := ∅;
     TxData.removedRelationshipProperties := ∅ |}.

(** The store that transaction commits. *)
Definition declared_write_committed : Graph :=
  (commit Scenario.after2 after_declared_write declared_write).2.

(** ** The slugId triggers (layer 2 schema, migration slugIdTrigger) *)

(** [(:SlugId {slugId: slug})] *)
Definition is_slugid (slug : PropValue) (s : NodeData) : bool :=
  has_label "SlugId" s && bool_decide (properties s !! "slugId" = Some slug).

(** [EXISTS { MATCH (:SlugId {slugId: slug})-[:IDENTIFIES]->(n) }] *)
Definition identified_by (g : Graph) (slug : PropValue) (n : nat) : bool :=
  bool_decide
    (Exists (λ x : nat * Rel,
               rtype x.2 = "IDENTIFIES" ∧ rend x.2 = n
               ∧ node_is (is_slugid slug) g (rstart x.2) = true)
       (map_to_list (rels g))).

(** The rows that reach the [CREATE] clauses: [UNWIND
    $assignedNodeProperties.slugId AS prop WITH prop.node AS n WHERE n:VNode
    AND n.slugId IS NOT NULL AND NOT EXISTS {...}].  A missing key gives
    [null], and unwinding [null] gives no row. *)
Definition slugid_row (g : Graph) (n : nat) : bool :=
  labelled g "VNode" n
  && match current_property g n "slugId" with
     | Some slug => negb (identified_by g slug n)
     | None => false
     end.

Definition slugid_rows (g : Graph) (tx : TxData.t) : list nat :=
  filter (λ n, slugid_row g n = true)
    (TxData.ref <$> default [] (TxData.assignedNodeProperties tx !! "slugId")).

(** Creating a node gives it an unused identity. *)
Definition create_node (n : NodeData) (g : Graph) : Graph :=
  {| nodes := <[fresh (dom (nodes g)) := n]> (nodes g);
     rels := rels g |}.

Definition msg_slugid_exists : string :=
  "Node already exists with label SlugId and property slugId".

(** One row: [CREATE (s:SlugId {slugId: n.slugId}) CREATE
    (s)-[:IDENTIFIES]->(n) SET s.timestamp = datetime()].  The constraint
    [slugid_slugid_uniq] of the [vnode] migration fails the [CREATE] when a
    SlugId node with that slugId exists. *)
Definition create_slugid (now : PropValue) (acc : Result Graph) (n : nat)
    : Result Graph :=
  g ← acc;
  let slugId := current_property g n "slugId" in
  throw_if (match slugId with
            | Some slug => bool_decide (match_nodes (is_slugid slug) g ≠ [])
            | None => false
            end)
    (Neo4jError msg_slugid_exists);;
  let s := fresh (dom (nodes g)) in
  Ok (create_relationship (mkRel "IDENTIFIES" s n ∅)
        (create_node (mkNode ["SlugId"]
                        (<["timestamp" := now]>
                           (partial_alter (λ _, slugId) "slugId" ∅))) g)).

(** The trigger [updateSlugIdRelation], run in the "before" phase on the
    store [g] as the transaction's own writes left it; [now] is the value
    of [datetime()]. *)
Definition updateSlugIdRelation (now : PropValue) (g : Graph) (tx : TxData.t)
    : Result Graph :=
  foldl (create_slugid now) (Ok g) (slugid_rows g tx).

(** [MATCH (s:SlugId) WHERE NOT EXISTS { MATCH (s)-[rel:IDENTIFIES]->(n) }] *)
Definition floating_slugids (g : Graph) : list nat :=
  (filter (λ x : nat * NodeData,
             has_label "SlugId" x.2 = true
             ∧ ¬ Exists (λ y : nat * Rel,
                           rtype y.2 = "IDENTIFIES" ∧ rstart y.2 = x.1)
                   (map_to_list (rels g)))
     (map_to_list (nodes g))).*1.

(** The relationships that start or end at the node. *)
Definition attached (g : Graph) (i : nat) : list nat :=
  (filter (λ y : nat * Rel, rstart y.2 = i ∨ rend y.2 = i)
     (map_to_list (rels g))).*1.

Definition msg_still_has_relationships : string :=
  "Cannot delete node, because it still has relationships. To delete this node, you must first delete its relationships.".

(** The trigger [deleteSlugIdRelation]: [DELETE s] is no [DETACH DELETE],
    and the transaction fails when a deleted node keeps a relationship. *)
Definition deleteSlugIdRelation (g : Graph) (tx : TxData.t) : Result Graph :=
  if bool_decide (0 < length (TxData.deletedNodes tx)) then
    let victims := floating_slugids g in
    throw_if (bool_decide (Exists (λ s, attached g s ≠ []) victims))
      (Neo4jError msg_still_has_relationships);;
    Ok {| nodes := foldr delete (nodes g) victims; rels := rels g |}
  else Ok g.

(** *** Stores and transactions for the slugId triggers *)

Definition slugid_change (n : nat) (old new : string)
    : TxData.PropChange nat :=
  {| TxData.key := "slugId"; TxData.old := Some (PStr old);
     TxData.new := Some (PStr new); TxData.ref := n |}.

Definition slugid_tx (chg : TxData.PropChange nat) : TxData.t :=
  {| TxData.createdNodes := []; TxData.deletedNodes := [];
     TxData.assignedLabels := ∅; TxData.removedLabels := ∅;
     TxData.assignedNodeProperties := {[ "slugId" := [chg] ]};
     TxData.removedNodeProperties := ∅;
     TxData.createdRelationships := []; TxData.deletedRelationships := [];
     TxData.assignedRelationshipProperties := ∅;
     TxData.removedRelationshipProperties := ∅ |}.

(** The franchise gets the new slugId marvel: the store as the write left
    it, before the trigger. *)
Definition franchise_renamed : Graph :=
  set_property 2 "slugId" (Some (PStr "marvel")) Scenario.after2.

Definition a_datetime : PropValue := PStr "2021-03-01T00:00:00Z".

(** The store after the trigger has run on it. *)
Definition franchise_renamed_committed : Graph :=
  match updateSlugIdRelation a_datetime franchise_renamed
          (slugid_tx (slugid_change 2 "mcu" "marvel")) with
  | Ok g => g
  | Err _ => franchise_renamed
  end.

(** Later the movie is given the former slugId of the franchise. *)
Definition slug_taken_over : Graph :=
  set_property 5 "slugId" (Some (PStr "mcu")) franchise_renamed_committed.

(** The movie is permanently deleted with its relationships: its SlugId
    node is left without a node to identify. *)
Definition movie_deleted : Graph :=
  {| nodes := delete 5 (nodes Scenario.after2);
     rels := delete 4 (delete 5 (delete 6 (rels Scenario.after2))) |}.

Definition movie_deleted_tx : TxData.t :=
  {| TxData.createdNodes := []; TxData.deletedNodes := [5];
     TxData.assignedLabels := ∅;
     TxData.removedLabels := {[ "TestMovie" := [5]; "VNode" := [5] ]};
     TxData.assignedNodeProperties := ∅;
     TxData.removedNodeProperties := ∅;
     TxData.createdRelationships := [];
     TxData.deletedRelationships :=
       [(4, mkRel "MODIFIED" 4 5 {[ "created" := PStr "TestMovie,VNode" ]});
        (5, mkRel "IDENTIFIES" 6 5 ∅); (6, mkRel "FRANCHISE_IS" 5 2 ∅)];
     TxData.assignedRelationshipProperties := ∅;
     TxData.removedRelationshipProperties := ∅ |}.

Definition movie_deleted_committed : Graph :=
  match deleteSlugIdRelation movie_deleted movie_deleted_tx with
  | Ok g => g
  | Err _ => movie_deleted
  end.


(** ** Validation of the relationships of a VNode (layer 2, vnode-base) *)

Inductive Cardinality :=
  | ToOneRequired
  | ToOneOrNone
  | ToMany
  | ToManyUnique.

#[global] Instance Cardinality_eq_dec : EqDecision Cardinality.
Proof. solve_decision. Defined.

(** A relationship declaration as [validate] reads it: the declaration,
    its optional [cardinality] and the schema of its [properties]. *)
Record RelationshipSchema := {
  declaration : RelationshipDeclaration;
  cardinality : option Cardinality;
  rel_properties : list (string * PropSchema)
}.

(** What [validate] throws: a [ValidationError], a subclass of [Error]. *)
Inductive ValidateExn :=
  | ValidationError (msg : string).

(** One row of the query [MATCH (node:VNode {id: $id})-[rel]->(target:VNode)
    RETURN type(rel), properties(rel), labels(target), id(target)]. *)
Record RelRow := {
  relType : string;
  relProps : Props;
  targetLabels : list string;
  targetId : nat
}.

Definition relData (g : Graph) (id : VNID) : list RelRow :=
  (λ x : nat * Rel,
     {| relType := rtype x.2; relProps := rprops x.2;
        targetLabels := node_labels g (rend x.2); targetId := rend x.2 |})
  <$> filter (λ x : nat * Rel,
                node_is (vnode_with id) g (rstart x.2) = true
                ∧ node_is (has_label "VNode") g (rend x.2) = true)
        (map_to_list (rels g)).

(** [!allowedLabels.find(allowedLabel =>
    r.targetLabels.includes(allowedLabel))]: [find] gives the label, and an
    empty label is falsy. *)
Definition no_allowed_label (allowedLabels : list string) (r : RelRow)
    : bool :=
  match List.find (λ allowedLabel, bool_decide (allowedLabel ∈ targetLabels r))
          allowedLabels with
  | Some l => bool_decide (l = EmptyString)
  | None => true
  end.

(** The first exception of [rows.forEach(check)], if any. *)
Definition first_thrown {A E} (check : A → option E) (rows : list A)
    : option E :=
  head (omap check rows).

Definition or_else {E} (a b : option E) : option E :=
  match a with
  | Some e => Some e
  | None => b
  end.

Definition check_cardinality (relType : string) (c : option Cardinality)
    (rows : list RelRow) : option ValidateExn :=
  let targetCount := length rows in
  match c with
  | Some ToOneRequired =>
      if bool_decide (targetCount < 1) then
        Some (ValidationError ("Required relationship type " +:+ relType
                +:+ " must point to one node, but does not exist."))
      else if bool_decide (1 < targetCount) then
        Some (ValidationError ("Required to-one relationship type "
                +:+ relType +:+ " is pointing to more than one node."))
      else None
  | Some ToOneOrNone =>
      if bool_decide (1 < targetCount) then
        Some (ValidationError ("To-one relationship type " +:+ relType
                +:+ " is pointing to more than one node."))
      else None
  | Some ToManyUnique =>
      let uniqueTargets := remove_dups (targetId <$> rows) in
      if bool_decide (length uniqueTargets ≠ targetCount) then
        Some (ValidationError ("Creating multiple " +:+ relType
                +:+ " relationships between the same pair of nodes is not allowed."))
      else None
  | Some ToMany | None => None
  end.

Section Validate.

(** The check of the properties of one relationship against their schema
    goes through [validatePropSchema] of lib/types/field, which is not
    embedded here and stays a parameter. *)
Variable validate_rel_props :
  list (string * PropSchema) → RelRow → option ValidateExn.

(** The body of [for (const relType of relTypes)]. *)
Definition validate_rel_type (relData : list RelRow)
    (entry : string * RelationshipSchema) : option ValidateExn :=
  let relType_ := entry.1 in
  let spec := entry.2 in
  let rows := filter (λ r, relType r = relType_) relData in
  let allowedLabels := rel_to (declaration spec) in
  or_else
    (first_thrown
       (λ r, if no_allowed_label allowedLabels r then
               Some (ValidationError
                       ("Relationship " +:+ relType_
                        +:+ " is not allowed to point to node with labels :"
                        +:+ String.concat ":" (targetLabels r)))
             else None) rows)
    (or_else (check_cardinality relType_ (cardinality spec) rows)
       (if bool_decide (0 < length (rel_properties spec)) then
          first_thrown (validate_rel_props (rel_properties spec)) rows
        else None)).

(** The last part of [_BaseVNodeType.validate], "Validate relationships":
    [rel] is the declared [this.rel] in its order, [g] the store and [id]
    [dbObject.id].  The result is the exception thrown, if any. *)
Definition validate_relationships (rel : list (string * RelationshipSchema))
    (g : Graph) (id : VNID) : option ValidateExn :=
  if bool_decide (0 < length rel) then
    first_thrown (validate_rel_type (relData g id)) rel
  else None.

End Validate.

(** The declared relationship holds for the rows of its type. *)
Definition cardinality_holds (c : option Cardinality) (rows : list RelRow)
    : Prop :=
  match c with
  | Some ToOneRequired => length rows = 1
  | Some ToOneOrNone => length rows ≤ 1
  | Some ToManyUnique => NoDup (targetId <$> rows)
  | Some ToMany | None => True
  end.

(** The to-one relationship of the movies, as the test project declares
    it. *)
Definition franchise_is_schema : RelationshipSchema :=
  {| declaration := Scenario.franchise_is_decl;
     cardinality := Some ToOneOrNone;
     rel_properties := [] |}.

(** ** Writing without an Action (vertex.ts) *)

(** The database: the store, and the installed APOC triggers by name, each
    paused or not. *)
Record Db := {
  graph : Graph;
  triggers : gmap string bool
}.

(** [apoc.trigger.pause(name)] and [apoc.trigger.resume(name)] *)
Definition trigger_pause (name : string) (db : Db) : Db :=
  {| graph := graph db; triggers := alter (λ _, true) name (triggers db) |}.

Definition trigger_resume (name : string) (db : Db) : Db :=
  {| graph := graph db; triggers := alter (λ _, false) name (triggers db) |}.

(** [Vertex.isTriggerInstalled]: the name is among [apoc.trigger.list()]. *)
Definition isTriggerInstalled (name : string) (db : Db) : bool :=
  bool_decide (name ∈ (map_to_list (triggers db)).*1).

(** [Vertex._restrictedAllowWritesWithoutAction]: [someCode] runs on the
    database and may throw; the [finally] block runs in both cases, and
    the exception, if any, is thrown again after it.  The calls to the
    database themselves are taken not to fail. *)
Definition _restrictedAllowWritesWithoutAction {A}
    (someCode : Db → Result A * Db) (db : Db) : Result unit * Db :=
  let db := if isTriggerInstalled "trackActionChanges" db
            then trigger_pause "trackActionChanges" db else db in
  let result := someCode db in
  let db := result.2 in
  (* finally *)
  let db := if isTriggerInstalled "trackActionChanges" db
            then trigger_resume "trackActionChanges" db else db in
  (match result.1 with
   | Ok _ => Ok tt
   | Err e => Err e
   end, db).

(** A statement given to [apoc.trigger.add(name, statement, {phase:
    "before"})]: it runs inside the transaction, before the commit, on the
    store as the writes left it and with the transaction data as its
    parameters. *)
Definition Statement : Type := Graph → TxData.t → Result Graph.

(** The triggers that the migrations of the framework install: the two of
    the migration [slugIdTrigger] and [trackActionChanges], all three in the
    phase "before"; [now] is the value of [datetime()]. *)
Definition vertex_triggers (now : PropValue) : list (string * Statement) :=
  [("updateSlugIdRelation", updateSlugIdRelation now);
   ("deleteSlugIdRelation", deleteSlugIdRelation);
   ("trackActionChanges", trackActionChanges)].

(** The transaction changed data.  Neo4j calls the hook before the commit,
    and with it the triggers, for such a transaction only: a read, or a
    call like [apoc.trigger.pause], runs no trigger. *)
Definition has_changes (tx : TxData.t) : bool :=
  bool_decide (0 < length (TxData.createdNodes tx))
  || bool_decide (0 < length (TxData.deletedNodes tx))
  || bool_decide (0 < size (TxData.assignedLabels tx))
  || bool_decide (0 < size (TxData.removedLabels tx))
  || bool_decide (0 < size (TxData.assignedNodeProperties tx))
  || bool_decide (0 < size (TxData.removedNodeProperties tx))
  || bool_decide (0 < length (TxData.createdRelationships tx))
  || bool_decide (0 < length (TxData.deletedRelationships tx))
  || bool_decide (0 < size (TxData.assignedRelationshipProperties tx))
  || bool_decide (0 < size (TxData.removedRelationshipProperties tx)).

(** The trigger is installed and not paused. *)
Definition running (db : Db) (name : string) : bool :=
  bool_decide (triggers db !! name = Some false).

(** One trigger: its statement runs when the trigger is running. *)
Definition run_trigger (db : Db) (tx : TxData.t) (acc : Result Graph)
    (s : string * Statement) : Result Graph :=
  if running db s.1 then g ← acc; s.2 g tx else acc.

(** The triggers of a transaction: [statements] lists the installed
    statements by name, in the order in which APOC runs them, which the
    source does not fix.  A statement that fails fails the transaction;
    the error of the first one stands for the report that APOC makes. *)
Definition before_commit (statements : list (string * Statement)) (db : Db)
    (after : Graph) (tx : TxData.t) : Result Graph :=
  foldl (run_trigger db tx) (Ok after) statements.

(** A write transaction on the database: [after] is the store as its
    writes left it, [tx] its transaction data.  When a trigger fails the
    transaction is rolled back. *)
Definition write_transaction (statements : list (string * Statement))
    (after : Graph) (tx : TxData.t) (db : Db) : Result unit * Db :=
  if has_changes tx then
    match before_commit statements db after tx with
    | Ok g => (Ok tt, {| graph := g; triggers := triggers db |})
    | Err e => (Err e, db)
    end
  else (Ok tt, {| graph := after; triggers := triggers db |}).

(** The statements but those of the trigger [name]. *)
Definition without_trigger (name : string)
    (statements : list (string * Statement)) : list (string * Statement) :=
  filter (λ s, s.1 ≠ name) statements.

(** The database of the scenario, with the trigger installed and running. *)
Definition scenario_db : Db :=
  {| graph := Scenario.after2;
     triggers := {[ "trackActionChanges" := false;
                    "updateSlugIdRelation" := false;
                    "deleteSlugIdRelation" := false ]} |}.

(** The database after the franchise was renamed, and the later write that
    gives the movie the former slugId of the franchise. *)
Definition renamed_db : Db :=
  {| graph := franchise_renamed_committed; triggers := triggers scenario_db |}.

Definition takeover_tx : TxData.t :=
  slugid_tx (slugid_change 5 "guardians-galaxy" "mcu").

(** ** The labels of a VNode type (layer 2, vnode-base) *)

(** A class on the prototype chain of a VNode type: its name and the
    static [label] it declares itself, if any.  A chain lists the classes
    from the type up to [_BaseVNodeType]; the objects beyond it have no
    [label]. *)
Record VNodeClass := {
  class_name : string;
  own_label : option string
}.

Definition _BaseVNodeType : VNodeClass :=
  {| class_name := "_BaseVNodeType"; own_label := Some "VNode" |}.

(** [t.label]: the own property, or the one found up the chain;
    [undefined] is [None]. *)
Fixpoint label_of (t : list VNodeClass) : option string :=
  match t with
  | [] => None
  | c :: proto =>
      match own_label c with
      | Some l => Some l
      | None => label_of proto
      end
  end.

(** [vnt.name] *)
Definition name_of (t : list VNodeClass) : string :=
  match t with
  | [] => EmptyString
  | c :: _ => class_name c
  end.

(** A string is truthy when it is not empty. *)
Definition truthy_label (l : option string) : bool :=
  match l with
  | Some l => negb (bool_decide (l = EmptyString))
  | None => false
  end.

(** [for (let t = vnt; t.label; t = Object.getPrototypeOf(t))] *)
Fixpoint labels_up (t : list VNodeClass) : list string :=
  match t with
  | [] => []
  | c :: proto =>
      match label_of t with
      | Some l =>
          if bool_decide (l = EmptyString) then []
          else l :: (if bool_decide (l = "VNode") then [] else labels_up proto)
      | None => []
      end
  end.

Definition getAllLabels (vnt : list VNodeClass) : Result (list string) :=
  throw_if (negb (truthy_label (label_of vnt))
            || bool_decide (label_of vnt = Some "VNode"))
    (Error ("VNodeType " +:+ name_of vnt +:+ " has no valid label."));;
  Ok (labels_up vnt).

(** The classes of the test project: [Movie extends VNodeType extends
    _BaseVNodeType]. *)
Definition Movie_chain : list VNodeClass :=
  [ {| class_name := "Movie"; own_label := Some "TestMovie" |};
    {| class_name := "VNodeType"; own_label := None |};
    _BaseVNodeType ].


(** ** updateToManyRelationship (layer 4, action-helpers) *)

(** One row of the first query: [properties(rel) as oldProps, id(rel) as
    oldRelId, target.id, target.slugId]. *)
Record ExistingRel := {
  oldProps : Props;
  oldRelId : nat;
  target_id : option PropValue;
  target_slugId : option PropValue
}.

(** The row of the first query for a relationship [x] of the store. *)
Definition existing_row (g : Graph) (x : nat * Rel) : ExistingRel :=
  {| oldProps := rprops x.2; oldRelId := x.1;
     target_id := node_vnid g (rend x.2);
     target_slugId := current_property g (rend x.2) "slugId" |}.

(** [Set.delete] *)
Definition set_delete (s : list nat) (x : nat) : list nat :=
  filter (λ i, i ≠ x) s.

Section UpdateToManyRelationship.

(** As for [updateToOneRelationship], the Cypher sugar for an interpolated
    VNode type and for [HAS KEY] is a parameter, and so is [stringify] of
    lib/log, by which the properties of two relationships are compared. *)
Variable type_labels : BaseVNodeType → list string.
Variable has_key : Graph → nat → string → bool.
Variable stringify : Props → string.

(** [MATCH (:${fromType} {id: ${fromId}})-[rel:${rel}]->(target:VNode)
     RETURN properties(rel), id(rel), target.id, target.slugId] *)
Definition existing_rels (g : Graph) (fromType : BaseVNodeType)
    (fromId : VNID) (relType : string) : list ExistingRel :=
  existing_row g
  <$> outgoing g (node_is (is_from type_labels fromType fromId) g) relType.

(** The callback of [relResult.find]. *)
Definition identical_to (key : string) (newProps : Props) (el : ExistingRel)
    : bool :=
  (bool_decide (target_id el = Some (PStr key))
   || bool_decide (target_slugId el = Some (PStr key)))
  && bool_decide (stringify (oldProps el) = stringify newProps).

(** [MATCH (target), target HAS KEY $key WHERE target:L1 OR ...]: the
    pattern itself asks for no label. *)
Definition create_targets (g : Graph) (targetLabels : list string)
    (key : string) : list nat :=
  (filter (λ x : nat * NodeData,
             has_key g x.1 key = true
             ∧ existsb (λ l, has_label l x.2) targetLabels = true)
     (map_to_list (nodes g))).*1.

(** One turn of [for (const {key, ...newProps} of to)]: the state is the
    store and the set [existingRelationshipIdsToDelete]. *)
Definition update_step (fromType : BaseVNodeType) (fromId : VNID)
    (relType : string) (targetLabels : list string)
    (relResult : list ExistingRel) (acc : Result (Graph * list nat))
    (spec : string * Props) : Result (Graph * list nat) :=
  st ← acc;
  let key := spec.1 in
  let newProps := spec.2 in
  match List.find (identical_to key newProps) relResult with
  | Some identicallExistingRelationship =>
      (* This relationship already exists. *)
      Ok (st.1, set_delete st.2 (oldRelId identicallExistingRelationship))
  | None =>
      (* an empty list of labels leaves [WHERE] without a condition *)
      throw_if (bool_decide (targetLabels = []))
        (Neo4jError "Invalid input: expected an expression");;
      let rows := self ← from_nodes type_labels st.1 fromType fromId;
                  target ← create_targets st.1 targetLabels key;
                  [(self, target)] in
      let g := foldl (λ g (row : nat * nat),
                        create_relationship
                          (mkRel relType row.1 row.2 newProps) g)
                 st.1 rows in
      if bool_decide (length rows ≠ 1) then
        if bool_decide (length (from_nodes type_labels g fromType fromId) ≠ 1)
        then
          Err (Error ("Cannot set " +:+ relType
                      +:+ " relationship from non-existent " +:+ name fromType
                      +:+ " node with VNID " +:+ fromId))
        else
          Err (Error ("Cannot set " +:+ relType
                      +:+ " relationship to VNode with key " +:+ dquote
                      +:+ key +:+ dquote
                      +:+ " which doesn't exist or is the wrong type."))
      else Ok (g, st.2)
  end.

Definition updateToManyRelationship (from : BaseVNodeType * VNID)
    (rel : RelationshipDeclaration) (to : list (string * Props)) (g : Graph)
    : Result (list (gmap string (option PropValue)) * Graph) :=
  let fromType := from.1 in
  let fromId := from.2 in
  relType ← getRelationshipType rel;
  throw_if (bool_decide (vt_rel fromType !! relType ≠ Some rel))
    (Error ("Mismatch between relationship " +:+ relType +:+ " and VNodeType "
            +:+ label fromType
            +:+ " which doesn't declare that exact relationship."));;
  let targetLabels := rel_to rel in
  let relResult := existing_rels g fromType fromId relType in
  let prevTo := (λ r, relationship_spec (target_id r) (oldProps r))
                <$> relResult in
  let existingRelationshipIdsToDelete :=
    remove_dups (oldRelId <$> relResult) in
  st ← foldl (update_step fromType fromId relType targetLabels relResult)
         (Ok (g, existingRelationshipIdsToDelete)) to;
  let g := st.1 in
  let g :=
    if bool_decide (0 < length st.2) then
      (* Delete relationships that we no longer want *)
      delete_relationships
        (filter (λ i, i ∈ st.2)
           (outgoing g (node_is (is_from type_labels fromType fromId) g)
              relType).*1) g
    else g in
  Ok (prevTo, g).

(** What the loop has done for an entry of [to] between the stores [before]
    and [after]: it found an existing relationship and took it off the set,
    or it created one from [self] to a [target] that has the key. *)
Definition served (g0 : Graph) (fromType : BaseVNodeType) (fromId : VNID)
    (relType : string) (targetLabels : list string)
    (relResult : list ExistingRel) (before after : Graph * list nat)
    (spec : string * Props) : Prop :=
  (∃ el, el ∈ relResult ∧ identical_to spec.1 spec.2 el = true
         ∧ oldRelId el ∉ after.2)
  ∨ (∃ j self target gi,
       rels before.1 !! j = None
       ∧ rels after.1 !! j = Some (mkRel relType self target spec.2)
       ∧ nodes gi = nodes g0
       ∧ node_is (is_from type_labels fromType fromId) g0 self = true
       ∧ node_is (λ n, existsb (λ l, has_label l n) targetLabels) g0 target
         = true
       ∧ has_key gi target spec.1 = true).

End UpdateToManyRelationship.

(** *** A movie pointed at two franchises *)

(** A text for the properties of a relationship: the entries in the order
    of their names. *)
Definition show_value (v : PropValue) : string :=
  match v with
  | PStr s => dquote +:+ s +:+ dquote
  | PInt z => pretty z
  | PBool true => "true"
  | PBool false => "false"
  end.

Definition show_props (p : Props) : string :=
  foldr (λ (kv : string * PropValue) acc,
           kv.1 +:+ ":" +:+ show_value kv.2 +:+ "," +:+ acc)
    "}" (map_to_list p).

(** The first franchise is asked for as it is, the second with a property. *)
Definition dcu_since : string * Props :=
  ("dcu", {[ "since" := PInt 2020 ]}).

Definition both_franchises : list (string * Props) :=
  [("mcu", ∅); dcu_since].

Definition in_both_franchises : Graph :=
  {| nodes := nodes Scenario.two_franchises;
     rels := <[7 := mkRel "FRANCHISE_IS" 5 8 {[ "since" := PInt 2020 ]}]>
               (rels Scenario.two_franchises) |}.

(** The second franchise alone is asked for. *)
Definition only_dcu : Graph :=
  {| nodes := nodes Scenario.two_franchises;
     rels := <[7 := mkRel "FRANCHISE_IS" 5 8 ∅]>
               (delete 6 (rels Scenario.two_franchises)) |}.
(* ================================================================== *)
(** * Theorems *)
(* ================================================================== *)

(** A closed decidable proposition, settled by evaluating its decision. *)
Ltac by_compute := refine (bool_decide_unpack _ _); vm_compute; exact I.

Section NeoNodeToRawVNode.

Lemma clean_properties_app d1 d2 props :
  clean_properties (d1 ++ d2) props
  = foldl (clean_property props) (clean_properties d1 props) d2.
Proof. unfold clean_properties. by rewrite foldl_app. Qed.



Lemma lookup_js_set_proto q v obj :
  js_set q v obj !! "__proto__" = obj !! "__proto__".
Proof.
  unfold js_set. destruct (decide (q = "__proto__")) as [->|Hq].
  - by rewrite bool_decide_eq_true_2.
  - rewrite bool_decide_eq_false_2 by done. by apply lookup_insert_ne.
Qed.


(** The cleaned object never has an own property [__proto__]. *)
Lemma clean_properties_proto declared props :
  clean_properties declared props !! "__proto__" = None.
Proof.
  induction declared as [|e d IH] using rev_ind; [apply lookup_empty|].
  rewrite clean_properties_app. cbn [foldl]. unfold clean_property.
  cbv zeta. destruct (js_in e.1 props); by rewrite lookup_js_set_proto.
Qed.




(** The record of the movie that was read without its year. *)
Example movie_without_year_record :
  neoNodeToRawVNode (FNode 5 Scenario.movie_without_year) Scenario.Movie "m"
  = Ok (list_to_map
          [("id", JVal (PStr "_gg"));
           ("slugId", JVal (PStr "guardians-galaxy"));
           ("title", JVal (PStr "Guardians of the Galaxy"));
           ("year", JNull);
           ("_identity", JNum 5);
           ("_labels", JStrings ["TestMovie"; "VNode"])]).
Proof. vm_compute. reflexivity. Qed.

(** A soft-deleted node is not converted. *)
Example soft_deleted_not_converted :
  neoNodeToRawVNode
    (FNode 5 (mkNode ["TestMovie"; "DeletedVNode"]
                (properties Scenario.guardians)))
    Scenario.Movie "m"
  = Err (Error "Field m matched a deleted VNode - check your query and match only nodes with the :VNode label").
Proof. vm_compute. reflexivity. Qed.


(** The declared property [constructor] is absent on the node, and [in]
    finds it on [Object.prototype]: the record holds the inherited
    function under that name, not null. *)
Example declared_constructor_not_null :
  ∃ raw,
    neoNodeToRawVNode (FNode 11 Scenario.car) Scenario.Car "c" = Ok raw
    ∧ "constructor" ∈ (vt_properties Scenario.Car).*1
    ∧ properties Scenario.car !! "constructor" = None
    ∧ raw !! "constructor" = Some (JInherited "constructor")
    ∧ raw !! "constructor" ≠ Some JNull.
Proof.
  exists (list_to_map [("id", JVal (PStr "_c1"));
                       ("constructor", JInherited "constructor");
                       ("_identity", JNum 11);
                       ("_labels", JStrings ["Car"; "VNode"])]).
  split; [vm_compute; reflexivity|].
  split; [by_compute|]. split; [by_compute|]. split; by_compute.
Qed.

End NeoNodeToRawVNode.

Section UndoAction.

Lemma throw_if_true e : throw_if true e = Err e.
Proof. done. Qed.

Lemma throw_if_false e : throw_if false e = Ok tt.
Proof. done. Qed.

Lemma restrictedWrite_err {A} (code : Graph → Result (A * Graph)) g e :
  code g = Err e → _restrictedWrite code g = (Err e, g).
Proof. unfold _restrictedWrite. by intros ->. Qed.

Lemma apply_already_undone prevAction changes g :
  revertedBy prevAction ≠ None →
  UndoAction_apply prevAction changes g
  = Err (UndoConflictError msg_already_undone).
Proof.
  intros H. unfold UndoAction_apply.
  by rewrite (bool_decide_eq_true_2 (revertedBy prevAction ≠ None)).
Qed.

Lemma apply_permanently_deleted prevAction changes g :
  revertedBy prevAction = None →
  deletedNodesCount changes ≠ 0 →
  UndoAction_apply prevAction changes g
  = Err (UndoConflictError msg_permanently_deleted).
Proof.
  intros H1 H2. unfold UndoAction_apply.
  rewrite (bool_decide_eq_false_2 (revertedBy prevAction ≠ None))
    by (rewrite H1; tauto).
  by rewrite (bool_decide_eq_true_2 (0 < deletedNodesCount changes))
    by lia.
Qed.

(** C4: undoing an Action that is already marked as reverted fails with
    the conflict "That action was already undone." and the write
    transaction leaves the store as it was. *)
Theorem undo_twice_conflict prevAction changes g :
  revertedBy prevAction ≠ None →
  _restrictedWrite (UndoAction_apply prevAction changes) g
  = (Err (UndoConflictError msg_already_undone), g).
Proof.
  intros H. apply restrictedWrite_err. by apply apply_already_undone.
Qed.

Lemma undo_twice_conflict_witness :
  _restrictedWrite
    (UndoAction_apply {| pa_deletedNodesCount := 0;
                         revertedBy := Some "_undo2" |}
       Scenario.changes2)
    Scenario.after1
  = (Err (UndoConflictError msg_already_undone), Scenario.after1).
Proof. apply undo_twice_conflict. simpl. congruence. Defined.

(** C5: undoing an Action whose recorded count of permanently deleted
    nodes is not zero always fails with a conflict error and commits
    nothing; the error is "Cannot undo an Action that permanently deleted
    data." for every Action that is not already marked as reverted (the
    check of the reverted-by link comes first). *)
Theorem undo_permanent_deletion_conflict prevAction changes g :
  deletedNodesCount changes ≠ 0 →
  (∃ msg, _restrictedWrite (UndoAction_apply prevAction changes) g
          = (Err (UndoConflictError msg), g))
  ∧ (revertedBy prevAction = None →
     _restrictedWrite (UndoAction_apply prevAction changes) g
     = (Err (UndoConflictError msg_permanently_deleted), g)).
Proof.
  intros Hcount. split.
  - destruct (decide (revertedBy prevAction = None)) as [Hr|Hr].
    + eexists. apply restrictedWrite_err.
      by apply apply_permanently_deleted.
    + eexists. apply restrictedWrite_err. by apply apply_already_undone.
  - intros Hr. apply restrictedWrite_err.
    by apply apply_permanently_deleted.
Qed.

Lemma undo_permanent_deletion_conflict_witness :
  _restrictedWrite
    (UndoAction_apply Scenario.not_reverted
       {| createdNodes := []; modifiedNodes := [];
          createdRelationships := []; deletedRelationships := [];
          softDeletedNodes := []; unDeletedNodes := [];
          deletedNodesCount := 1 |})
    Scenario.after2
  = (Err (UndoConflictError msg_permanently_deleted), Scenario.after2).
Proof.
  refine (proj2 (undo_permanent_deletion_conflict _ _ _ _) _).
  - simpl. lia.
  - reflexivity.
Defined.

(** *** Deleting the relationships an Action created *)

Lemma length_omap_le {A B} (f : A → option B) (l : list A) :
  (length (omap f l) ≤ length l)%nat.
Proof.
  induction l as [|a l IH]; csimpl; [lia|]. destruct (f a); csimpl; lia.
Qed.

Lemma length_omap_lt {A B} (f : A → option B) (l : list A) x :
  x ∈ l → f x = None → length (omap f l) < length l.
Proof.
  intros Hin Hx. induction Hin as [x l|x y l Hin IH]; csimpl.
  - rewrite Hx. pose proof (length_omap_le f l). lia.
  - specialize (IH Hx). destruct (f y); csimpl; lia.
Qed.

Lemma length_remove_dups_le `{EqDecision A} (l : list A) :
  (length (remove_dups l) ≤ length l)%nat.
Proof.
  induction l as [|a l IH]; simpl; [lia|].
  destruct (decide_rel _ _ _); simpl; lia.
Qed.

(** A recorded relationship without a match makes fewer rows than there
    are records. *)
Lemma delete_created_relationships_missing crs cr g :
  cr ∈ crs → matching_rels cr g = [] →
  (delete_created_relationships crs g).1 ≠ length crs.
Proof.
  intros Hin Hnone. unfold delete_created_relationships. simpl.
  assert (length (omap (λ cr, head (matching_rels cr g)) (remove_dups crs))
          < length (remove_dups crs)) as Hlt.
  { apply length_omap_lt with cr.
    - by apply elem_of_remove_dups.
    - by rewrite Hnone. }
  pose proof (length_remove_dups_le crs). lia.
Qed.

(** C6 (as the code has it): when the target Action recorded only created
    nodes and created relationships (it created a movie together with the
    relationship to its franchise) and one of the recorded relationships
    no longer has a match in the store (a later Action removed it), Undo
    fails with the conflict "One of the relationships created by that
    action cannot be deleted; cannot undo." and commits nothing. *)
Theorem undo_created_relationship_gone prevAction changes g cr :
  revertedBy prevAction = None →
  deletedNodesCount changes = 0 →
  softDeletedNodes changes = [] →
  deletedRelationships changes = [] →
  modifiedNodes changes = [] →
  cr ∈ createdRelationships changes →
  matching_rels cr g = [] →
  _restrictedWrite (UndoAction_apply prevAction changes) g
  = (Err (UndoConflictError msg_cannot_delete), g).
Proof.
  intros Hr Hc Hs Hd Hm Hin Hnone. apply restrictedWrite_err.
  unfold UndoAction_apply. rewrite Hr, Hc, Hs, Hd, Hm. simpl.
  rewrite (bool_decide_eq_true_2 (0 < length (createdRelationships changes))).
  2:{ destruct (createdRelationships changes); simpl; [|lia].
      by apply elem_of_nil in Hin. }
  rewrite (bool_decide_eq_true_2
             ((delete_created_relationships (createdRelationships changes) g).1
              ≠ length (createdRelationships changes))); [done|].
  by apply delete_created_relationships_missing with cr.
Qed.

Lemma undo_created_relationship_gone_witness :
  _restrictedWrite
    (UndoAction_apply Scenario.not_reverted Scenario.changes2)
    Scenario.after3
  = (Err (UndoConflictError msg_cannot_delete), Scenario.after3).
Proof.
  apply (undo_created_relationship_gone _ _ _ Scenario.franchise_is);
    try reflexivity.
  simpl. apply list_elem_of_here.
Defined.

(** In the scenario the conflict is not the one of re-creating a
    relationship. *)
Lemma undo_conflict_is_not_recreation :
  (_restrictedWrite
     (UndoAction_apply Scenario.not_reverted Scenario.changes2)
     Scenario.after3).1
  ≠ Err (UndoConflictError msg_cannot_recreate).
Proof. vm_compute. discriminate. Qed.

(** *** Reverting properties *)

(** A row is written only when the current value is still the recorded
    new value. *)
Lemma revert_property_stale i entry st :
  still_new (current_property st.2 i entry.1) entry.2.2 = false →
  revert_property i entry st = st.
Proof. unfold revert_property. by intros ->. Qed.

Lemma current_property_set_other g i p q v :
  p ≠ q →
  current_property (set_property i p v g) i q = current_property g i q.
Proof.
  intros Hne. unfold current_property, set_property. simpl.
  rewrite lookup_alter_eq. destruct (nodes g !! i) as [n|]; [|done].
  simpl. by rewrite lookup_partial_alter_ne.
Qed.

(** For a record with two changed properties of one node, the query
    returns one row for each property that still has its new value. *)
Lemma revert_two_properties g id i p q op np oq nq :
  p ≠ q → vnodes_with_id id g = [i] →
  (revert_modified_nodes
     [ {| mn_id := id; mn_properties := [(p, (op, np)); (q, (oq, nq))] |} ]
     g).1
  = (if still_new (current_property g i p) np then 1 else 0)
    + (if still_new (current_property g i q) nq then 1 else 0).
Proof.
  intros Hne Hi. unfold revert_modified_nodes. simpl. rewrite Hi. simpl.
  unfold revert_property at 2. simpl.
  destruct (still_new (current_property g i p) np); unfold revert_property;
    simpl; rewrite ?current_property_set_other by done;
    by destruct (still_new (current_property g i q) nq).
Qed.

(** So the Undo of an Action that changed two properties of one node goes
    through exactly when one of the two has been changed since, and is
    refused when both still have their new values. *)
Lemma undo_two_properties prevAction g id i p q op np oq nq :
  p ≠ q → vnodes_with_id id g = [i] →
  revertedBy prevAction = None →
  is_ok (UndoAction_apply prevAction
           {| createdNodes := [];
              modifiedNodes :=
                [ {| mn_id := id;
                     mn_properties := [(p, (op, np)); (q, (oq, nq))] |} ];
              createdRelationships := []; deletedRelationships := [];
              softDeletedNodes := []; unDeletedNodes := [];
              deletedNodesCount := 0 |} g)
  = xorb (still_new (current_property g i p) np)
      (still_new (current_property g i q) nq).
Proof.
  intros Hne Hi Hr. unfold UndoAction_apply. rewrite Hr. simpl.
  rewrite (revert_two_properties g id i p q op np oq nq Hne Hi).
  destruct (still_new (current_property g i p) np),
    (still_new (current_property g i q) nq); reflexivity.
Qed.

(** C7 at the failing input: the Action changed the title and the year of
    the movie, a later Action changed the year again.  The query returns
    one row (the title), which is the number of records in
    [modifiedNodes], so there is no conflict: the Undo commits with the
    title put back and the stale year left as it is. *)
Theorem undo_stale_property_committed :
  _restrictedWrite
    (UndoAction_apply Scenario.not_reverted Scenario.changes_update)
    Scenario.year_changed_again
  = (Ok ["_gg"], Scenario.half_reverted).
Proof. vm_compute. reflexivity. Qed.

(** *** Soft-deleting the nodes an Action created *)

Lemma check_fold_err (current : Props) e l :
  foldl (check_property current) (Err e) l = Err e.
Proof. induction l as [|a l IH]; simpl; auto. Qed.

Lemma check_fold_truthy (current : Props) l p cv v acc :
  (p, cv) ∈ l → current !! p = Some v → truthy v = true →
  is_ok (foldl (check_property current) acc l) = false.
Proof.
  intros Hin Hcur Ht. revert acc.
  induction l as [|a l IH]; intros acc.
  - by apply elem_of_nil in Hin.
  - apply elem_of_cons in Hin as [<-|Hin]; cbn [foldl].
    + assert (∃ e, check_property current acc (p, cv) = Err e) as [e ->].
      { unfold check_property, property_check. simpl. rewrite Hcur, Ht.
        destruct acc as [[]|e]; simpl; eauto. }
      by rewrite check_fold_err.
    + by apply IH.
Qed.

(** The check of a created node fails as soon as one recorded property
    has a truthy current value, whatever the recorded value is. *)
Lemma check_created_node_truthy cns n s cn p cv v :
  properties n !! "id" = Some (PStr s) →
  find (λ cn, bool_decide (cn_id cn = s)) cns = Some cn →
  (p, cv) ∈ cn_properties cn →
  properties n !! p = Some v → truthy v = true →
  is_ok (check_created_node cns n) = false.
Proof.
  intros Hid Hfind Hin Hcur Ht. unfold check_created_node.
  rewrite Hid. simpl. rewrite Hfind.
  destruct (throw_if _ _) as [[]|e]; simpl; [|done].
  by eapply check_fold_truthy.
Qed.

Lemma check_row_err cns g e l :
  foldl (check_row cns g) (Err e) l = Err e.
Proof. induction l as [|a l IH]; simpl; auto. Qed.

Lemma check_rows_fail cns g l i n acc :
  i ∈ l → nodes g !! i = Some n →
  is_ok (check_created_node cns n) = false →
  is_ok (foldl (check_row cns g) acc l) = false.
Proof.
  intros Hin Hn Hfail. revert acc.
  induction l as [|a l IH]; intros acc.
  - by apply elem_of_nil in Hin.
  - apply elem_of_cons in Hin as [<-|Hin]; cbn [foldl].
    + assert (∃ e, check_row cns g acc i = Err e) as [e ->].
      { unfold check_row. rewrite Hn.
        destruct acc as [[]|e]; simpl; [|eauto].
        destruct (check_created_node cns n); [done|eauto]. }
      by rewrite check_row_err.
    + by apply IH.
Qed.

Lemma properties_swap_label from to n :
  properties (swap_label from to n) = properties n.
Proof. done. Qed.

(** The Undo of an Action that only created nodes never commits when one
    of these nodes is still a VNode and one of its recorded properties has
    a truthy current value, such as its [id]: the check takes the
    untouched node for a modified one. *)
Lemma undo_of_created_node_fails prevAction changes g i n cn p cv v :
  softDeletedNodes changes = [] →
  deletedRelationships changes = [] →
  modifiedNodes changes = [] →
  createdRelationships changes = [] →
  nodes g !! i = Some n →
  has_label "VNode" n = true →
  properties n !! "id" = Some (PStr (cn_id cn)) →
  find (λ c, bool_decide (cn_id c = cn_id cn)) (createdNodes changes)
  = Some cn →
  (p, cv) ∈ cn_properties cn →
  properties n !! p = Some v → truthy v = true →
  is_ok (UndoAction_apply prevAction changes g) = false.
Proof.
  intros Hs Hd Hm Hc Hn Hlab Hid Hfind Hin Hp Ht.
  unfold UndoAction_apply. rewrite Hs, Hd, Hm, Hc.
  destruct (throw_if (bool_decide (revertedBy prevAction ≠ None)) _)
    as [[]|]; [|done].
  cbn [mbind Result_bind].
  destruct (throw_if (bool_decide (0 < deletedNodesCount changes)) _)
    as [[]|]; [|done].
  cbn [mbind Result_bind length].
  rewrite !(bool_decide_eq_false_2 (0 < 0)) by lia.
  cbn [mbind Result_bind].
  assert (cn ∈ createdNodes changes) as Hcn.
  { apply list_elem_of_In. by apply find_some in Hfind as [? _]. }
  rewrite (bool_decide_eq_true_2 (0 < length (createdNodes changes))).
  2:{ destruct (createdNodes changes); [by apply elem_of_nil in Hcn|].
      simpl. lia. }
  destruct (throw_if _ (UndoConflictError msg_since_deleted)) as [[]|];
    [|done].
  cbn [mbind Result_bind].
  set (ids := cn_id <$> createdNodes changes).
  assert (vnid_in ids n = true) as Hids.
  { unfold vnid_in. rewrite Hid. apply bool_decide_eq_true.
    apply list_elem_of_fmap. by exists cn. }
  assert (is_ok (foldl (check_row (createdNodes changes) (soft_delete ids g))
                   (Ok tt)
                   (match_nodes (λ n, has_label "VNode" n && vnid_in ids n)
                      g).*1) = false) as Hfold.
  { apply (check_rows_fail _ _ _ i
             (swap_label "VNode" "DeletedVNode" n)).
    - apply list_elem_of_fmap. exists (i, n). split; [done|].
      apply list_elem_of_filter. split.
      + simpl. by rewrite Hlab, Hids.
      + by apply elem_of_map_to_list.
    - unfold soft_delete, update_nodes_where. simpl.
      rewrite lookup_fmap, Hn. simpl. by rewrite Hlab, Hids.
    - eapply check_created_node_truthy; eauto. }
  destruct (foldl _ _ _) as [[]|]; done.
Qed.

(** C1 at the failing input: the Undo of Action1 (which created the
    franchise) is rejected although nothing was modified since, because
    the current [id] of the created node is truthy; so there is no Undo
    of Action1 to undo. *)
Theorem undo_of_creation_conflicts :
  _restrictedWrite
    (UndoAction_apply Scenario.not_reverted Scenario.changes1)
    Scenario.after1
  = (Err (UndoConflictError (msg_modified "id")), Scenario.after1).
Proof. vm_compute. reflexivity. Qed.

End UndoAction.

Section TrackActionChanges.

(** *** The store the trigger works on *)

Lemma labelled_set_property g i p v l n :
  labelled (set_property i p v g) l n = labelled g l n.
Proof.
  unfold labelled, node_labels, set_property. simpl.
  destruct (decide (i = n)) as [->|Hne].
  - rewrite lookup_alter_eq. by destruct (nodes g !! n).
  - by rewrite lookup_alter_ne.
Qed.

Lemma recorded_change_set_property g i p v action tx n :
  recorded_change (set_property i p v g) action tx n
  ↔ recorded_change g action tx n.
Proof. unfold recorded_change. by rewrite !labelled_set_property. Qed.

Lemma modified_rels_linked g action n :
  modified_rels g action n ≠ [] ↔ linked g action n.
Proof.
  unfold modified_rels, linked. split.
  - intros Hne.
    destruct (filter _ (map_to_list (rels g))) as [|[i r] l] eqn:E; [done|].
    assert ((i, r) ∈ filter (λ x : nat * Rel, rtype x.2 = "MODIFIED"
                                ∧ rstart x.2 = action ∧ rend x.2 = n)
                         (map_to_list (rels g))) as Hin
      by (rewrite E; apply list_elem_of_here).
    apply list_elem_of_filter in Hin as [HP Hin].
    apply elem_of_map_to_list in Hin. by exists i, r.
  - intros (i & r & Hl & HP) Hnil.
    apply fmap_nil_inv in Hnil.
    assert ((i, r) ∈ filter (λ x : nat * Rel, rtype x.2 = "MODIFIED"
                                ∧ rstart x.2 = action ∧ rend x.2 = n)
                         (map_to_list (rels g))) as Hin.
    { apply list_elem_of_filter. split; [done|].
      by apply elem_of_map_to_list. }
    rewrite Hnil in Hin. by apply elem_of_nil in Hin.
Qed.

(** Writing the details on a MODIFIED relationship keeps its type and its
    ends. *)
Lemma linked_set_rel_details details g modRel action n :
  linked (set_rel_details details g modRel) action n ↔ linked g action n.
Proof.
  unfold linked, set_rel_details. simpl. split.
  - intros (i & r & Hl & HP). destruct (decide (modRel = i)) as [->|Hne].
    + rewrite lookup_alter_eq in Hl.
      destruct (rels g !! i) as [r0|] eqn:E; simplify_eq/=.
      by exists i, r0.
    + rewrite lookup_alter_ne in Hl by done. by exists i, r.
  - intros (i & r & Hl & HP). destruct (decide (modRel = i)) as [->|Hne].
    + eexists i, _. rewrite lookup_alter_eq, Hl. simpl. split; [done|].
      done.
    + exists i, r. by rewrite lookup_alter_ne.
Qed.

Lemma linked_fold_details details modRels g action n :
  linked (foldl (set_rel_details details) g modRels) action n
  ↔ linked g action n.
Proof.
  revert g. induction modRels as [|m ms IH]; intros g; simpl; [done|].
  by rewrite IH, linked_set_rel_details.
Qed.

Lemma linked_set_property g i p v action n :
  linked (set_property i p v g) action n ↔ linked g action n.
Proof. done. Qed.

(** *** The fold over the unwound changes *)

Lemma record_fold_err action e cs :
  foldl (record_change action) (Err e) cs = Err e.
Proof. induction cs; simpl; auto. Qed.

Lemma record_change_ok action g c g' :
  record_change action (Ok g) c = Ok g' →
  linked g action (modifiedNode c)
  ∧ ∀ n, linked g' action n ↔ linked g action n.
Proof.
  unfold record_change. simpl. case_bool_decide as Hnil; simpl; [done|].
  intros [= <-]. split.
  - by apply modified_rels_linked.
  - intros n. apply linked_fold_details.
Qed.

Lemma record_change_err action g c e :
  record_change action (Ok g) c = Err e → ∃ msg, e = Neo4jError msg.
Proof.
  unfold record_change. simpl. case_bool_decide; simpl; [|done].
  intros [= <-]. eauto.
Qed.

Lemma record_fold_ok action cs g g' :
  foldl (record_change action) (Ok g) cs = Ok g' →
  ∀ c, c ∈ cs → linked g action (modifiedNode c).
Proof.
  revert g. induction cs as [|c0 cs IH]; intros g Hok c Hin.
  - by apply elem_of_nil in Hin.
  - cbn [foldl] in Hok.
    destruct (record_change action (Ok g) c0) as [g1|e] eqn:E.
    + apply record_change_ok in E as [Hc0 Hsame].
      apply elem_of_cons in Hin as [->|Hin]; [done|].
      apply Hsame. by eapply IH.
    + by rewrite record_fold_err in Hok.
Qed.

Lemma record_fold_neo4j action cs g e :
  foldl (record_change action) (Ok g) cs = Err e → ∃ msg, e = Neo4jError msg.
Proof.
  revert g. induction cs as [|c0 cs IH]; intros g; cbn [foldl]; [done|].
  destruct (record_change action (Ok g) c0) as [g1|e1] eqn:E.
  - apply IH.
  - rewrite record_fold_err. intros [= <-]. by eapply record_change_err.
Qed.

Lemma trackActionChanges_neo4j g tx e :
  trackActionChanges g tx = Err e → ∃ msg, e = Neo4jError msg.
Proof.
  unfold trackActionChanges. case_bool_decide; simpl; [intros [= <-]; eauto|].
  destruct (head _); [|intros [= <-]; eauto].
  case_bool_decide; simpl; [intros [= <-]; eauto|].
  apply record_fold_neo4j.
Qed.

(** *** The recorded changes *)

Lemma elem_of_label_pairs (m : gmap string (list nat)) l ns n :
  m !! l = Some ns → n ∈ ns → (l, n) ∈ label_pairs m.
Proof.
  intros Hl Hn. unfold label_pairs. apply list_elem_of_bind.
  exists (l, ns). split.
  - simpl. apply list_elem_of_fmap. by exists n.
  - by apply elem_of_map_to_list.
Qed.

(** Every node with a recorded change is the [modifiedNode] of an element
    of the list the trigger unwinds. *)
Lemma recorded_change_in_changes g action tx n :
  recorded_change g action tx n →
  ∃ c, c ∈ trigger_changes g action tx ∧ modifiedNode c = n.
Proof.
  unfold recorded_change, trigger_changes.
  intros [H|[H|[H|[H|[H|H]]]]].
  - destruct H as (Hin & Ha & Hs).
    eexists. split; [|shelve].
    apply elem_of_app. left. apply list_elem_of_fmap.
    exists n. split; [reflexivity|].
    apply list_elem_of_filter. by split.
    Unshelve. done.
  - destruct H as ((l & ns & Hl & Hn) & Hlab & Hnc).
    eexists. split; [|shelve].
    apply elem_of_app. right. apply elem_of_app. left.
    apply list_elem_of_fmap. exists (l, n). split; [reflexivity|].
    apply list_elem_of_filter. split; [by split|].
    by eapply elem_of_label_pairs.
    Unshelve. done.
  - destruct H as ((l & ns & Hl & Hn) & Hlab & Hnd).
    eexists. split; [|shelve].
    do 2 (apply elem_of_app; right). apply elem_of_app. left.
    apply list_elem_of_fmap. exists (l, n). split; [reflexivity|].
    apply list_elem_of_filter. split; [by split|].
    by eapply elem_of_label_pairs.
    Unshelve. done.
  - destruct H as ((chg & Hin & <-) & Hlab & Hna & Hnd).
    eexists. split; [|shelve].
    do 3 (apply elem_of_app; right). apply elem_of_app. left.
    apply list_elem_of_fmap. exists chg. split; [reflexivity|].
    apply list_elem_of_filter. by split.
    Unshelve. done.
  - destruct H as (r & Hin & <- & Hlab & Hna & Hea).
    eexists. split; [|shelve].
    do 4 (apply elem_of_app; right). apply elem_of_app. left.
    apply list_elem_of_fmap. exists r. split; [reflexivity|].
    apply list_elem_of_filter. by split.
    Unshelve. done.
  - destruct H as (r & Hin & <- & Hlab & Hna & Hea & Hnd & Hed).
    eexists. split; [|shelve].
    do 5 (apply elem_of_app; right).
    apply list_elem_of_fmap. exists r. split; [reflexivity|].
    apply list_elem_of_filter. by split.
    Unshelve. done.
Qed.

(** The list holds nothing else. *)
Lemma changes_are_recorded g action tx c :
  c ∈ trigger_changes g action tx →
  recorded_change g action tx (modifiedNode c).
Proof.
  unfold recorded_change, trigger_changes. intros Hin.
  repeat (apply elem_of_app in Hin as [Hin|Hin]).
  - apply list_elem_of_fmap in Hin as (n & -> & Hin).
    apply list_elem_of_filter in Hin as [[Ha Hs] Hin]. by left.
  - apply list_elem_of_fmap in Hin as ([l n] & -> & Hin).
    apply list_elem_of_filter in Hin as [[Hlab Hnc] Hin]. simpl in *.
    right; left. split; [|done].
    apply list_elem_of_bind in Hin as ([l' ns] & Hin & Hkv).
    apply list_elem_of_fmap in Hin as (n' & [= -> ->] & Hn').
    apply elem_of_map_to_list in Hkv. eauto.
  - apply list_elem_of_fmap in Hin as ([l n] & -> & Hin).
    apply list_elem_of_filter in Hin as [[Hlab Hnc] Hin]. simpl in *.
    do 2 right; left. split; [|done].
    apply list_elem_of_bind in Hin as ([l' ns] & Hin & Hkv).
    apply list_elem_of_fmap in Hin as (n' & [= -> ->] & Hn').
    apply elem_of_map_to_list in Hkv. eauto.
  - apply list_elem_of_fmap in Hin as (chg & -> & Hin).
    apply list_elem_of_filter in Hin as [(Hlab & Hna & Hnd) Hin].
    do 3 right; left. simpl. split; [by exists chg|done].
  - apply list_elem_of_fmap in Hin as (r & -> & Hin).
    apply list_elem_of_filter in Hin as [(Hlab & Hna & Hea) Hin].
    do 4 right; left. simpl. by exists r.
  - apply list_elem_of_fmap in Hin as (r & -> & Hin).
    apply list_elem_of_filter in Hin as [(Hlab & Hna & Hea & Hnd & Hed) Hin].
    do 5 right. simpl. by exists r.
Qed.

(** *** What makes the trigger fail *)

(** C8: a write transaction in which the number of created nodes labelled
    Action and VNode is not one (none, or more than one) is failed by the
    trigger, and nothing of it is committed. *)
Theorem one_action_per_transaction before after tx :
  length (created_actions after tx) ≠ 1 →
  commit before after tx
  = (Err (Neo4jError (msg_one_action (length (created_actions after tx)))),
     before).
Proof.
  intros Hne. unfold commit, trackActionChanges.
  by rewrite (bool_decide_eq_true_2 (length (created_actions after tx) ≠ 1)).
Qed.

Lemma one_action_per_transaction_witness :
  commit Scenario.after2 Scenario.after_bare_write Scenario.bare_write
  = (Err (Neo4jError
       "every data write transaction should be associated with one Action, found 0"),
     Scenario.after2).
Proof.
  apply (one_action_per_transaction Scenario.after2
           Scenario.after_bare_write Scenario.bare_write).
  vm_compute. lia.
Defined.

(** A transaction the trigger lets through created exactly one Action. *)
Lemma committed_has_one_action after tx g :
  trackActionChanges after tx = Ok g → length (created_actions after tx) = 1.
Proof.
  unfold trackActionChanges. case_bool_decide as H; simpl; [done|].
  intros _. lia.
Qed.

(** C3 (as the code has it): when a transaction assigns or removes a
    property of a relationship that it neither created nor deleted, and the
    start node of that relationship carries the VNode label, the trigger
    fails the transaction and the store stays as it was before; with
    exactly one Action created the error is the one that forbids changing
    relationship properties. *)
Theorem relationship_property_change_rejected before after tx chg :
  chg ∈ rel_property_changes tx →
  labelled after "VNode" (rstart (TxData.ref chg).2) = true →
  (TxData.ref chg).1 ∉ (TxData.createdRelationships tx).*1 →
  (TxData.ref chg).1 ∉ (TxData.deletedRelationships tx).*1 →
  ∃ msg, commit before after tx = (Err (Neo4jError msg), before)
         ∧ (length (created_actions after tx) = 1 → msg = msg_rel_props).
Proof.
  intros Hin Hlab Hnc Hnd. unfold commit, trackActionChanges.
  case_bool_decide as Hlen; simpl.
  { eexists. split; [done|]. intros H. by rewrite H in Hlen. }
  destruct (created_actions after tx) as [|action l] eqn:Ha; simpl.
  { eexists. split; [done|]. simpl. done. }
  rewrite bool_decide_eq_true_2; [by eexists|].
  intros Hnil.
  assert (chg ∈ trigger_preventRelChanges
                  (set_property action "deletedNodesCount"
                     (Some (PInt (Z.of_nat (length (deleted_vnodes tx)))))
                     after) tx) as Hmem.
  { apply list_elem_of_filter. rewrite labelled_set_property. by split. }
  rewrite Hnil in Hmem. by apply elem_of_nil in Hmem.
Qed.

Lemma relationship_property_change_rejected_witness :
  ∃ msg, commit Scenario.after2 Scenario.after_rel_write Scenario.rel_write
         = (Err (Neo4jError msg), Scenario.after2)
         ∧ (length (created_actions Scenario.after_rel_write Scenario.rel_write)
            = 1 → msg = msg_rel_props).
Proof.
  apply (relationship_property_change_rejected Scenario.after2
           Scenario.after_rel_write Scenario.rel_write
           Scenario.rel_since_change).
  - vm_compute. apply list_elem_of_here.
  - reflexivity.
  - by_compute.
  - by_compute.
Defined.

(** A relationship that starts at a soft-deleted node (no VNode label) gets
    a property in place, it is neither created nor deleted in the
    transaction, and the transaction commits with the changed
    relationship. *)
Lemma relationship_property_change_committed :
  let committed := commit Scenario.movie_soft_deleted
                     Scenario.after_rel_write_on_deleted
                     Scenario.rel_write_on_deleted in
  Scenario.rel_since_change
    ∈ rel_property_changes Scenario.rel_write_on_deleted
  ∧ (6 ∉ (TxData.createdRelationships Scenario.rel_write_on_deleted).*1)
  ∧ (6 ∉ (TxData.deletedRelationships Scenario.rel_write_on_deleted).*1)
  ∧ committed.1 = Ok tt
  ∧ rels Scenario.movie_soft_deleted !! 6 = Some (mkRel "FRANCHISE_IS" 5 2 ∅)
  ∧ rels committed.2 !! 6 = Some Scenario.franchise_rel_since.
Proof.
  cbv zeta. split_and!.
  - vm_compute. apply list_elem_of_here.
  - by_compute.
  - by_compute.
  - vm_compute. reflexivity.
  - vm_compute. reflexivity.
  - vm_compute. reflexivity.
Qed.

(** In a committed transaction every node with a recorded change carries a
    MODIFIED relationship from the Action. *)
Lemma committed_changes_are_linked after tx action g n :
  created_actions after tx = [action] →
  trackActionChanges after tx = Ok g →
  recorded_change after action tx n →
  linked after action n.
Proof.
  intros Ha. unfold trackActionChanges. rewrite Ha. simpl.
  case_bool_decide; simpl; [done|]. intros Hfold Hrec.
  apply (recorded_change_set_property after action "deletedNodesCount"
           (Some (PInt (Z.of_nat (length (deleted_vnodes tx)))))) in Hrec.
  apply recorded_change_in_changes in Hrec as (c & Hin & <-).
  by apply (record_fold_ok _ _ _ _ Hfold c) in Hin.
Qed.

(** C2 (as the code has it): when the transaction created the Action
    [action] and the trigger records a change for a node that has no
    MODIFIED relationship from the Action, the transaction fails and the
    store stays as it was before. *)
Theorem undeclared_change_rejected before after tx action n :
  created_actions after tx = [action] →
  recorded_change after action tx n →
  ¬ linked after action n →
  ∃ msg, commit before after tx = (Err (Neo4jError msg), before).
Proof.
  intros Ha Hrec Hnl. unfold commit.
  destruct (trackActionChanges after tx) as [g|e] eqn:E.
  - exfalso. apply Hnl. by eapply committed_changes_are_linked.
  - apply trackActionChanges_neo4j in E as [msg ->]. by exists msg.
Qed.

Lemma undeclared_change_rejected_witness :
  ∃ msg, commit Scenario.after2 Scenario.after_undeclared_write
           Scenario.undeclared_write
         = (Err (Neo4jError msg), Scenario.after2).
Proof.
  apply (undeclared_change_rejected Scenario.after2
           Scenario.after_undeclared_write Scenario.undeclared_write 7 5).
  - reflexivity.
  - do 3 right. left. split_and!.
    + eexists. split; [vm_compute; apply list_elem_of_here|reflexivity].
    + reflexivity.
    + lia.
    + by_compute.
  - intros H. apply modified_rels_linked in H. by apply H.
Defined.

(** A property of the soft-deleted movie is changed by an Action that has
    no MODIFIED relationship to it (nor to itself, the created Action
    node), and the transaction commits with the new value. *)
Lemma undeclared_change_committed :
  let committed := commit Scenario.movie_soft_deleted
                     Scenario.after_prop_write_on_deleted
                     Scenario.prop_write_on_deleted in
  created_actions Scenario.after_prop_write_on_deleted
    Scenario.prop_write_on_deleted = [7]
  ∧ (∃ chg, chg ∈ node_property_changes Scenario.prop_write_on_deleted
            ∧ TxData.ref chg = 5)
  ∧ ¬ linked Scenario.after_prop_write_on_deleted 7 5
  ∧ ¬ linked Scenario.after_prop_write_on_deleted 7 7
  ∧ committed.1 = Ok tt
  ∧ current_property Scenario.movie_soft_deleted 5 "year" = Some (PInt 2014)
  ∧ current_property committed.2 5 "year" = Some (PInt 2015).
Proof.
  cbv zeta. split_and!.
  - reflexivity.
  - eexists. split; [vm_compute; apply list_elem_of_here|reflexivity].
  - intros H. apply modified_rels_linked in H. by apply H.
  - intros H. apply modified_rels_linked in H. by apply H.
  - vm_compute. reflexivity.
  - vm_compute. reflexivity.
  - vm_compute. reflexivity.
Qed.

End TrackActionChanges.

Section UpdateToOne.

Variable type_labels : BaseVNodeType → list string.
Variable has_key : Graph → nat → string → bool.

(** *** Reading the patterns *)

Lemma elem_of_merge_matches g relType self target i :
  i ∈ merge_matches g relType self target
  ↔ ∃ r, rels g !! i = Some r
         ∧ rtype r = relType ∧ rstart r = self ∧ rend r = target.
Proof.
  unfold merge_matches. rewrite list_elem_of_fmap. split.
  - intros ([j r] & -> & Hin). apply list_elem_of_filter in Hin as [HP Hin].
    apply elem_of_map_to_list in Hin. by exists r.
  - intros (r & Hl & HP). exists (i, r). split; [done|].
    apply list_elem_of_filter. split; [done|]. by apply elem_of_map_to_list.
Qed.

Lemma elem_of_outgoing g P relType i r :
  (i, r) ∈ outgoing g P relType
  ↔ rels g !! i = Some r
    ∧ rtype r = relType ∧ P (rstart r) = true
    ∧ node_is (has_label "VNode") g (rend r) = true.
Proof.
  unfold outgoing. rewrite list_elem_of_filter, elem_of_map_to_list.
  simpl. tauto.
Qed.



(** *** SET rel = $relationshipProps *)

Lemma nodes_set_rel_properties_fold props ids g :
  nodes (foldl (set_rel_properties props) g ids) = nodes g.
Proof. revert g. induction ids as [|i ids IH]; intros g; simpl; [done|]. by rewrite IH. Qed.

Lemma lookup_set_rel_properties_fold props ids g j :
  rels (foldl (set_rel_properties props) g ids) !! j
  = if decide (j ∈ ids)
    then (λ r, mkRel (rtype r) (rstart r) (rend r) props) <$> rels g !! j
    else rels g !! j.
Proof.
  revert g. induction ids as [|i ids IH]; intros g; cbn [foldl].
  - rewrite decide_False; [done|]. apply not_elem_of_nil.
  - rewrite IH. unfold set_rel_properties. simpl.
    destruct (decide (i = j)) as [->|Hne].
    + rewrite lookup_alter_eq. rewrite (decide_True (P := j ∈ j :: ids))
        by apply list_elem_of_here.
      destruct (decide (j ∈ ids)); [|done].
      by destruct (rels g !! j).
    + rewrite lookup_alter_ne by done.
      destruct (decide (j ∈ ids)) as [Hin|Hnin].
      * rewrite decide_True; [done|]. by apply list_elem_of_further.
      * rewrite decide_False; [done|].
        intros [?|?]%elem_of_cons; congruence.
Qed.

(** *** MERGE *)

Lemma nodes_merge_fold relType rows st :
  nodes (foldl (merge_row relType) st rows).1 = nodes st.1.
Proof.
  revert st. induction rows as [|row rows IH]; intros st; cbn [foldl]; [done|].
  rewrite IH. unfold merge_row. by case_bool_decide.
Qed.


Lemma merge_fold_nonempty relType rows st :
  rows ≠ [] → (foldl (merge_row relType) st rows).2 ≠ [].
Proof.
  assert (∀ rows st, st.2 ≠ [] → (foldl (merge_row relType) st rows).2 ≠ [])
    as Hkeep.
  { clear. intros rows. induction rows as [|row rows IH]; intros st Hne;
      cbn [foldl]; [done|].
    apply IH. unfold merge_row. case_bool_decide; simpl;
      by intros [? _]%app_eq_nil. }
  destruct rows as [|row rows]; [done|]. intros _. cbn [foldl].
  apply Hkeep. unfold merge_row. case_bool_decide as Hms; simpl.
  - by intros [_ ?]%app_eq_nil.
  - intros [_ ?%fmap_nil_inv]%app_eq_nil. done.
Qed.


(** *** DELETE oldRel *)





(** Without a node matching the from-pattern, as when the from-node is
    soft-deleted, the queries match nothing: clearing the relationship
    succeeds, reports no earlier target and leaves the store as it is;
    pointing it at a key throws. *)
Lemma updateToOneRelationship_without_from_node fromType fromId rel to g
    relType :
  relTypeKey rel = Some relType →
  vt_rel fromType !! relType = Some rel →
  from_nodes type_labels g fromType fromId = [] →
  match toKey_of to with
  | None =>
      updateToOneRelationship type_labels has_key (fromType, fromId) rel to g
      = Ok ({[ "key" := None ]}, g)
  | Some toKey =>
      ∃ e, updateToOneRelationship type_labels has_key (fromType, fromId) rel
             to g = Err e
  end.
Proof.
  intros Hrt Hdecl Hnone. unfold updateToOneRelationship, getRelationshipType.
  rewrite Hrt. cbn [mbind Result_bind fst snd].
  rewrite (bool_decide_eq_false_2 (vt_rel fromType !! relType ≠ Some rel))
    by (intros H; by apply H).
  cbn [throw_if mbind Result_bind].
  destruct (toKey_of to) as [toKey|].
  - destruct (bool_decide (rel_to rel = []));
      cbn [throw_if mbind Result_bind]; [eauto|].
    rewrite Hnone. simpl. eauto.
  - assert (outgoing g (node_is (is_from type_labels fromType fromId) g)
              relType = []) as ->.
    { apply elem_of_nil_inv. intros [i r] (_ & _ & Hs & _)%elem_of_outgoing.
      unfold node_is in Hs.
      destruct (nodes g !! rstart r) as [n|] eqn:Hn; [|done].
      assert (rstart r ∈ from_nodes type_labels g fromType fromId) as Hin.
      { unfold from_nodes, match_nodes. apply list_elem_of_fmap.
        exists (rstart r, n). split; [done|]. apply list_elem_of_filter.
        split; [done|]. by apply elem_of_map_to_list. }
      rewrite Hnone in Hin. by apply elem_of_nil in Hin. }
    unfold prevTo_of, delete_relationships. simpl. by destruct g.
Qed.

End UpdateToOne.

Section UpdateToOneScenario.

Import Scenario.

Example movie_retargeted :
  updateToOneRelationship type_labels has_key (Movie, "_gg") franchise_is_decl
    (ToKey (Some "dcu")) two_franchises
  = Ok ({[ "key" := Some (PStr "_mcu") ]}, retargeted).
Proof. vm_compute. reflexivity. Qed.



(** Clearing the relationship of that movie leaves the relationship to the
    soft-deleted franchise in place. *)
Example cleared_keeps_relationship_to_deleted :
  ∃ g',
    updateToOneRelationship type_labels has_key (Movie, "_gg")
      franchise_is_decl (ToKey None) franchise_soft_deleted
    = Ok ({[ "key" := None ]}, g')
    ∧ rels g' !! 6 = Some (mkRel "FRANCHISE_IS" 5 2 ∅).
Proof. eexists. split; vm_compute; reflexivity. Qed.

(** The movie itself is soft-deleted: it does not match the from-pattern,
    and clearing its relationship succeeds without touching it. *)
Example cleared_from_soft_deleted_movie :
  from_nodes type_labels movie_soft_deleted Movie "_gg" = []
  ∧ updateToOneRelationship type_labels has_key (Movie, "_gg")
      franchise_is_decl (ToKey None) movie_soft_deleted
    = Ok ({[ "key" := None ]}, movie_soft_deleted)
  ∧ rels movie_soft_deleted !! 6 = Some (mkRel "FRANCHISE_IS" 5 2 ∅).
Proof. split_and!; vm_compute; reflexivity. Qed.

(** With two relationships of the type to the target before the call,
    MERGE returns a row for each, each row deletes the relationship of the
    other, and none is left. *)
Example doubled_relationships_both_deleted :
  ∃ prevTo g',
    updateToOneRelationship type_labels has_key (Movie, "_gg")
      franchise_is_decl (ToKey (Some "mcu")) doubled
    = Ok (prevTo, g')
    ∧ merge_matches doubled "FRANCHISE_IS" 5 2 = [6; 9]
    ∧ merge_matches g' "FRANCHISE_IS" 5 2 = [].
Proof. eexists _, _. split_and!; vm_compute; reflexivity. Qed.

End UpdateToOneScenario.

Section VDateFacts.

Variable neo4j_date_valid : Z → Z → Z → bool.

(** X1: for every integer year, negative ones too, [isLeapYear] is the
    rule of the Gregorian calendar: divisible by 4, and not by 100 unless
    by 400. *)
Theorem isLeapYear_gregorian (y : Z) :
  isLeapYear y = true
  ↔ (4 | y)%Z ∧ (¬ (100 | y)%Z ∨ (400 | y)%Z).
Proof.
  unfold isLeapYear.
  rewrite andb_true_iff, orb_true_iff, negb_true_iff.
  rewrite !Z.eqb_eq, Z.eqb_neq.
  rewrite <- !Z.rem_divide by lia. tauto.
Qed.

Lemma days_per_month_in_year y m :
  (1 ≤ m ≤ 12)%Z →
  default (if isLeapYear y then 29 else 28)%Z (days_per_month_at (m - 1))
  = days_in_month y m.
Proof.
  intros Hm.
  assert (m = 1 ∨ m = 2 ∨ m = 3 ∨ m = 4 ∨ m = 5 ∨ m = 6 ∨ m = 7 ∨ m = 8
          ∨ m = 9 ∨ m = 10 ∨ m = 11 ∨ m = 12)%Z as H by lia.
  clear Hm. repeat (destruct H as [->|H]; [reflexivity|]).
  by rewrite H.
Qed.

(** X2: with a month from 1 to 12 the constructor accepts a date exactly
    when the superclass accepts it and the day is not after the last day
    of that month, the 29th of February existing in leap years only. *)
Theorem VDate_new_accepts y m d :
  (1 ≤ m ≤ 12)%Z →
  VDate_new neo4j_date_valid y m d = Ok (mkVDate y m d)
  ↔ neo4j_date_valid y m d = true ∧ (d ≤ days_in_month y m)%Z.
Proof.
  intros Hm. unfold VDate_new. rewrite (days_per_month_in_year y m Hm).
  destruct (neo4j_date_valid y m d); simpl.
  - destruct (Z.gtb_spec d (days_in_month y m)); simpl.
    + split; [done|]. intros [_ ?]. lia.
    + split; [|done]. intros _. split; [done|lia].
  - split; [done|]. by intros [? _].
Qed.

(** X3: a string that has neither 10 nor 8 code units is refused as not
    being in one of the two formats, whatever it holds. *)
Theorem fromString_other_length str :
  String.length str ≠ 10 → String.length str ≠ 8 →
  fromString neo4j_date_valid str
  = Err (Error "Date string not in YYYY-MM-DD or YYYYMMDD format").
Proof.
  intros H10 H8. unfold fromString.
  rewrite (bool_decide_eq_false_2 (String.length str = 10)) by done.
  rewrite (bool_decide_eq_false_2 (String.length str = 8)) by done.
  simpl. by destruct (parseInt (String.substring 0 4 str)).
Qed.

Lemma parseInt_pad4 (n : N) :
  (n < 10000)%N → parseInt (pad4 n) = Some (Z.of_N n).
Proof.
  intros Hn.
  assert (Forall (λ n, parseInt (pad4 n) = Some (Z.of_N n))
            (N.of_nat <$> seq 0 (N.to_nat 10000))) as Hall
    by (apply (bool_decide_unpack _); vm_compute; exact I).
  rewrite Forall_forall in Hall. apply Hall.
  apply list_elem_of_fmap. exists (N.to_nat n). split; [lia|].
  apply elem_of_seq. lia.
Qed.

Lemma parseInt_pad2 (n : N) :
  (n < 100)%N → parseInt (pad2 n) = Some (Z.of_N n).
Proof.
  intros Hn.
  assert (Forall (λ n, parseInt (pad2 n) = Some (Z.of_N n))
            (N.of_nat <$> seq 0 (N.to_nat 100))) as Hall
    by (apply (bool_decide_unpack _); vm_compute; exact I).
  rewrite Forall_forall in Hall. apply Hall.
  apply list_elem_of_fmap. exists (N.to_nat n). split; [lia|].
  apply elem_of_seq. lia.
Qed.

(** X4: the extended ISO 8601 form of a date, YYYY-MM-DD with the numbers
    padded with zeros, is read as that year, month and day and handed to
    the constructor. *)
Theorem fromString_extended (y m d : N) :
  (y < 10000)%N → (m < 100)%N → (d < 100)%N →
  fromString neo4j_date_valid
    (pad4 y +:+ "-" +:+ pad2 m +:+ "-" +:+ pad2 d)
  = VDate_new neo4j_date_valid (Z.of_N y) (Z.of_N m) (Z.of_N d).
Proof.
  intros Hy Hm Hd.
  change (pad4 y +:+ "-" +:+ pad2 m +:+ "-" +:+ pad2 d)
    with (String (digit_char (y `div` 1000))
            (String (digit_char (y `div` 100))
               (String (digit_char (y `div` 10))
                  (String (digit_char y)
                     (String "-"%char
                        (String (digit_char (m `div` 10))
                           (String (digit_char m)
                              (String "-"%char (pad2 d))))))))).
  unfold fromString.
  change (String.substring 0 4 _) with (pad4 y).
  change (String.substring 5 2 _) with (pad2 m).
  change (String.substring 8 2 _) with (pad2 d).
  change (String.length _) with 10.
  change (charAt_is _ 4 "-") with (bool_decide (Some "-"%char = Some "-"%char)).
  change (charAt_is _ 7 "-") with (bool_decide (Some "-"%char = Some "-"%char)).
  rewrite (bool_decide_eq_true_2 (10 = 10)) by done.
  rewrite (bool_decide_eq_true_2 (Some "-"%char = Some "-"%char)) by done.
  cbn [andb fst snd].
  by rewrite parseInt_pad4, !parseInt_pad2 by done.
Qed.

End VDateFacts.

Lemma VDate_new_accepts_witness :
  VDate_new driver_date_valid 2024 2 29 = Ok (mkVDate 2024 2 29)
  ↔ driver_date_valid 2024 2 29 = true ∧ (29 ≤ days_in_month 2024 2)%Z.
Proof. apply VDate_new_accepts. lia. Defined.

(** The 29th of February of a year that is not a leap year, and the 31st
    of April, are refused. *)
Example VDate_new_rejects :
  VDate_new driver_date_valid 2023 2 29 = Err (Error "Invalid date")
  ∧ VDate_new driver_date_valid 1900 2 29 = Err (Error "Invalid date")
  ∧ VDate_new driver_date_valid 2021 4 31 = Err (Error "Invalid date").
Proof. split_and!; reflexivity. Qed.

Lemma fromString_other_length_witness :
  fromString driver_date_valid "2021-03-1"
  = Err (Error "Date string not in YYYY-MM-DD or YYYYMMDD format").
Proof. apply fromString_other_length; simpl; lia. Defined.

Lemma fromString_extended_witness :
  fromString driver_date_valid
    (pad4 2014 +:+ "-" +:+ pad2 8 +:+ "-" +:+ pad2 1)
  = VDate_new driver_date_valid 2014 8 1.
Proof. apply (fromString_extended driver_date_valid 2014 8 1); lia. Defined.

Example fromString_examples :
  fromString driver_date_valid "2014-08-01" = Ok (mkVDate 2014 8 1)
  ∧ fromString driver_date_valid "20140801" = Ok (mkVDate 2014 8 1)
  ∧ fromString driver_date_valid "2021-02-31" = Err (Error "Invalid date")
  ∧ fromString driver_date_valid "05/05/05"
    = Err (Error "Date string not in YYYY-MM-DD or YYYYMMDD format")
  ∧ fromString driver_date_valid "09991231"
    = Err (Error "Date string not in YYYY-MM-DD or YYYYMMDD format").
Proof. split_and!; vm_compute; reflexivity. Qed.

(** ** The steps of UndoAction, one by one *)

Section UndoSteps.

Lemma bind_Ok {A B} (r : Result A) (k : A → Result B) b :
  r ≫= k = Ok b → ∃ a, r = Ok a ∧ k a = Ok b.
Proof. destruct r as [a|e]; [|done]. intros H. by exists a. Qed.

Lemma same_entities_refl g : same_entities g g.
Proof. intros i. destruct (nodes g !! i); [|done]. by intros l _ _. Qed.

Lemma same_entities_trans g1 g2 g3 :
  same_entities g1 g2 → same_entities g2 g3 → same_entities g1 g3.
Proof.
  intros H12 H23 i. specialize (H12 i). specialize (H23 i).
  destruct (nodes g1 !! i), (nodes g2 !! i), (nodes g3 !! i); try done.
  intros l H1 H2. rewrite (H23 l H1 H2). by apply H12.
Qed.

Lemma same_entities_nodes g g' :
  nodes g' = nodes g → same_entities g g'.
Proof.
  intros Heq i. rewrite Heq. destruct (nodes g !! i); [|done]. by intros l _ _.
Qed.

Lemma same_entity_swap_label from to n :
  (from = "VNode" ∨ from = "DeletedVNode") →
  (to = "VNode" ∨ to = "DeletedVNode") →
  same_entity n (swap_label from to n).
Proof.
  intros Hf Ht l H1 H2. unfold swap_label. simpl.
  rewrite list_elem_of_filter.
  destruct (has_label to n).
  - split; [tauto|]. intros ?. split; [|done]. intros ->. tauto.
  - rewrite elem_of_app, list_elem_of_singleton. split.
    + intros [_ [?| ->]]; [done|tauto].
    + intros ?. split; [|tauto]. intros ->. tauto.
Qed.

Lemma same_entities_update P from to g :
  (from = "VNode" ∨ from = "DeletedVNode") →
  (to = "VNode" ∨ to = "DeletedVNode") →
  same_entities g (update_nodes_where P (swap_label from to) g).
Proof.
  intros Hf Ht i. unfold update_nodes_where. simpl. rewrite lookup_fmap.
  destruct (nodes g !! i) as [n|]; simpl; [|done].
  destruct (P n); [by apply same_entity_swap_label|by intros l _ _].
Qed.

Lemma same_entities_set_property i p v g :
  same_entities g (set_property i p v g).
Proof.
  intros j. unfold set_property. simpl.
  destruct (decide (j = i)) as [->|Hne].
  - rewrite lookup_alter_eq. destruct (nodes g !! i); simpl; [|done].
    by intros l _ _.
  - rewrite lookup_alter_ne by done. destruct (nodes g !! j); [|done].
    by intros l _ _.
Qed.

Lemma nodes_create_fold rows g :
  nodes (foldl (λ g r, create_relationship r g) g rows) = nodes g.
Proof.
  revert g. induction rows as [|r rows IH]; intros g; [done|].
  simpl. by rewrite IH.
Qed.

Lemma same_entities_revert mns g :
  same_entities g (revert_modified_nodes mns g).2.
Proof.
  unfold revert_modified_nodes.
  assert (∀ st, same_entities g st.2 →
            same_entities g (foldl revert_step st mns).2) as H.
  { induction mns as [|mn mns IH]; intros st Hst; [done|].
    cbn [foldl]. apply IH. unfold revert_step.
    generalize (vnodes_with_id (mn_id mn) st.2). intros js.
    revert st Hst. induction js as [|i js IHi]; intros st Hst; [done|].
    cbn [foldl]. apply IHi.
    generalize (mn_properties mn). intros es.
    revert st Hst. induction es as [|e es IHe]; intros st Hst; [done|].
    cbn [foldl]. apply IHe. unfold revert_property.
    destruct (still_new _ _); [|done]. simpl.
    eapply same_entities_trans; [exact Hst|apply same_entities_set_property]. }
  apply (H (0, g)). apply same_entities_refl.
Qed.

(** X5: a successful Undo neither creates nor removes a node, and it
    changes no label of a node other than VNode and DeletedVNode. *)
Theorem undo_keeps_entities prevAction changes g ids g' :
  UndoAction_apply prevAction changes g = Ok (ids, g') →
  same_entities g g'.
Proof.
  unfold UndoAction_apply.
  destruct (bool_decide (revertedBy prevAction ≠ None)); [done|].
  destruct (bool_decide (0 < deletedNodesCount changes)); [done|].
  cbn [throw_if mbind Result_bind].
  set (g0 := if bool_decide (0 < length (softDeletedNodes changes))
             then restore_soft_deleted (softDeletedNodes changes) g else g).
  assert (same_entities g g0) as H0.
  { unfold g0. destruct (bool_decide _); [|apply same_entities_refl].
    apply same_entities_update; tauto. }
  clearbody g0.
  intros H. apply bind_Ok in H as (g1 & H1 & H).
  apply bind_Ok in H as (g2 & H2 & H).
  apply bind_Ok in H as (g3 & H3 & H).
  apply bind_Ok in H as (g4 & H4 & H).
  injection H as _ <-.
  assert (same_entities g0 g1) as E1.
  { destruct (bool_decide _) in H1.
    - apply bind_Ok in H1 as (? & _ & H1). injection H1 as <-.
      apply same_entities_nodes. unfold restore_deleted_relationships. simpl.
      apply nodes_create_fold.
    - injection H1 as <-. apply same_entities_refl. }
  assert (same_entities g1 g2) as E2.
  { destruct (bool_decide _) in H2.
    - apply bind_Ok in H2 as (? & _ & H2). injection H2 as <-.
      apply same_entities_revert.
    - injection H2 as <-. apply same_entities_refl. }
  assert (same_entities g2 g3) as E3.
  { destruct (bool_decide _) in H3.
    - apply bind_Ok in H3 as (? & _ & H3). injection H3 as <-.
      by apply same_entities_nodes.
    - injection H3 as <-. apply same_entities_refl. }
  assert (same_entities g3 g4) as E4.
  { destruct (bool_decide _) in H4.
    - apply bind_Ok in H4 as (? & _ & H4).
      apply bind_Ok in H4 as (? & _ & H4). injection H4 as <-.
      apply same_entities_update; tauto.
    - injection H4 as <-. apply same_entities_refl. }
  repeat (eapply same_entities_trans; [eassumption|]).
  apply same_entities_update; tauto.
Qed.

Lemma undo_keeps_entities_witness :
  same_entities Scenario.year_changed_again Scenario.half_reverted.
Proof.
  apply (undo_keeps_entities Scenario.not_reverted Scenario.changes_update
           _ ["_gg"]).
  vm_compute. reflexivity.
Defined.

(** *** Soft deletion and its Undo *)

Lemma vnid_in_nil n : vnid_in [] n = false.
Proof. unfold vnid_in. by destruct (properties n !! "id") as [[]|]. Qed.

Lemma lookup_update_nodes_where P f g i :
  nodes (update_nodes_where P f g) !! i
  = (λ n, if P n then f n else n) <$> nodes g !! i.
Proof. unfold update_nodes_where. simpl. by rewrite lookup_fmap. Qed.

Lemma lookup_soft_delete_nil g i :
  nodes (soft_delete [] g) !! i = nodes g !! i.
Proof.
  unfold soft_delete. rewrite lookup_update_nodes_where.
  destruct (nodes g !! i) as [n|]; [|done]. simpl.
  by rewrite vnid_in_nil, andb_false_r.
Qed.








(** *** Reverting single properties *)

Lemma elem_of_vnodes_with_id id g j :
  j ∈ vnodes_with_id id g ↔ node_is (vnode_with id) g j = true.
Proof.
  unfold vnodes_with_id, match_nodes, node_is. rewrite list_elem_of_fmap.
  split.
  - intros ([j' n] & -> & [H Hn%elem_of_map_to_list]%list_elem_of_filter).
    simpl in *. by rewrite Hn.
  - destruct (nodes g !! j) as [n|] eqn:Hn; [|done]. intros H.
    exists (j, n). split; [done|]. apply list_elem_of_filter. split; [done|].
    by apply elem_of_map_to_list.
Qed.







Lemma vnode_with_inj id1 id2 g i :
  node_is (vnode_with id1) g i = true → node_is (vnode_with id2) g i = true →
  id1 = id2.
Proof.
  unfold node_is, vnode_with, has_vnid.
  destruct (nodes g !! i) as [n|]; [|done].
  intros [_ H1%bool_decide_eq_true]%andb_true_iff
    [_ H2%bool_decide_eq_true]%andb_true_iff. congruence.
Qed.









(** The two properties of the witness are put back. *)
Example undo_single_properties_example :
  (λ r, match r with
        | Ok (_, g') => (current_property g' 5 "year",
                         current_property g' 2 "name")
        | Err _ => (None, None)
        end)
    (UndoAction_apply Scenario.not_reverted
       (property_changes
          [ {| pc_id := "_gg"; pc_name := "year";
               pc_old := Some (PInt 2014); pc_new := Some (PInt 2016) |};
            {| pc_id := "_mcu"; pc_name := "name";
               pc_old := Some (PStr "Marvel");
               pc_new := Some (PStr "Marvel Cinematic Universe") |} ])
       Scenario.year_changed_again)
  = (Some (PInt 2014), Some (PStr "Marvel")).
Proof. vm_compute. reflexivity. Qed.

(** *** Re-creating the relationships an Action deleted *)

Lemma length_bind_const {A B} (l : list A) (k : A → list B) n :
  (∀ x, length (k x) = n) → length (l ≫= k) = length l * n.
Proof.
  intros Hk. induction l as [|a l IH]; [done|].
  rewrite bind_cons, length_app, IH, Hk. simpl. lia.
Qed.

(** A record makes one row for every pair of VNodes matching its ends. *)
Lemma length_recreate_rows_cons dr drs g :
  length (recreate_rows (dr :: drs) g)
  = length (vnodes_with_id (rc_from dr) g)
    * length (vnodes_with_id (rc_to dr) g)
    + length (recreate_rows drs g).
Proof.
  unfold recreate_rows. rewrite bind_cons, length_app. f_equal.
  apply length_bind_const. intros from.
  rewrite (length_bind_const _ _ 1) by done. lia.
Qed.

Lemma length_recreate_rows_le drs g :
  Forall (ends_unique g) drs → length (recreate_rows drs g) ≤ length drs.
Proof.
  induction 1 as [|dr drs [Hf Ht] _ IH]; [done|].
  rewrite length_recreate_rows_cons. simpl. nia.
Qed.

Lemma length_recreate_rows_lt drs dr g :
  Forall (ends_unique g) drs → dr ∈ drs →
  vnodes_with_id (rc_from dr) g = [] ∨ vnodes_with_id (rc_to dr) g = [] →
  length (recreate_rows drs g) < length drs.
Proof.
  intros Hall Hin Hnone. induction Hin as [dr drs|dr dr' drs Hin IH].
  - apply Forall_cons in Hall as [_ Hall].
    pose proof (length_recreate_rows_le drs g Hall) as Hle.
    rewrite length_recreate_rows_cons. simpl.
    destruct Hnone as [-> | ->]; simpl; lia.
  - apply Forall_cons in Hall as [[Hf Ht] Hall]. specialize (IH Hall Hnone).
    rewrite length_recreate_rows_cons. simpl. nia.
Qed.

(** X8: when the target Action deleted a relationship one end of which is
    no longer a VNode (it has been soft-deleted or removed since), Undo
    fails with the conflict that a deleted relationship cannot be
    re-created, and commits nothing.  (No two VNodes share an id.) *)
Theorem undo_recreation_conflict prevAction changes g dr :
  revertedBy prevAction = None →
  deletedNodesCount changes = 0 →
  softDeletedNodes changes = [] →
  Forall (ends_unique g) (deletedRelationships changes) →
  dr ∈ deletedRelationships changes →
  vnodes_with_id (rc_from dr) g = [] ∨ vnodes_with_id (rc_to dr) g = [] →
  _restrictedWrite (UndoAction_apply prevAction changes) g
  = (Err (UndoConflictError msg_cannot_recreate), g).
Proof.
  intros Hr Hc Hs Hall Hin Hnone.
  pose proof (length_recreate_rows_lt _ _ _ Hall Hin Hnone) as Hlt.
  unfold _restrictedWrite, UndoAction_apply. rewrite Hr, Hc, Hs. simpl.
  rewrite (bool_decide_eq_true_2 (0 < length (deletedRelationships changes)))
    by lia.
  rewrite (bool_decide_eq_true_2
             (length (recreate_rows (deletedRelationships changes) g)
              ≠ length (deletedRelationships changes))) by lia.
  done.
Qed.

Lemma undo_recreation_conflict_witness :
  _restrictedWrite
    (UndoAction_apply Scenario.not_reverted
       (relationship_deletions [Scenario.franchise_is])) franchise_gone
  = (Err (UndoConflictError msg_cannot_recreate), franchise_gone).
Proof.
  apply (undo_recreation_conflict _ _ _ Scenario.franchise_is);
    try reflexivity.
  - by_compute.
  - apply list_elem_of_here.
  - right. vm_compute. reflexivity.
Defined.

Lemma create_fold_spec rows : ∀ g,
  let g' := foldl (λ g r, create_relationship r g) g rows in
  nodes g' = nodes g
  ∧ rels g ⊆ rels g'
  ∧ size (rels g') = size (rels g) + length rows
  ∧ ∀ r, r ∈ rows → ∃ i, rels g' !! i = Some r.
Proof.
  induction rows as [|r rows IH]; intros g.
  { simpl. split; [done|]. split; [done|]. split; [lia|].
    intros r Hr. by apply elem_of_nil in Hr. }
  cbn [foldl].
  destruct (IH (create_relationship r g)) as (Hn & Hsub & Hsz & Hin).
  assert (rels g !! fresh (dom (rels g)) = None) as Hfresh.
  { apply not_elem_of_dom, is_fresh. }
  split; [by rewrite Hn|]. split; [|split].
  - etrans; [|exact Hsub]. simpl. by apply insert_subseteq.
  - rewrite Hsz. simpl. rewrite map_size_insert_None by done. lia.
  - intros r' [->|Hr']%elem_of_cons; [|by apply Hin].
    exists (fresh (dom (rels g))).
    eapply lookup_weaken; [|exact Hsub]. simpl. apply lookup_insert_eq.
Qed.

Lemma elem_of_recreate_rows drs g dr :
  dr ∈ drs → ends_exist g dr →
  ∃ from to, from ∈ vnodes_with_id (rc_from dr) g
             ∧ to ∈ vnodes_with_id (rc_to dr) g
             ∧ mkRel (rc_type dr) from to (rc_properties dr)
               ∈ recreate_rows drs g.
Proof.
  intros Hin [Hf Ht].
  destruct (vnodes_with_id (rc_from dr) g) as [|from [|]] eqn:Ef; try done.
  destruct (vnodes_with_id (rc_to dr) g) as [|to [|]] eqn:Et; try done.
  exists from, to. split; [apply list_elem_of_here|].
  split; [apply list_elem_of_here|].
  unfold recreate_rows. apply list_elem_of_bind. exists dr. split; [|done].
  rewrite Ef, Et. simpl. apply list_elem_of_here.
Qed.

Lemma length_recreate_rows_eq drs g :
  Forall (ends_exist g) drs → length (recreate_rows drs g) = length drs.
Proof.
  induction 1 as [|dr drs [Hf Ht] _ IH]; [done|].
  rewrite length_recreate_rows_cons, Hf, Ht, IH. simpl. lia.
Qed.

(** X9: when both ends of every relationship the target Action deleted
    are VNodes still, Undo creates one relationship for every record and
    removes none, and afterwards every record has a relationship of its
    type and properties between the VNodes with its two ids. *)
Theorem undo_recreates_relationships prevAction drs g :
  revertedBy prevAction = None →
  Forall (ends_exist g) drs →
  ∃ m g',
    UndoAction_apply prevAction (relationship_deletions drs) g = Ok (m, g')
    ∧ rels g ⊆ rels g'
    ∧ size (rels g') = size (rels g) + length drs
    ∧ ∀ dr, dr ∈ drs → matching_rels dr g' ≠ [].
Proof.
  intros Hr Hall.
  pose proof (length_recreate_rows_eq drs g Hall) as Hlen.
  destruct (create_fold_spec (recreate_rows drs g) g)
    as (Hn & Hsub & Hsz & Hin).
  unfold UndoAction_apply. rewrite Hr.
  cbn -[soft_delete recreate_rows].
  rewrite !(bool_decide_eq_false_2 (0 < 0)) by lia.
  destruct (bool_decide (0 < length drs)) eqn:Hpos.
  - rewrite (bool_decide_eq_false_2
               (length (recreate_rows drs g) ≠ length drs)) by lia.
    cbn -[soft_delete recreate_rows].
    eexists _, _. split; [reflexivity|]. split; [done|].
    split; [simpl; lia|].
    intros dr Hdr.
    rewrite Forall_forall in Hall.
    destruct (elem_of_recreate_rows drs g dr Hdr (Hall dr Hdr))
      as (from & to & Hf & Ht & Hrow).
    destruct (Hin _ Hrow) as [i Hi].
    intros Hnil.
    assert (i ∈ matching_rels dr
              (soft_delete []
                 (foldl (λ g r, create_relationship r g) g
                    (recreate_rows drs g)))) as Hi'.
    { unfold matching_rels. apply list_elem_of_fmap.
      exists (i, mkRel (rc_type dr) from to (rc_properties dr)).
      split; [done|]. apply list_elem_of_filter. simpl.
      split; [|by apply elem_of_map_to_list].
      split; [done|]. split; [done|].
      unfold node_is. rewrite !lookup_soft_delete_nil, Hn.
      split; by apply elem_of_vnodes_with_id. }
    rewrite Hnil in Hi'. by apply elem_of_nil in Hi'.
  - apply bool_decide_eq_false in Hpos. destruct drs; [|simpl in Hpos; lia].
    eexists _, _. split; [reflexivity|]. split; [done|]. split; [simpl; lia|].
    intros dr Hdr. by apply elem_of_nil in Hdr.
Qed.

Lemma undo_recreates_relationships_witness :
  ∃ m g',
    UndoAction_apply Scenario.not_reverted
      (relationship_deletions [Scenario.franchise_is]) Scenario.after3
    = Ok (m, g')
    ∧ rels Scenario.after3 ⊆ rels g'
    ∧ size (rels g') = size (rels Scenario.after3) + 1
    ∧ ∀ dr, dr ∈ [Scenario.franchise_is] → matching_rels dr g' ≠ [].
Proof.
  apply (undo_recreates_relationships Scenario.not_reverted
           [Scenario.franchise_is] Scenario.after3); [reflexivity|].
  by_compute.
Defined.

(** *** Deleting the relationships an Action created, completely *)

Lemma remove_dups_NoDup `{EqDecision A} (l : list A) :
  NoDup l → remove_dups l = l.
Proof.
  induction 1 as [|x l Hx _ IH]; [done|]. simpl.
  destruct (decide_rel _ _ _); [done|]. by rewrite IH.
Qed.

Lemma length_remove_dups_lt `{EqDecision A} (l : list A) :
  ¬ NoDup l → length (remove_dups l) < length l.
Proof.
  induction l as [|x l IH]; intros Hnd.
  { destruct Hnd. constructor. }
  simpl. pose proof (length_remove_dups_le l).
  destruct (decide_rel _ _ _) as [Hin|Hin]; simpl; [lia|].
  assert (¬ NoDup l) as Hl by (intros ?; apply Hnd; by constructor).
  specialize (IH Hl). lia.
Qed.

Lemma elem_of_matching_rels cr g i :
  i ∈ matching_rels cr g
  ↔ ∃ r, rels g !! i = Some r
         ∧ rtype r = rc_type cr ∧ rprops r = rc_properties cr
         ∧ node_is (vnode_with (rc_from cr)) g (rstart r) = true
         ∧ node_is (vnode_with (rc_to cr)) g (rend r) = true.
Proof.
  unfold matching_rels. rewrite list_elem_of_fmap. split.
  - intros ([j r] & -> & [H Hr%elem_of_map_to_list]%list_elem_of_filter).
    by exists r.
  - intros (r & Hr & H). exists (i, r). split; [done|].
    apply list_elem_of_filter. split; [done|]. by apply elem_of_map_to_list.
Qed.

(** A relationship matches one record only. *)
Lemma matching_rels_inj cr cr' g i :
  i ∈ matching_rels cr g → i ∈ matching_rels cr' g → cr = cr'.
Proof.
  rewrite !elem_of_matching_rels.
  intros (r & Hr & Ht & Hp & Hf & Hto) (r' & Hr' & Ht' & Hp' & Hf' & Hto').
  assert (r' = r) as -> by congruence.
  destruct cr, cr'. simpl in *. f_equal; try congruence.
  - eapply vnode_with_inj; eassumption.
  - eapply vnode_with_inj; eassumption.
Qed.

Lemma victims_spec crs g :
  NoDup crs → Forall (λ cr, matching_rels cr g ≠ []) crs →
  let victims := omap (λ cr, head (matching_rels cr g)) crs in
  length victims = length crs ∧ NoDup victims
  ∧ ∀ i, i ∈ victims → ∃ cr, cr ∈ crs ∧ i ∈ matching_rels cr g.
Proof.
  induction 1 as [|cr crs Hcr Hnd IH]; intros Hall.
  { simpl. split; [done|]. split; [constructor|].
    intros i Hi. by apply elem_of_nil in Hi. }
  apply Forall_cons in Hall as [Hm Hall].
  destruct (IH Hall) as (Hlen & Hnd' & Hin). csimpl.
  destruct (matching_rels cr g) as [|i l] eqn:Em; [done|]. csimpl.
  split; [by rewrite Hlen|]. split.
  - constructor; [|done]. intros (cr' & Hcr' & Hi)%Hin.
    assert (cr = cr') as <-; [|done].
    apply (matching_rels_inj _ _ g i); [|done].
    rewrite Em. apply list_elem_of_here.
  - intros j [->|Hj]%elem_of_cons.
    + exists cr. split; [apply list_elem_of_here|].
      rewrite Em. apply list_elem_of_here.
    + destruct (Hin j Hj) as (cr' & ? & ?). exists cr'.
      split; [by right|done].
Qed.

Lemma size_delete_list {A} (m : gmap nat A) (ids : list nat) :
  NoDup ids → (∀ i, i ∈ ids → is_Some (m !! i)) →
  size (foldr delete m ids) + length ids = size m.
Proof.
  induction 1 as [|i ids Hi Hnd IH]; intros Hin; [simpl; lia|].
  simpl. specialize (IH (λ j Hj, Hin j (list_elem_of_further _ _ _ Hj))).
  destruct (Hin i (list_elem_of_here _ _)) as [x Hx].
  assert (foldr delete m ids !! i = Some x) as Hx'.
  { apply lookup_foldr_delete_Some. done. }
  rewrite map_size_delete, Hx'.
  assert (size (foldr delete m ids) ≠ 0).
  { intros H0%map_size_empty_inv. by rewrite H0 in Hx'. }
  lia.
Qed.

(** X10: the Undo of an Action that did nothing but create relationships
    goes through exactly when its records are pairwise distinct and each
    one matches a relationship in the store; it then removes as many
    relationships as there are records and adds none.  If not, it fails
    with the conflict that a created relationship cannot be deleted: also
    when the Action recorded the same relationship twice. *)
Theorem undo_created_relationships prevAction crs g :
  revertedBy prevAction = None →
  match UndoAction_apply prevAction (relationship_creations crs) g with
  | Ok (_, g') =>
      NoDup crs ∧ Forall (λ cr, matching_rels cr g ≠ []) crs
      ∧ rels g' ⊆ rels g ∧ size (rels g') + length crs = size (rels g)
  | Err e =>
      e = UndoConflictError msg_cannot_delete
      ∧ ¬ (NoDup crs ∧ Forall (λ cr, matching_rels cr g ≠ []) crs)
  end.
Proof.
  intros Hr. unfold UndoAction_apply. rewrite Hr.
  cbn -[soft_delete delete_created_relationships].
  rewrite !(bool_decide_eq_false_2 (0 < 0)) by lia.
  destruct (bool_decide (0 < length crs)) eqn:Hpos.
  2:{ apply bool_decide_eq_false in Hpos.
      destruct crs; [|simpl in Hpos; lia].
      simpl. split; [constructor|]. split; [constructor|].
      split; [done|lia]. }
  cbn -[soft_delete delete_created_relationships].
  destruct (decide (NoDup crs ∧ Forall (λ cr, matching_rels cr g ≠ []) crs))
    as [[Hnd Hall]|Hno].
  - destruct (victims_spec crs g Hnd Hall) as (Hlen & Hndv & Hin).
    unfold delete_created_relationships. rewrite (remove_dups_NoDup crs Hnd).
    cbn -[soft_delete].
    rewrite (bool_decide_eq_false_2 _) by (intros H; apply H, Hlen).
    cbn -[soft_delete]. split; [done|]. split; [done|]. split.
    + clear. induction (omap _ crs) as [|i l IH]; [done|]. simpl.
      etrans; [apply delete_subseteq|done].
    + rewrite <- Hlen. apply size_delete_list; [done|].
      intros i (cr & _ & (r & Hr' & _)%elem_of_matching_rels)%Hin.
      by exists r.
  - rewrite (bool_decide_eq_true_2
               ((delete_created_relationships crs g).1 ≠ length crs)).
    { by cbn. }
    apply not_and_l in Hno as [Hnd|Hall].
    + unfold delete_created_relationships. simpl.
      pose proof (length_remove_dups_lt crs Hnd).
      pose proof (length_omap_le (λ cr, head (matching_rels cr g))
                    (remove_dups crs)). lia.
    + apply not_Forall_Exists in Hall; [|apply _].
      apply Exists_exists in Hall as (cr & Hin & Hnone).
      apply delete_created_relationships_missing with cr; [done|].
      by apply dec_stable in Hnone.
Qed.

Lemma undo_created_relationships_witness :
  match UndoAction_apply Scenario.not_reverted
          (relationship_creations [Scenario.franchise_is]) Scenario.after2
  with
  | Ok (_, g') =>
      NoDup [Scenario.franchise_is]
      ∧ Forall (λ cr, matching_rels cr Scenario.after2 ≠ [])
          [Scenario.franchise_is]
      ∧ rels g' ⊆ rels Scenario.after2
      ∧ size (rels g') + 1 = size (rels Scenario.after2)
  | Err e =>
      e = UndoConflictError msg_cannot_delete
      ∧ ¬ (NoDup [Scenario.franchise_is]
           ∧ Forall (λ cr, matching_rels cr Scenario.after2 ≠ [])
               [Scenario.franchise_is])
  end.
Proof.
  apply (undo_created_relationships Scenario.not_reverted
           [Scenario.franchise_is] Scenario.after2).
  reflexivity.
Defined.

(** An Action that recorded the same created relationship twice cannot be
    undone, although the relationship is there. *)
Example undo_of_doubled_record :
  UndoAction_apply Scenario.not_reverted
    (relationship_creations [Scenario.franchise_is; Scenario.franchise_is])
    Scenario.doubled
  = Err (UndoConflictError msg_cannot_delete).
Proof. vm_compute. reflexivity. Qed.

End UndoSteps.

(** ** What the trigger writes *)

Section TriggerWrites.

Lemma elem_of_modified_rels g action n j :
  j ∈ modified_rels g action n
  ↔ ∃ r, rels g !! j = Some r
         ∧ rtype r = "MODIFIED" ∧ rstart r = action ∧ rend r = n.
Proof.
  unfold modified_rels. rewrite list_elem_of_fmap. split.
  - intros ([j' r] & -> & [H Hr%elem_of_map_to_list]%list_elem_of_filter).
    by exists r.
  - intros (r & Hr & H). exists (j, r). split; [done|].
    apply list_elem_of_filter. split; [done|]. by apply elem_of_map_to_list.
Qed.

Lemma NoDup_modified_rels g action n : NoDup (modified_rels g action n).
Proof.
  unfold modified_rels. apply (NoDup_fmap_fst _).
  - intros i x y [_ Hx%elem_of_map_to_list]%list_elem_of_filter
      [_ Hy%elem_of_map_to_list]%list_elem_of_filter. congruence.
  - apply NoDup_filter, NoDup_map_to_list.
Qed.

Lemma set_details_fold d ids : ∀ g, NoDup ids →
  let g' := foldl (set_rel_details d) g ids in
  nodes g' = nodes g
  ∧ ∀ j, rels g' !! j
         = (λ r, if bool_decide (j ∈ ids)
                 then with_props r (add_details d (rprops r)) else r)
           <$> rels g !! j.
Proof.
  induction ids as [|i ids IH]; intros g Hnd.
  { simpl. split; [done|]. intros j. by destruct (rels g !! j). }
  apply NoDup_cons in Hnd as [Hi Hnd]. cbn [foldl].
  destruct (IH (set_rel_details d g i) Hnd) as [Hn Hr].
  split; [by rewrite Hn|]. intros j. rewrite Hr. simpl.
  destruct (decide (j = i)) as [->|Hne].
  - rewrite lookup_alter_eq. rewrite (bool_decide_eq_false_2 (i ∈ ids)) by done.
    rewrite (bool_decide_eq_true_2 (i ∈ i :: ids)) by apply list_elem_of_here.
    by destruct (rels g !! i).
  - rewrite lookup_alter_ne by done.
    destruct (rels g !! j) as [r|]; [|done]. simpl. f_equal.
    destruct (decide (j ∈ ids)) as [Hin|Hin].
    + rewrite !bool_decide_eq_true_2; [done|by right|done].
    + rewrite !bool_decide_eq_false_2; [done| |done].
      intros [?|?]%elem_of_cons; done.
Qed.

Lemma record_change_rels action g c g' :
  record_change action (Ok g) c = Ok g' →
  nodes g' = nodes g
  ∧ ∀ j, rels g' !! j
         = (λ r, if written_on action c r
                 then with_props r (add_details (changeDetails c) (rprops r))
                 else r) <$> rels g !! j.
Proof.
  unfold record_change. simpl. case_bool_decide as Hnil; simpl; [done|].
  intros [= <-].
  destruct (set_details_fold (changeDetails c)
              (modified_rels g action (modifiedNode c)) g
              (NoDup_modified_rels _ _ _)) as [Hn Hr].
  split; [done|]. intros j. rewrite Hr.
  destruct (rels g !! j) as [r|] eqn:Hj; [|done]. simpl. f_equal.
  unfold written_on.
  destruct (decide (rtype r = "MODIFIED" ∧ rstart r = action
                    ∧ rend r = modifiedNode c)) as [Hw|Hw].
  - rewrite !bool_decide_eq_true_2; [done|done|].
    apply elem_of_modified_rels. by exists r.
  - rewrite !bool_decide_eq_false_2; [done|done|].
    intros (r' & Hr' & H)%elem_of_modified_rels. by simplify_eq.
Qed.

Lemma written_on_with_props action c r props :
  written_on action c (with_props r props) = written_on action c r.
Proof. done. Qed.

Lemma details_on_with_props action cs r props :
  details_on action cs (with_props r props)
  = foldl (λ props c, if written_on action c r
                      then add_details (changeDetails c) props else props)
      props cs.
Proof. done. Qed.

Lemma record_fold_rels action cs : ∀ g g',
  foldl (record_change action) (Ok g) cs = Ok g' →
  nodes g' = nodes g
  ∧ ∀ j, rels g' !! j
         = (λ r, with_props r (details_on action cs r)) <$> rels g !! j.
Proof.
  induction cs as [|c cs IH]; intros g g' Hok.
  { simpl in Hok. injection Hok as <-. split; [done|]. intros j.
    destruct (rels g !! j) as [[]|]; done. }
  cbn [foldl] in Hok.
  destruct (record_change action (Ok g) c) as [g1|e] eqn:E.
  2:{ by rewrite record_fold_err in Hok. }
  apply record_change_rels in E as [Hn1 Hr1].
  destruct (IH g1 g' Hok) as [Hn Hr].
  split; [by rewrite Hn|]. intros j. rewrite Hr, Hr1.
  destruct (rels g !! j) as [r|]; [|done]. simpl. f_equal.
  unfold details_on at 2. cbn [foldl].
  destruct (written_on action c r) eqn:Hw; [|done].
  rewrite details_on_with_props. done.
Qed.


(** Setting a property other than the id of a node leaves the list of
    changes as it is. *)
Lemma node_labels_set_property g i p v n :
  node_labels (set_property i p v g) n = node_labels g n.
Proof.
  unfold node_labels, set_property. simpl.
  destruct (decide (i = n)) as [->|Hne].
  - rewrite lookup_alter_eq. by destruct (nodes g !! n).
  - by rewrite lookup_alter_ne.
Qed.

Lemma node_vnid_set_property g i p v n :
  p ≠ "id" → node_vnid (set_property i p v g) n = node_vnid g n.
Proof.
  intros Hp. unfold node_vnid, set_property. simpl.
  destruct (decide (i = n)) as [->|Hne].
  - rewrite lookup_alter_eq. destruct (nodes g !! n); [|done]. simpl.
    by rewrite lookup_partial_alter_ne.
  - by rewrite lookup_alter_ne.
Qed.

Lemma trigger_changes_set_property g i p v action tx :
  p ≠ "id" →
  trigger_changes (set_property i p v g) action tx
  = trigger_changes g action tx.
Proof.
  intros Hp. unfold trigger_changes. f_equal; [|f_equal; [|f_equal;
    [|f_equal; [|f_equal]]]].
  - unfold trigger_createdNodes.
    rewrite (list_filter_iff _
               (λ n, labelled g "Action" n = false
                     ∧ labelled g "SlugId" n = false))
      by (intros; by rewrite !labelled_set_property).
    apply list_fmap_ext. intros _ n _.
    by rewrite node_labels_set_property.
  - unfold trigger_newLabels. f_equal.
    apply list_filter_iff. intros. by rewrite !labelled_set_property.
  - unfold trigger_removedLabels. f_equal.
    apply list_filter_iff. intros. by rewrite !labelled_set_property.
  - unfold trigger_newPropertyNodes. f_equal.
    apply list_filter_iff. intros. by rewrite !labelled_set_property.
  - unfold trigger_newRelationships.
    rewrite (list_filter_iff _
               (λ r : nat * Rel, labelled g "VNode" (rstart r.2) = true
                     ∧ rstart r.2 ≠ action ∧ rend r.2 ≠ action))
      by (intros; by rewrite !labelled_set_property).
    apply list_fmap_ext. intros _ r _.
    by rewrite node_vnid_set_property.
  - unfold trigger_deletedRelationships.
    rewrite (list_filter_iff _
               (λ r : nat * Rel,
                  (labelled g "VNode" (rstart r.2) = true
                   ∨ labelled g "DeletedVNode" (rstart r.2) = true)
                  ∧ rstart r.2 ≠ action ∧ rend r.2 ≠ action
                  ∧ (rstart r.2 ∉ TxData.deletedNodes tx)
                  ∧ (rend r.2 ∉ TxData.deletedNodes tx)))
      by (intros; by rewrite !labelled_set_property).
    apply list_fmap_ext. intros _ r _.
    by rewrite node_vnid_set_property.
Qed.

(** The result of the trigger in closed form: the count on the Action,
    and on every relationship the details of the changes written on it. *)
Lemma trackActionChanges_Ok g tx g' :
  trackActionChanges g tx = Ok g' →
  ∃ action,
    created_actions g tx = [action]
    ∧ nodes g'
      = nodes (set_property action "deletedNodesCount"
                 (Some (PInt (Z.of_nat (length (deleted_vnodes tx))))) g)
    ∧ ∀ j, rels g' !! j
           = (λ r, with_props r
                     (details_on action (trigger_changes g action tx) r))
             <$> rels g !! j.
Proof.
  unfold trackActionChanges. case_bool_decide as Hlen; simpl; [done|].
  destruct (created_actions g tx) as [|action l] eqn:Ha; simpl in *;
    [done|].
  destruct l; [|simpl in Hlen; lia].
  case_bool_decide; simpl; [done|]. intros Hfold.
  exists action. split; [done|].
  apply record_fold_rels in Hfold as [Hn Hr].
  split; [done|]. intros j. rewrite Hr.
  by rewrite trigger_changes_set_property.
Qed.

(** X11: a transaction that the trigger lets through created one Action;
    the trigger sets on it the number of permanently deleted VNodes and
    changes nothing else of any node; it changes neither the type nor the
    ends of a relationship, and the properties of MODIFIED relationships
    from the Action only. *)
Theorem trigger_writes_only_details g tx g' :
  trackActionChanges g tx = Ok g' →
  ∃ action,
    created_actions g tx = [action]
    ∧ (∀ i, i ≠ action → nodes g' !! i = nodes g !! i)
    ∧ node_labels g' action = node_labels g action
    ∧ (∀ p, current_property g' action p
            = if bool_decide (p = "deletedNodesCount")
              then Some (PInt (Z.of_nat (length (deleted_vnodes tx))))
              else current_property g action p)
    ∧ ∀ j, option_Forall2
             (λ r r', rtype r' = rtype r ∧ rstart r' = rstart r
                      ∧ rend r' = rend r
                      ∧ (rprops r' ≠ rprops r →
                         rtype r = "MODIFIED" ∧ rstart r = action))
             (rels g !! j) (rels g' !! j).
Proof.
  intros (action & Ha & Hn & Hr)%trackActionChanges_Ok.
  exists action. split; [done|].
  assert (is_Some (nodes g !! action)) as [a Hnode].
  { assert (action ∈ created_actions g tx) as Hin
      by (rewrite Ha; apply list_elem_of_here).
    apply list_elem_of_filter in Hin as [[Hl _] _].
    unfold labelled, node_labels in Hl.
    destruct (nodes g !! action); [done|].
    apply bool_decide_eq_true in Hl. by apply elem_of_nil in Hl. }
  split; [|split; [|split]].
  - intros i Hi. rewrite Hn. simpl. by rewrite lookup_alter_ne.
  - unfold node_labels. rewrite Hn. simpl. rewrite lookup_alter_eq.
    by destruct (nodes g !! action).
  - intros p. unfold current_property. rewrite Hn. simpl.
    rewrite lookup_alter_eq, Hnode. simpl.
    case_bool_decide as Hp.
    + subst p. by rewrite lookup_partial_alter_eq.
    + by rewrite lookup_partial_alter_ne.
  - intros j. rewrite Hr. destruct (rels g !! j) as [r|]; constructor.
    simpl. split; [done|]. split; [done|]. split; [done|].
    intros Hne.
    assert (∀ cs props,
              foldl (λ props c, if written_on action c r
                                then add_details (changeDetails c) props
                                else props) props cs ≠ props →
              rtype r = "MODIFIED" ∧ rstart r = action) as Hcs.
    { induction cs as [|c cs IH]; intros props; simpl; [done|].
      destruct (written_on action c r) eqn:Hw; [|apply IH].
      intros _. apply bool_decide_eq_true in Hw. tauto. }
    by apply (Hcs _ _ Hne).
Qed.

(** *** The details of a changed property *)

Lemma add_details_keep ds : ∀ (props : Props) k v,
  (∀ v', (k, v') ∈ ds → v' = v) →
  props !! k = v → add_details ds props !! k = v.
Proof.
  unfold add_details.
  induction ds as [|[k0 v0] ds IH]; intros props k v Hall Hk; [done|].
  cbn [foldl]. apply IH.
  - intros v' Hin. apply Hall. by right.
  - simpl. destruct (decide (k0 = k)) as [->|Hne].
    + rewrite lookup_partial_alter_eq. apply Hall, list_elem_of_here.
    + by rewrite lookup_partial_alter_ne.
Qed.

Lemma add_details_set ds : ∀ (props : Props) k v,
  (∀ v', (k, v') ∈ ds → v' = v) →
  (k, v) ∈ ds → add_details ds props !! k = v.
Proof.
  unfold add_details.
  induction ds as [|[k0 v0] ds IH]; intros props k v Hall Hin.
  { by apply elem_of_nil in Hin. }
  cbn [foldl]. apply elem_of_cons in Hin as [[= <- <-]|Hin].
  - apply (add_details_keep ds).
    + intros v' Hin. apply Hall. by right.
    + simpl. apply lookup_partial_alter_eq.
  - apply IH; [|done]. intros v' Hin'. apply Hall. by right.
Qed.

Lemma details_on_lookup action cs r k v :
  (∀ c v', c ∈ cs → written_on action c r = true →
           (k, v') ∈ changeDetails c → v' = v) →
  (∃ c, c ∈ cs ∧ written_on action c r = true ∧ (k, v) ∈ changeDetails c) →
  details_on action cs r !! k = v.
Proof.
  unfold details_on. generalize (rprops r). intros props Hall Hex.
  assert (∀ cs props,
            (∀ c v', c ∈ cs → written_on action c r = true →
                     (k, v') ∈ changeDetails c → v' = v) →
            props !! k = v →
            foldl (λ props c, if written_on action c r
                              then add_details (changeDetails c) props
                              else props) props cs !! k = v) as Hkeep.
  { clear. induction cs as [|c cs IH]; intros props Hall Hk; [done|].
    cbn [foldl]. apply IH.
    - intros c' v' Hin. apply Hall. by right.
    - destruct (written_on action c r) eqn:Hw; [|done].
      apply add_details_keep; [|done].
      intros v'. by apply Hall; [apply list_elem_of_here|]. }
  revert props. induction cs as [|c cs IH]; intros props.
  { destruct Hex as (c & Hin & _). by apply elem_of_nil in Hin. }
  cbn [foldl]. destruct Hex as (c' & [->|Hin]%elem_of_cons & Hw & Hkv).
  - rewrite Hw. apply Hkeep.
    + intros c' v' Hin. apply Hall. by right.
    + apply add_details_set; [|done].
      intros v'. by apply Hall; [apply list_elem_of_here|].
  - apply IH.
    + intros c0 v' Hin0. apply Hall. by right.
    + by exists c'.
Qed.

(** The key of a changed property among the keys of the details. *)
Lemma newProp_key_details g action tx c k v :
  c ∈ trigger_changes g action tx →
  ("newProp:" +:+ k, v) ∈ changeDetails c →
  ∃ chg, chg ∈ node_property_changes tx
         ∧ TxData.ref chg = modifiedNode c ∧ TxData.key chg = k
         ∧ TxData.new chg = v.
Proof.
  unfold trigger_changes. intros Hin Hkv.
  repeat (apply elem_of_app in Hin as [Hin|Hin]).
  - apply list_elem_of_fmap in Hin as (n & -> & _). simpl in Hkv.
    apply list_elem_of_singleton in Hkv. discriminate.
  - apply list_elem_of_fmap in Hin as (n & -> & _). simpl in Hkv.
    apply list_elem_of_singleton in Hkv. discriminate.
  - apply list_elem_of_fmap in Hin as (n & -> & _). simpl in Hkv.
    apply list_elem_of_singleton in Hkv. discriminate.
  - apply list_elem_of_fmap in Hin as (chg & -> & Hin).
    apply list_elem_of_filter in Hin as [_ Hin]. simpl in Hkv.
    apply elem_of_cons in Hkv as [Hkv|Hkv].
    + simplify_eq/=. by exists chg.
    + apply list_elem_of_singleton in Hkv. discriminate.
  - apply list_elem_of_fmap in Hin as (r & -> & _). simpl in Hkv.
    apply elem_of_cons in Hkv as [Hkv|Hkv]; [discriminate|].
    apply list_elem_of_fmap in Hkv as (pv & Hkv & _). discriminate.
  - apply list_elem_of_fmap in Hin as (r & -> & _). simpl in Hkv.
    apply elem_of_cons in Hkv as [Hkv|Hkv]; [discriminate|].
    apply list_elem_of_fmap in Hkv as (pv & Hkv & _). discriminate.
Qed.

Lemma oldProp_key_details g action tx c k v :
  c ∈ trigger_changes g action tx →
  ("oldProp:" +:+ k, v) ∈ changeDetails c →
  ∃ chg, chg ∈ node_property_changes tx
         ∧ TxData.ref chg = modifiedNode c ∧ TxData.key chg = k
         ∧ TxData.old chg = v.
Proof.
  unfold trigger_changes. intros Hin Hkv.
  repeat (apply elem_of_app in Hin as [Hin|Hin]).
  - apply list_elem_of_fmap in Hin as (n & -> & _). simpl in Hkv.
    apply list_elem_of_singleton in Hkv. discriminate.
  - apply list_elem_of_fmap in Hin as (n & -> & _). simpl in Hkv.
    apply list_elem_of_singleton in Hkv. discriminate.
  - apply list_elem_of_fmap in Hin as (n & -> & _). simpl in Hkv.
    apply list_elem_of_singleton in Hkv. discriminate.
  - apply list_elem_of_fmap in Hin as (chg & -> & Hin).
    apply list_elem_of_filter in Hin as [_ Hin]. simpl in Hkv.
    apply elem_of_cons in Hkv as [Hkv|Hkv]; [discriminate|].
    apply list_elem_of_singleton in Hkv.
    simplify_eq/=. by exists chg.
  - apply list_elem_of_fmap in Hin as (r & -> & _). simpl in Hkv.
    apply elem_of_cons in Hkv as [Hkv|Hkv]; [discriminate|].
    apply list_elem_of_fmap in Hkv as (pv & Hkv & _). discriminate.
  - apply list_elem_of_fmap in Hin as (r & -> & _). simpl in Hkv.
    apply elem_of_cons in Hkv as [Hkv|Hkv]; [discriminate|].
    apply list_elem_of_fmap in Hkv as (pv & Hkv & _). discriminate.
Qed.

(** X12: for a property assigned or removed on a VNode other than the
    Action (the only change of that property of that node in the
    transaction), a committed transaction has a MODIFIED relationship from
    the Action to the node, and every such relationship carries the new
    value under the key newProp:name and the old one under oldProp:name
    (a missing key standing for null). *)
Theorem property_change_is_recorded g tx g' action chg :
  trackActionChanges g tx = Ok g' →
  created_actions g tx = [action] →
  chg ∈ node_property_changes tx →
  labelled g "VNode" (TxData.ref chg) = true →
  TxData.ref chg ≠ action →
  TxData.ref chg ∉ TxData.deletedNodes tx →
  Forall (λ chg', TxData.ref chg' = TxData.ref chg →
                  TxData.key chg' = TxData.key chg → chg' = chg)
    (node_property_changes tx) →
  linked g' action (TxData.ref chg)
  ∧ ∀ j r, rels g' !! j = Some r →
           rtype r = "MODIFIED" → rstart r = action →
           rend r = TxData.ref chg →
           rprops r !! ("newProp:" +:+ TxData.key chg) = TxData.new chg
           ∧ rprops r !! ("oldProp:" +:+ TxData.key chg) = TxData.old chg.
Proof.
  intros Hok Ha Hin Hlab Hna Hnd Huniq. rewrite Forall_forall in Huniq.
  assert (linked g action (TxData.ref chg)) as Hlinked.
  { eapply committed_changes_are_linked; [done|done|].
    do 3 right. left. split; [by exists chg|done]. }
  apply trackActionChanges_Ok in Hok as (action' & Ha' & Hn & Hr).
  assert (action' = action) as -> by congruence.
  set (c := {| modifiedNode := TxData.ref chg;
               changeDetails :=
                 [("newProp:" +:+ TxData.key chg, TxData.new chg);
                  ("oldProp:" +:+ TxData.key chg, TxData.old chg)] |}).
  assert (c ∈ trigger_changes g action tx) as Hc.
  { unfold trigger_changes.
    do 3 (apply elem_of_app; right). apply elem_of_app. left.
    apply list_elem_of_fmap. exists chg. split; [done|].
    apply list_elem_of_filter. by split. }
  split.
  - destruct Hlinked as (j & r & Hj & Ht & Hs & He).
    exists j, (with_props r (details_on action (trigger_changes g action tx) r)).
    by rewrite Hr, Hj.
  - intros j r' Hj Ht Hs He. rewrite Hr in Hj.
    destruct (rels g !! j) as [r|] eqn:Hj0; [|done].
    injection Hj as <-. simpl in *.
    assert (written_on action c r = true) as Hw
      by (apply bool_decide_eq_true_2; by simpl).
    split.
    + apply details_on_lookup.
      * intros c' v' Hc' Hw' Hkv.
        destruct (newProp_key_details _ _ _ _ _ _ Hc' Hkv)
          as (chg' & Hin' & Href & Hkey & <-).
        apply bool_decide_eq_true in Hw' as (_ & _ & Hend).
        f_equal. apply Huniq; [done| |done]. congruence.
      * exists c. split; [done|]. split; [done|]. apply list_elem_of_here.
    + apply details_on_lookup.
      * intros c' v' Hc' Hw' Hkv.
        destruct (oldProp_key_details _ _ _ _ _ _ Hc' Hkv)
          as (chg' & Hin' & Href & Hkey & <-).
        apply bool_decide_eq_true in Hw' as (_ & _ & Hend).
        f_equal. apply Huniq; [done| |done]. congruence.
      * exists c. split; [done|]. split; [done|].
        right. apply list_elem_of_here.
Qed.

Lemma trigger_writes_only_details_witness :
  ∃ action,
    created_actions after_declared_write declared_write = [action]
    ∧ (∀ i, i ≠ action →
            nodes declared_write_committed !! i
            = nodes after_declared_write !! i)
    ∧ node_labels declared_write_committed action
      = node_labels after_declared_write action
    ∧ (∀ p, current_property declared_write_committed action p
            = if bool_decide (p = "deletedNodesCount")
              then Some (PInt (Z.of_nat
                                 (length (deleted_vnodes declared_write))))
              else current_property after_declared_write action p)
    ∧ ∀ j, option_Forall2
             (λ r r', rtype r' = rtype r ∧ rstart r' = rstart r
                      ∧ rend r' = rend r
                      ∧ (rprops r' ≠ rprops r →
                         rtype r = "MODIFIED" ∧ rstart r = action))
             (rels after_declared_write !! j)
             (rels declared_write_committed !! j).
Proof.
  apply (trigger_writes_only_details after_declared_write declared_write).
  vm_compute. reflexivity.
Defined.

Lemma property_change_is_recorded_witness :
  linked declared_write_committed 7 5
  ∧ ∀ j r, rels declared_write_committed !! j = Some r →
           rtype r = "MODIFIED" → rstart r = 7 → rend r = 5 →
           rprops r !! "newProp:year" = Some (PInt 2015)
           ∧ rprops r !! "oldProp:year" = Some (PInt 2014).
Proof.
  apply (property_change_is_recorded after_declared_write declared_write
           declared_write_committed 7 year_change).
  - vm_compute. reflexivity.
  - reflexivity.
  - vm_compute. apply list_elem_of_here.
  - reflexivity.
  - simpl. lia.
  - by_compute.
  - by_compute.
Defined.

End TriggerWrites.

(** ** The slugId triggers *)

Section SlugIdTriggers.

Variable now : PropValue.

Lemma identified_by_spec g slug n :
  identified_by g slug n = true
  ↔ ∃ i r, rels g !! i = Some r ∧ rtype r = "IDENTIFIES" ∧ rend r = n
           ∧ node_is (is_slugid slug) g (rstart r) = true.
Proof.
  unfold identified_by. rewrite bool_decide_eq_true, Exists_exists. split.
  - intros ([i r] & Hin%elem_of_map_to_list & H). by exists i, r.
  - intros (i & r & Hr & H). exists (i, r). split; [|done].
    by apply elem_of_map_to_list.
Qed.

Lemma node_is_mono P g g' i :
  nodes g ⊆ nodes g' → node_is P g i = true → node_is P g' i = true.
Proof.
  intros Hsub. unfold node_is. destruct (nodes g !! i) as [n|] eqn:Hn; [|done].
  by rewrite (lookup_weaken _ _ _ _ Hn Hsub).
Qed.

Lemma identified_by_mono g g' slug n :
  nodes g ⊆ nodes g' → rels g ⊆ rels g' →
  identified_by g slug n = true → identified_by g' slug n = true.
Proof.
  intros Hn Hr. rewrite !identified_by_spec.
  intros (i & r & Hi & Ht & He & Hs). exists i, r.
  split; [by eapply lookup_weaken|]. split; [done|]. split; [done|].
  by eapply node_is_mono.
Qed.

Lemma current_property_mono g g' i p v :
  nodes g ⊆ nodes g' →
  current_property g i p = Some v → current_property g' i p = Some v.
Proof.
  intros Hsub. unfold current_property.
  destruct (nodes g !! i) as [n|] eqn:Hn; [|done].
  by rewrite (lookup_weaken _ _ _ _ Hn Hsub).
Qed.

Lemma match_nodes_nonempty P g i :
  node_is P g i = true → match_nodes P g ≠ [].
Proof.
  unfold node_is, match_nodes.
  destruct (nodes g !! i) as [n|] eqn:Hn; [|done]. intros HP Hnil.
  assert ((i, n) ∈ filter (λ x : nat * NodeData, P x.2 = true)
                     (map_to_list (nodes g))) as Hin.
  { apply list_elem_of_filter. split; [done|]. by apply elem_of_map_to_list. }
  rewrite Hnil in Hin. by apply elem_of_nil in Hin.
Qed.

Lemma slugid_fold_err e l :
  foldl (create_slugid now) (Err e) l = Err e.
Proof. induction l; simpl; auto. Qed.

(** One row that goes through adds a SlugId node and the relationship
    from it, and nothing else. *)
Lemma create_slugid_Ok g n g' :
  create_slugid now (Ok g) n = Ok g' →
  nodes g ⊆ nodes g' ∧ rels g ⊆ rels g'
  ∧ (∀ slug, current_property g n "slugId" = Some slug →
             identified_by g' slug n = true)
  ∧ (∀ i s, nodes g !! i = None → nodes g' !! i = Some s →
            labels s = ["SlugId"])
  ∧ (∀ j r, rels g !! j = None → rels g' !! j = Some r →
            rtype r = "IDENTIFIES" ∧ rend r = n
            ∧ nodes g !! rstart r = None).
Proof.
  unfold create_slugid. cbn [mbind Result_bind].
  destruct (match current_property g n "slugId" with
            | Some slug => bool_decide (match_nodes (is_slugid slug) g ≠ [])
            | None => false
            end) eqn:Hc; simpl; [done|].
  intros [= <-]. simpl.
  assert (nodes g !! fresh (dom (nodes g)) = None) as Hs
    by apply not_elem_of_dom, is_fresh.
  assert (rels g !! fresh (dom (rels g)) = None) as Hr
    by apply not_elem_of_dom, is_fresh.
  split; [by apply insert_subseteq|]. split; [by apply insert_subseteq|].
  split; [|split].
  - intros slug Hslug. apply identified_by_spec.
    eexists (fresh (dom (rels g))), _. simpl.
    split; [apply lookup_insert_eq|]. simpl. split; [done|]. split; [done|].
    unfold node_is. simpl. rewrite lookup_insert_eq.
    unfold is_slugid. simpl. rewrite Hslug.
    rewrite lookup_insert_ne by done. rewrite lookup_partial_alter_eq.
    by rewrite bool_decide_eq_true_2.
  - intros i s Hi. destruct (decide (i = fresh (dom (nodes g)))) as [->|Hne].
    + rewrite lookup_insert_eq. by intros [= <-].
    + rewrite lookup_insert_ne by done. congruence.
  - intros j r Hj. destruct (decide (j = fresh (dom (rels g)))) as [->|Hne].
    + rewrite lookup_insert_eq. by intros [= <-].
    + rewrite lookup_insert_ne by done. congruence.
Qed.

Lemma create_slugid_taken g n slug other :
  current_property g n "slugId" = Some slug →
  node_is (is_slugid slug) g other = true →
  create_slugid now (Ok g) n = Err (Neo4jError msg_slugid_exists).
Proof.
  intros Hslug Hother. unfold create_slugid. cbn [mbind Result_bind].
  rewrite Hslug. rewrite bool_decide_eq_true_2; [done|].
  by eapply match_nodes_nonempty.
Qed.

Lemma create_slugid_Err g n e :
  create_slugid now (Ok g) n = Err e → e = Neo4jError msg_slugid_exists.
Proof.
  unfold create_slugid. cbn [mbind Result_bind].
  destruct (match current_property g n "slugId" with
            | Some slug => bool_decide (match_nodes (is_slugid slug) g ≠ [])
            | None => false
            end); simpl; [|done]. by intros [= <-].
Qed.

(** X13: a VNode cannot take over a slugId that a SlugId node
    already holds for another node (or for none): when the transaction
    assigns such a slugId, the trigger fails on the uniqueness constraint
    and with it the transaction. *)
Theorem slugid_takeover_rejected g tx n slug other :
  n ∈ slugid_rows g tx →
  current_property g n "slugId" = Some slug →
  node_is (is_slugid slug) g other = true →
  updateSlugIdRelation now g tx = Err (Neo4jError msg_slugid_exists).
Proof.
  intros Hin Hslug Hother. unfold updateSlugIdRelation.
  assert (∀ l gk, n ∈ l → nodes g ⊆ nodes gk →
            foldl (create_slugid now) (Ok gk) l
            = Err (Neo4jError msg_slugid_exists)) as H.
  { induction l as [|m l IH]; intros gk Hl Hsub.
    { by apply elem_of_nil in Hl. }
    cbn [foldl].
    destruct (create_slugid now (Ok gk) m) as [gk'|e] eqn:E.
    - apply elem_of_cons in Hl as [->|Hl].
      + rewrite (create_slugid_taken gk m slug other) in E; [done| |].
        * by eapply current_property_mono.
        * by eapply node_is_mono.
      + apply IH; [done|]. apply create_slugid_Ok in E as [Hn _].
        by etrans.
    - apply create_slugid_Err in E as ->. apply slugid_fold_err. }
  by apply H.
Qed.

Lemma updateSlugIdRelation_fold l : ∀ g g',
  foldl (create_slugid now) (Ok g) l = Ok g' →
  nodes g ⊆ nodes g' ∧ rels g ⊆ rels g'
  ∧ (∀ n slug, n ∈ l → current_property g n "slugId" = Some slug →
               identified_by g' slug n = true)
  ∧ (∀ i s, nodes g !! i = None → nodes g' !! i = Some s →
            labels s = ["SlugId"])
  ∧ (∀ j r, rels g !! j = None → rels g' !! j = Some r →
            rtype r = "IDENTIFIES" ∧ rend r ∈ l
            ∧ nodes g !! rstart r = None).
Proof.
  induction l as [|m l IH]; intros g g' Hok.
  { simpl in Hok. injection Hok as <-. split; [done|]. split; [done|].
    split; [|split]; [intros n slug Hn; by apply elem_of_nil in Hn
                     |congruence|congruence]. }
  cbn [foldl] in Hok.
  destruct (create_slugid now (Ok g) m) as [g1|e] eqn:E.
  2:{ by rewrite slugid_fold_err in Hok. }
  apply create_slugid_Ok in E as (Hn1 & Hr1 & Hid1 & Hnew1 & Hrel1).
  destruct (IH g1 g' Hok) as (Hn & Hr & Hid & Hnew & Hrel).
  split; [by etrans|]. split; [by etrans|]. split; [|split].
  - intros n slug [->|Hin]%elem_of_cons Hslug.
    + eapply identified_by_mono; [done|done|]. by apply Hid1.
    + apply Hid; [done|]. by eapply current_property_mono.
  - intros i s Hi Hi'. destruct (nodes g1 !! i) as [s1|] eqn:Hi1.
    + rewrite (lookup_weaken _ _ _ _ Hi1 Hn) in Hi'. injection Hi' as <-.
      by eapply Hnew1.
    + by eapply Hnew.
  - intros j r Hj Hj'. destruct (rels g1 !! j) as [r1|] eqn:Hj1.
    + rewrite (lookup_weaken _ _ _ _ Hj1 Hr) in Hj'. injection Hj' as <-.
      destruct (Hrel1 j r1 Hj Hj1) as (? & <- & ?).
      split; [done|]. split; [apply list_elem_of_here|done].
    + destruct (Hrel j r Hj1 Hj') as (? & ? & Hs).
      split; [done|]. split; [by right|].
      destruct (nodes g !! rstart r) eqn:Hg; [|done].
      by rewrite (lookup_weaken _ _ _ _ Hg Hn1) in Hs.
Qed.

(** X14: when the trigger goes through, every VNode whose slugId was
    assigned in the transaction is identified by a SlugId node that holds
    its current slugId. *)
Theorem slugid_identifies g tx g' chg slug :
  updateSlugIdRelation now g tx = Ok g' →
  chg ∈ default [] (TxData.assignedNodeProperties tx !! "slugId") →
  labelled g "VNode" (TxData.ref chg) = true →
  current_property g (TxData.ref chg) "slugId" = Some slug →
  identified_by g' slug (TxData.ref chg) = true.
Proof.
  intros Hok Hin Hlab Hslug.
  apply updateSlugIdRelation_fold in Hok as (Hn & Hr & Hid & _).
  destruct (identified_by g slug (TxData.ref chg)) eqn:Hold.
  - by eapply identified_by_mono.
  - apply Hid; [|done]. unfold slugid_rows. apply list_elem_of_filter.
    split.
    + unfold slugid_row. by rewrite Hlab, Hslug, Hold.
    + apply list_elem_of_fmap. by exists chg.
Qed.

(** X15: the trigger changes and removes nothing: every node and
    relationship stays as it is, so every slugId that identified a node
    before identifies it afterwards; what it adds are nodes labelled
    SlugId only and IDENTIFIES relationships that start at the new
    nodes. *)
Theorem slugid_history_kept g tx g' :
  updateSlugIdRelation now g tx = Ok g' →
  nodes g ⊆ nodes g' ∧ rels g ⊆ rels g'
  ∧ (∀ slug n, identified_by g slug n = true →
               identified_by g' slug n = true)
  ∧ (∀ i s, nodes g !! i = None → nodes g' !! i = Some s →
            labels s = ["SlugId"])
  ∧ (∀ j r, rels g !! j = None → rels g' !! j = Some r →
            rtype r = "IDENTIFIES" ∧ nodes g !! rstart r = None).
Proof.
  intros Hok.
  apply updateSlugIdRelation_fold in Hok as (Hn & Hr & _ & Hnew & Hrel).
  split; [done|]. split; [done|]. split; [|split; [done|]].
  - intros slug n. by apply identified_by_mono.
  - intros j r Hj Hj'. destruct (Hrel j r Hj Hj') as (? & _ & ?). done.
Qed.

End SlugIdTriggers.

Section DeleteSlugId.

Lemma elem_of_floating_slugids g i :
  i ∈ floating_slugids g
  ↔ ∃ s, nodes g !! i = Some s ∧ has_label "SlugId" s = true
         ∧ ¬ ∃ j r, rels g !! j = Some r ∧ rtype r = "IDENTIFIES"
                    ∧ rstart r = i.
Proof.
  unfold floating_slugids. rewrite list_elem_of_fmap. split.
  - intros ([i' s] & -> & [[Hl Hno] Hs%elem_of_map_to_list]%list_elem_of_filter).
    exists s. split; [done|]. split; [done|].
    intros (j & r & Hr & H). apply Hno. apply Exists_exists.
    exists (j, r). split; [by apply elem_of_map_to_list|done].
  - intros (s & Hs & Hl & Hno). exists (i, s). split; [done|].
    apply list_elem_of_filter. split; [|by apply elem_of_map_to_list].
    split; [done|]. intros ([j r] & Hr%elem_of_map_to_list & H)%Exists_exists.
    apply Hno. by exists j, r.
Qed.

(** X16: in a transaction that deleted no node the second trigger
    does nothing; in one that deleted a node it removes exactly the SlugId
    nodes from which no IDENTIFIES relationship starts, so that none is
    left, and no relationship. *)
Theorem floating_slugids_deleted g tx g' :
  deleteSlugIdRelation g tx = Ok g' →
  (TxData.deletedNodes tx = [] → g' = g)
  ∧ (TxData.deletedNodes tx ≠ [] →
     rels g' = rels g
     ∧ floating_slugids g' = []
     ∧ ∀ i, nodes g' !! i
            = if bool_decide (i ∈ floating_slugids g) then None
              else nodes g !! i).
Proof.
  unfold deleteSlugIdRelation.
  destruct (bool_decide (0 < length (TxData.deletedNodes tx))) eqn:Hd.
  2:{ intros [= <-]. split; [done|]. intros Hne.
      apply bool_decide_eq_false in Hd.
      destruct (TxData.deletedNodes tx); [done|simpl in Hd; lia]. }
  cbn [mbind Result_bind].
  destruct (bool_decide (Exists _ _)); simpl; [done|]. intros [= <-].
  split.
  { intros Hnil. by rewrite Hnil in Hd. }
  intros _. simpl.
  assert (∀ i, foldr delete (nodes g) (floating_slugids g) !! i
               = if bool_decide (i ∈ floating_slugids g) then None
                 else nodes g !! i) as Hlook.
  { intros i. destruct (decide (i ∈ floating_slugids g)) as [Hin|Hin].
    - rewrite (bool_decide_eq_true_2 _ Hin). by apply lookup_foldr_delete.
    - rewrite (bool_decide_eq_false_2 _ Hin).
      by apply lookup_foldr_delete_not_elem_of. }
  split; [done|]. split; [|done].
  apply elem_of_nil_inv. intros i Hi.
  apply elem_of_floating_slugids in Hi as (s & Hs & Hl & Hno). simpl in *.
  rewrite Hlook in Hs.
  destruct (decide (i ∈ floating_slugids g)) as [Hin|Hin].
  - by rewrite (bool_decide_eq_true_2 _ Hin) in Hs.
  - rewrite (bool_decide_eq_false_2 _ Hin) in Hs.
    apply Hin. apply elem_of_floating_slugids. by exists s.
Qed.

End DeleteSlugId.

Lemma slugid_takeover_rejected_witness :
  updateSlugIdRelation a_datetime slug_taken_over
    (slugid_tx (slugid_change 5 "guardians-galaxy" "mcu"))
  = Err (Neo4jError msg_slugid_exists).
Proof.
  apply (slugid_takeover_rejected a_datetime slug_taken_over _ 5
           (PStr "mcu") 3).
  - vm_compute. apply list_elem_of_here.
  - reflexivity.
  - reflexivity.
Defined.

Lemma slugid_identifies_witness :
  identified_by franchise_renamed_committed (PStr "marvel") 2 = true.
Proof.
  apply (slugid_identifies a_datetime franchise_renamed
           (slugid_tx (slugid_change 2 "mcu" "marvel"))
           franchise_renamed_committed (slugid_change 2 "mcu" "marvel")).
  - vm_compute. reflexivity.
  - vm_compute. apply list_elem_of_here.
  - reflexivity.
  - reflexivity.
Defined.

Lemma slugid_history_kept_witness :
  nodes franchise_renamed ⊆ nodes franchise_renamed_committed
  ∧ rels franchise_renamed ⊆ rels franchise_renamed_committed
  ∧ (∀ slug n, identified_by franchise_renamed slug n = true →
               identified_by franchise_renamed_committed slug n = true)
  ∧ (∀ i s, nodes franchise_renamed !! i = None →
            nodes franchise_renamed_committed !! i = Some s →
            labels s = ["SlugId"])
  ∧ (∀ j r, rels franchise_renamed !! j = None →
            rels franchise_renamed_committed !! j = Some r →
            rtype r = "IDENTIFIES"
            ∧ nodes franchise_renamed !! rstart r = None).
Proof.
  apply (slugid_history_kept a_datetime franchise_renamed
           (slugid_tx (slugid_change 2 "mcu" "marvel"))).
  vm_compute. reflexivity.
Defined.

(** The former slugId of the franchise still identifies it, next to the
    new one. *)
Example old_slugid_still_identifies :
  identified_by franchise_renamed_committed (PStr "mcu") 2 = true
  ∧ identified_by franchise_renamed_committed (PStr "marvel") 2 = true
  ∧ size (nodes franchise_renamed_committed)
    = S (size (nodes franchise_renamed)).
Proof. split_and!; vm_compute; reflexivity. Qed.

Lemma floating_slugids_deleted_witness :
  (TxData.deletedNodes movie_deleted_tx = [] →
   movie_deleted_committed = movie_deleted)
  ∧ (TxData.deletedNodes movie_deleted_tx ≠ [] →
     rels movie_deleted_committed = rels movie_deleted
     ∧ floating_slugids movie_deleted_committed = []
     ∧ ∀ i, nodes movie_deleted_committed !! i
            = if bool_decide (i ∈ floating_slugids movie_deleted) then None
              else nodes movie_deleted !! i).
Proof.
  apply (floating_slugids_deleted movie_deleted movie_deleted_tx).
  vm_compute. reflexivity.
Defined.

Example floating_slugid_of_deleted_movie :
  floating_slugids movie_deleted = [6]
  ∧ nodes movie_deleted_committed !! 6 = None
  ∧ nodes movie_deleted_committed !! 3 = Some (Scenario.slug "mcu").
Proof. split_and!; vm_compute; reflexivity. Qed.

(** ** Validation of relationships *)

Section ValidateFacts.

Variable validate_rel_props :
  list (string * PropSchema) → RelRow → option ValidateExn.

Lemma first_thrown_None {A E} (check : A → option E) rows :
  first_thrown check rows = None ↔ Forall (λ r, check r = None) rows.
Proof.
  unfold first_thrown. induction rows as [|r rows IH]; csimpl.
  { split; [constructor|done]. }
  rewrite Forall_cons. destruct (check r) as [e|]; csimpl.
  - split; [done|]. by intros [? _].
  - rewrite IH. tauto.
Qed.

Lemma or_else_None {E} (a b : option E) :
  or_else a b = None ↔ a = None ∧ b = None.
Proof. destruct a; simpl; [split; [done|by intros [? _]]|tauto]. Qed.

Lemma no_allowed_label_false allowedLabels r :
  EmptyString ∉ allowedLabels →
  no_allowed_label allowedLabels r = false
  ↔ ∃ l, l ∈ allowedLabels ∧ l ∈ targetLabels r.
Proof.
  intros Hne. unfold no_allowed_label.
  destruct (List.find _ allowedLabels) as [l|] eqn:Hf.
  - apply find_some in Hf as [Hin%list_elem_of_In Hl%bool_decide_eq_true].
    split; [by exists l|]. intros _. apply bool_decide_eq_false_2.
    by intros ->.
  - split; [done|]. intros (l & Hin%list_elem_of_In & Hl).
    pose proof (find_none _ _ Hf l Hin) as Hno. simpl in Hno.
    by rewrite bool_decide_eq_true_2 in Hno.
Qed.

Lemma check_cardinality_None rt c rows :
  check_cardinality rt c rows = None ↔ cardinality_holds c rows.
Proof.
  unfold check_cardinality, cardinality_holds.
  destruct c as [[]|]; try done.
  - destruct (bool_decide (length rows < 1)) eqn:H1.
    { apply bool_decide_eq_true in H1. split; [done|lia]. }
    apply bool_decide_eq_false in H1.
    destruct (bool_decide (1 < length rows)) eqn:H2.
    { apply bool_decide_eq_true in H2. split; [done|lia]. }
    apply bool_decide_eq_false in H2. split; [lia|done].
  - destruct (bool_decide (1 < length rows)) eqn:H2.
    { apply bool_decide_eq_true in H2. split; [done|lia]. }
    apply bool_decide_eq_false in H2. split; [lia|done].
  - rewrite <- (length_fmap targetId rows).
    generalize (targetId <$> rows). intros ids.
    destruct (bool_decide (length (remove_dups ids) ≠ length ids)) eqn:H.
    + apply bool_decide_eq_true in H. split; [done|].
      intros Hnd. by rewrite (remove_dups_NoDup ids Hnd) in H.
    + apply bool_decide_eq_false, dec_stable in H. split; [|done].
      intros _. destruct (decide (NoDup ids)) as [|Hnd]; [done|].
      apply length_remove_dups_lt in Hnd. lia.
Qed.

(** X17: the validation of the relationships of a VNode passes exactly
    when, for every declared relationship type, every relationship of that
    type from the node to a VNode ends at a node with one of the declared
    labels, the relationships respect the cardinality (exactly one for
    a required to-one, at most one for a to-one, no two to the same node
    for a unique to-many) and their properties pass their schema.  (No
    declared target label is the empty string.) *)
Theorem validate_relationships_spec rel g id :
  Forall (λ entry, EmptyString ∉ rel_to (declaration entry.2)) rel →
  validate_relationships validate_rel_props rel g id = None
  ↔ Forall (λ entry : string * RelationshipSchema,
              let rows := filter (λ r, relType r = entry.1) (relData g id) in
              Forall (λ r, ∃ l, l ∈ rel_to (declaration entry.2)
                                ∧ l ∈ targetLabels r) rows
              ∧ cardinality_holds (cardinality entry.2) rows
              ∧ (rel_properties entry.2 ≠ [] →
                 Forall (λ r, validate_rel_props (rel_properties entry.2) r
                              = None) rows))
      rel.
Proof.
  intros Hne. unfold validate_relationships.
  destruct (bool_decide (0 < length rel)) eqn:Hlen.
  2:{ apply bool_decide_eq_false in Hlen. destruct rel; [|simpl in Hlen; lia].
      split; [constructor|done]. }
  rewrite first_thrown_None. rewrite !Forall_forall.
  rewrite Forall_forall in Hne.
  apply forall_proper. intros [rt spec].
  apply forall_proper. intros Hin. specialize (Hne _ Hin). simpl in Hne.
  unfold validate_rel_type. cbn [fst snd].
  rewrite !or_else_None, first_thrown_None, check_cardinality_None.
  assert (Forall
            (λ r, (if no_allowed_label (rel_to (declaration spec)) r
                   then Some (ValidationError
                          ("Relationship " +:+ rt
                           +:+ " is not allowed to point to node with labels :"
                           +:+ String.concat ":" (targetLabels r)))
                   else None) = None)
            (filter (λ r, relType r = rt) (relData g id))
          ↔ Forall (λ r, ∃ l, l ∈ rel_to (declaration spec)
                              ∧ l ∈ targetLabels r)
              (filter (λ r, relType r = rt) (relData g id))) as ->.
  { apply Forall_proper; [|done]. intros r.
    rewrite <- (no_allowed_label_false _ r Hne).
    by destruct (no_allowed_label _ r). }
  assert ((if bool_decide (0 < length (rel_properties spec))
           then first_thrown (validate_rel_props (rel_properties spec))
                  (filter (λ r, relType r = rt) (relData g id))
           else None) = None
          ↔ (rel_properties spec ≠ [] →
             Forall (λ r, validate_rel_props (rel_properties spec) r = None)
               (filter (λ r, relType r = rt) (relData g id)))) as ->; [|done].
  destruct (rel_properties spec) as [|p ps]; simpl; [done|].
  rewrite first_thrown_None. split; [done|]. intros H. by apply H.
Qed.
End ValidateFacts.

Lemma validate_relationships_spec_witness :
  validate_relationships (λ _ _, None)
    [("FRANCHISE_IS", franchise_is_schema)] Scenario.after2 "_gg" = None
  ↔ Forall (λ entry : string * RelationshipSchema,
              let rows := filter (λ r, relType r = entry.1)
                            (relData Scenario.after2 "_gg") in
              Forall (λ r, ∃ l, l ∈ rel_to (declaration entry.2)
                                ∧ l ∈ targetLabels r) rows
              ∧ cardinality_holds (cardinality entry.2) rows
              ∧ (rel_properties entry.2 ≠ [] →
                 Forall (λ r, (λ _ _, None) (rel_properties entry.2) r
                              = @None ValidateExn) rows))
      [("FRANCHISE_IS", franchise_is_schema)].
Proof.
  apply (validate_relationships_spec (λ _ _, None)
           [("FRANCHISE_IS", franchise_is_schema)] Scenario.after2 "_gg").
  by_compute.
Defined.

(** The movie with one franchise passes; with two relationships to the
    franchise, or with the franchise soft-deleted and a required
    relationship, it does not. *)
Example validate_relationships_examples :
  validate_relationships (λ _ _, None)
    [("FRANCHISE_IS", franchise_is_schema)] Scenario.after2 "_gg" = None
  ∧ validate_relationships (λ _ _, None)
      [("FRANCHISE_IS", franchise_is_schema)] Scenario.doubled "_gg"
    = Some (ValidationError
        "To-one relationship type FRANCHISE_IS is pointing to more than one node.")
  ∧ validate_relationships (λ _ _, None)
      [("FRANCHISE_IS",
        {| declaration := Scenario.franchise_is_decl;
           cardinality := Some ToOneRequired; rel_properties := [] |})]
      Scenario.franchise_soft_deleted "_gg"
    = Some (ValidationError
        "Required relationship type FRANCHISE_IS must point to one node, but does not exist.").
Proof. split_and!; vm_compute; reflexivity. Qed.

(** ** Writing without an Action *)

Section WithoutAction.

Lemma isTriggerInstalled_spec name db :
  isTriggerInstalled name db = true ↔ is_Some (triggers db !! name).
Proof.
  unfold isTriggerInstalled. rewrite bool_decide_eq_true, list_elem_of_fmap.
  split.
  - intros ([k b] & -> & Hin%elem_of_map_to_list). by exists b.
  - intros [b Hb]. exists (name, b). split; [done|].
    by apply elem_of_map_to_list.
Qed.

Lemma paused_or_absent name db :
  triggers (if isTriggerInstalled name db then trigger_pause name db else db)
    !! name ≠ Some false.
Proof.
  destruct (isTriggerInstalled name db) eqn:H.
  - simpl. rewrite lookup_alter_eq. by destruct (triggers db !! name).
  - intros Hf. assert (isTriggerInstalled name db = true) as Ht
      by (apply isTriggerInstalled_spec; eauto). congruence.
Qed.

Lemma resumed_or_absent name db :
  triggers (if isTriggerInstalled name db then trigger_resume name db else db)
    !! name ≠ Some true.
Proof.
  destruct (isTriggerInstalled name db) eqn:H.
  - simpl. rewrite lookup_alter_eq. by destruct (triggers db !! name).
  - intros Hf. assert (isTriggerInstalled name db = true) as Ht
      by (apply isTriggerInstalled_spec; eauto). congruence.
Qed.

(** X18: the code runs on the same store with the trigger
    trackActionChanges paused (or not installed); whatever it does, and
    also when it throws, the trigger is not left paused: after the call it
    is running if it is installed.  The call leaves the store and the
    other triggers as the code left them, and it throws exactly when the
    code threw, the same exception. *)
Theorem trigger_never_left_paused {A} (someCode : Db → Result A * Db) db :
  ∃ db1,
    let result := someCode db1 in
    let final := _restrictedAllowWritesWithoutAction someCode db in
    graph db1 = graph db
    ∧ triggers db1 !! "trackActionChanges" ≠ Some false
    ∧ triggers final.2 !! "trackActionChanges" ≠ Some true
    ∧ graph final.2 = graph result.2
    ∧ (∀ name, name ≠ "trackActionChanges" →
               triggers final.2 !! name = triggers result.2 !! name)
    ∧ (∀ e, final.1 = Err e ↔ result.1 = Err e).
Proof.
  exists (if isTriggerInstalled "trackActionChanges" db
          then trigger_pause "trackActionChanges" db else db).
  cbv zeta. unfold _restrictedAllowWritesWithoutAction. cbn [fst snd].
  split_and!.
  - by destruct (isTriggerInstalled _ db).
  - apply paused_or_absent.
  - apply resumed_or_absent.
  - by destruct (isTriggerInstalled _ (someCode _).2).
  - intros name Hne. destruct (isTriggerInstalled _ (someCode _).2); [|done].
    simpl. by rewrite lookup_alter_ne.
  - intros e. destruct (someCode _).1 as [a|e0]; split; intros H;
      try discriminate H; by injection H as ->.
Qed.

Lemma alter_alter_id (m : gmap string bool) name :
  m !! name = Some false →
  alter (λ _, false) name (alter (λ _, true) name m) = m.
Proof.
  intros Hm. apply map_eq. intros k. destruct (decide (k = name)) as [->|Hne].
  - by rewrite !lookup_alter_eq, Hm.
  - by rewrite !lookup_alter_ne.
Qed.

Lemma run_trigger_err db tx e statements :
  foldl (run_trigger db tx) (Err e) statements = Err e.
Proof.
  induction statements as [|s l IH]; [done|]. cbn [foldl].
  unfold run_trigger at 2. by destruct (running db s.1).
Qed.

(** A running trigger whose statement fails on every store fails the
    transaction, wherever it stands among the triggers. *)
Lemma before_commit_fails (statements : list (string * Statement)) db tx
    name (statement : Statement) :
  (name, statement) ∈ statements →
  running db name = true →
  (∀ g, ∃ e, statement g tx = Err e) →
  ∀ acc, ∃ e, foldl (run_trigger db tx) acc statements = Err e.
Proof.
  intros Hin Hrun Hfail.
  induction statements as [|s l IH]; intros acc.
  { by apply elem_of_nil in Hin. }
  cbn [foldl]. apply elem_of_cons in Hin as [<-|Hin]; [|by apply IH].
  unfold run_trigger at 2. cbn [fst snd]. rewrite Hrun.
  destruct acc as [g|e]; cbn [mbind Result_bind].
  - destruct (Hfail g) as [e ->]. exists e. apply run_trigger_err.
  - exists e. apply run_trigger_err.
Qed.

(** Without a created node there is no Action, and the trigger fails. *)
Lemma trackActionChanges_no_created_node g tx :
  TxData.createdNodes tx = [] →
  trackActionChanges g tx = Err (Neo4jError (msg_one_action 0)).
Proof.
  intros Hnil. unfold trackActionChanges, created_actions. by rewrite Hnil.
Qed.

(** While a trigger is paused, the triggers of a transaction are the
    others. *)
Lemma before_commit_paused statements name db after tx :
  before_commit statements (trigger_pause name db) after tx
  = before_commit (without_trigger name statements) db after tx.
Proof.
  unfold before_commit, without_trigger. generalize (Ok after) as acc.
  induction statements as [|s l IH]; intros acc; [done|].
  cbn [foldl]. rewrite IH. rewrite filter_cons.
  unfold run_trigger at 2, running. cbn [triggers trigger_pause].
  destruct (decide (s.1 ≠ name)) as [Hne|Heq].
  - rewrite lookup_alter_ne by done. done.
  - apply dec_stable in Heq. rewrite Heq, lookup_alter_eq.
    rewrite bool_decide_eq_false_2; [done|].
    by destruct (triggers db !! name).
Qed.

(** X19: with the trigger trackActionChanges running, a write
    transaction that changed data and created no node, so no Action, is
    rejected and the database stays as it was, whatever the other triggers
    and their order.  Run inside the call, the same write has the outcome
    that it would have without the trigger trackActionChanges: the other
    running triggers still decide on it; and afterwards the triggers are as
    before. *)
Theorem write_without_action statements after tx db :
  triggers db !! "trackActionChanges" = Some false →
  ("trackActionChanges", trackActionChanges) ∈ statements →
  has_changes tx = true →
  TxData.createdNodes tx = [] →
  (∃ e, write_transaction statements after tx db = (Err e, db))
  ∧ _restrictedAllowWritesWithoutAction
      (write_transaction statements after tx) db
    = write_transaction (without_trigger "trackActionChanges" statements)
        after tx db.
Proof.
  intros Ht Hin Hchg Hnil. split.
  - unfold write_transaction. rewrite Hchg.
    destruct (before_commit_fails statements db tx _ _ Hin) with (acc := Ok after)
      as [e He].
    + unfold running. by rewrite bool_decide_eq_true_2.
    + intros g. eexists. by apply trackActionChanges_no_created_node.
    + unfold before_commit. rewrite He. by exists e.
  - unfold _restrictedAllowWritesWithoutAction.
    assert (isTriggerInstalled "trackActionChanges" db = true) as ->
      by (apply isTriggerInstalled_spec; eauto).
    unfold write_transaction. rewrite Hchg, before_commit_paused.
    cbn [triggers trigger_pause].
    destruct (before_commit _ db after tx) as [g|e]; cbn [fst snd].
    + assert (isTriggerInstalled "trackActionChanges"
                {| graph := g;
                   triggers := alter (λ _, true) "trackActionChanges"
                                 (triggers db) |} = true) as ->.
      { apply isTriggerInstalled_spec. simpl. rewrite lookup_alter_eq, Ht.
        eauto. }
      unfold trigger_resume. cbn [graph triggers].
      by rewrite alter_alter_id.
    + assert (isTriggerInstalled "trackActionChanges"
                (trigger_pause "trackActionChanges" db) = true) as ->.
      { apply isTriggerInstalled_spec. simpl. rewrite lookup_alter_eq, Ht.
        eauto. }
      unfold trigger_resume, trigger_pause. cbn [graph triggers].
      rewrite alter_alter_id by done. by destruct db.
Qed.

Lemma write_without_action_witness :
  (∃ e, write_transaction (vertex_triggers a_datetime)
          Scenario.after_bare_write Scenario.bare_write scenario_db
        = (Err e, scenario_db))
  ∧ _restrictedAllowWritesWithoutAction
      (write_transaction (vertex_triggers a_datetime)
         Scenario.after_bare_write Scenario.bare_write) scenario_db
    = write_transaction
        (without_trigger "trackActionChanges" (vertex_triggers a_datetime))
        Scenario.after_bare_write Scenario.bare_write scenario_db.
Proof.
  apply (write_without_action (vertex_triggers a_datetime)
           Scenario.after_bare_write Scenario.bare_write scenario_db).
  - reflexivity.
  - apply list_elem_of_further, list_elem_of_further, list_elem_of_here.
  - reflexivity.
  - reflexivity.
Defined.

(** The write that sets the year of the movie without an Action: rejected
    as it is, committed inside the call.  The write that gives the movie the
    former slugId of the franchise is rejected inside the call as well, by
    the trigger updateSlugIdRelation.  A transaction that changed no data
    commits without an Action. *)
Example write_without_action_examples :
  write_transaction (vertex_triggers a_datetime) Scenario.after_bare_write
    Scenario.bare_write scenario_db
  = (Err (Neo4jError (msg_one_action 0)), scenario_db)
  ∧ _restrictedAllowWritesWithoutAction
      (write_transaction (vertex_triggers a_datetime)
         Scenario.after_bare_write Scenario.bare_write) scenario_db
    = (Ok tt, {| graph := Scenario.after_bare_write;
                 triggers := triggers scenario_db |})
  ∧ _restrictedAllowWritesWithoutAction
      (write_transaction (vertex_triggers a_datetime) slug_taken_over
         takeover_tx) renamed_db
    = (Err (Neo4jError msg_slugid_exists), renamed_db)
  ∧ write_transaction (vertex_triggers a_datetime) Scenario.after2
      Scenario.no_tx scenario_db
    = (Ok tt, scenario_db).
Proof. split_and!; vm_compute; reflexivity. Qed.

End WithoutAction.

(** ** What updateToOneRelationship leaves alone *)

Section UpdateToOneFrame.

Variable type_labels : BaseVNodeType → list string.
Variable has_key : Graph → nat → string → bool.

Lemma elem_of_from_nodes g fromType fromId i :
  i ∈ from_nodes type_labels g fromType fromId
  ↔ node_is (is_from type_labels fromType fromId) g i = true.
Proof.
  unfold from_nodes, match_nodes, node_is. rewrite list_elem_of_fmap. split.
  - intros ([j n] & -> & [H Hn%elem_of_map_to_list]%list_elem_of_filter).
    simpl in *. by rewrite Hn.
  - destruct (nodes g !! i) as [n|] eqn:Hn; [|done]. intros H.
    exists (i, n). split; [done|]. apply list_elem_of_filter. split; [done|].
    by apply elem_of_map_to_list.
Qed.

(** MERGE keeps every relationship as it is; the relationships it adds and
    the ones it returns have the type and start at the node of a row. *)
Lemma merge_row_frame relType st row :
  let st1 := merge_row relType st row in
  rels st.1 ⊆ rels st1.1
  ∧ (∀ j r, rels st.1 !! j = None → rels st1.1 !! j = Some r →
            rtype r = relType ∧ rstart r = row.1)
  ∧ (∀ x, x ∈ st1.2 →
          x ∈ st.2
          ∨ ∃ r, rels st1.1 !! x.2 = Some r ∧ rtype r = relType
                 ∧ rstart r = x.1 ∧ x.1 = row.1).
Proof.
  unfold merge_row.
  destruct (decide (merge_matches st.1 relType row.1 row.2 = [])) as [Hms|Hms].
  - rewrite (bool_decide_eq_true_2 _ Hms). simpl.
    assert (rels st.1 !! fresh (dom (rels st.1)) = None) as Hf
      by apply not_elem_of_dom, is_fresh.
    split; [by apply insert_subseteq|]. split.
    + intros j r Hj. destruct (decide (j = fresh (dom (rels st.1)))) as [->|Hne].
      * rewrite lookup_insert_eq. by intros [= <-].
      * rewrite lookup_insert_ne by done. congruence.
    + intros x [Hx|Hx]%elem_of_app; [by left|right].
      apply list_elem_of_singleton in Hx as ->. simpl.
      eexists. split; [apply lookup_insert_eq|done].
  - rewrite (bool_decide_eq_false_2 _ Hms). simpl.
    split; [done|]. split; [congruence|].
    intros x [Hx|Hx]%elem_of_app; [by left|right].
    apply list_elem_of_fmap in Hx as (i & -> & Hi).
    apply elem_of_merge_matches in Hi as (r & Hr & Ht & Hs & He).
    exists r. simpl. done.
Qed.

Lemma merge_fold_frame relType rows : ∀ st,
  let st' := foldl (merge_row relType) st rows in
  rels st.1 ⊆ rels st'.1
  ∧ (∀ j r, rels st.1 !! j = None → rels st'.1 !! j = Some r →
            rtype r = relType ∧ rstart r ∈ rows.*1)
  ∧ (∀ x, x ∈ st'.2 →
          x ∈ st.2
          ∨ ∃ r, rels st'.1 !! x.2 = Some r ∧ rtype r = relType
                 ∧ rstart r = x.1 ∧ x.1 ∈ rows.*1).
Proof.
  induction rows as [|row rows IH]; intros st.
  { simpl. split; [done|]. split; [congruence|]. intros x Hx. by left. }
  cbn [foldl]. destruct (IH (merge_row relType st row)) as (Hsub & Hnew & Hret).
  destruct (merge_row_frame relType st row) as (Hsub1 & Hnew1 & Hret1).
  split; [by etrans|]. split.
  - intros j r Hj Hj'.
    destruct (rels (merge_row relType st row).1 !! j) as [r1|] eqn:Hj1.
    + rewrite (lookup_weaken _ _ _ _ Hj1 Hsub) in Hj'. injection Hj' as <-.
      destruct (Hnew1 j r1 Hj Hj1) as [? ->]. split; [done|].
      apply list_elem_of_here.
    + destruct (Hnew j r Hj1 Hj') as [? ?]. split; [done|]. simpl. by right.
  - intros x Hx. destruct (Hret x Hx) as [Hx1|(r & Hr & Ht & Hs & Hin)].
    + destruct (Hret1 x Hx1) as [?|(r & Hr & Ht & Hs & Heq)]; [by left|right].
      exists r. split; [by eapply lookup_weaken|]. split; [done|].
      split; [done|]. rewrite Heq. apply list_elem_of_here.
    + right. exists r. split; [done|]. split; [done|]. split; [done|].
      simpl. by right.
Qed.


Lemma rows_start_from g fromType fromId (targets : list nat) x :
  x ∈ ((self ← from_nodes type_labels g fromType fromId;
        target ← targets; [(self, target)]) : list (nat * nat)).*1 →
  node_is (is_from type_labels fromType fromId) g x = true.
Proof.
  intros ([self target] & -> & Hin)%list_elem_of_fmap.
  apply list_elem_of_bind in Hin as (self' & Hin & Hself).
  apply list_elem_of_bind in Hin as (target' & Hin & _).
  apply list_elem_of_singleton in Hin as [= -> ->].
  by apply elem_of_from_nodes.
Qed.

(** X20: a successful call changes no node, and no relationship of
    another type or starting at a node that does not match the
    from-pattern; every relationship it adds has the declared type and
    starts at a node matching the from-pattern. *)
Theorem updateToOneRelationship_frame fromType fromId rel to g prevTo g'
    relType :
  updateToOneRelationship type_labels has_key (fromType, fromId) rel to g
  = Ok (prevTo, g') →
  getRelationshipType rel = Ok relType →
  nodes g' = nodes g
  ∧ (∀ j r, rels g !! j = Some r →
            rtype r ≠ relType
            ∨ node_is (is_from type_labels fromType fromId) g (rstart r)
              = false →
            rels g' !! j = Some r)
  ∧ (∀ j r, rels g !! j = None → rels g' !! j = Some r →
            rtype r = relType
            ∧ node_is (is_from type_labels fromType fromId) g (rstart r)
              = true).
Proof.
  intros Hok Hrt. unfold updateToOneRelationship in Hok.
  rewrite Hrt in Hok. cbn [mbind Result_bind fst snd] in Hok.
  destruct (bool_decide (vt_rel fromType !! relType ≠ Some rel));
    [done|]. cbn [throw_if mbind Result_bind] in Hok.
  destruct (toKey_of to) as [toKey|].
  - destruct (bool_decide (rel_to rel = [])); [done|].
    cbn [throw_if mbind Result_bind] in Hok.
    set (rows := (self ← from_nodes type_labels g fromType fromId;
                  target ← target_nodes has_key g (rel_to rel) toKey;
                  [(self, target)]) : list (nat * nat)) in *.
    set (merged := foldl (merge_row relType) (g, []) rows) in *.
    set (g1 := foldl (set_rel_properties (relationshipProps_of to))
                 merged.1 merged.2.*2) in *.
    destruct (merge_fold_frame relType rows (g, [])) as (Hsub & Hnew & Hret).
    fold merged in Hsub, Hnew, Hret. simpl in Hsub, Hnew, Hret.
    assert (∀ x, x ∈ merged.2 →
              ∃ r, rels merged.1 !! x.2 = Some r ∧ rtype r = relType
                   ∧ rstart r = x.1
                   ∧ node_is (is_from type_labels fromType fromId) g x.1
                     = true) as Hret'.
    { intros x Hx. destruct (Hret x Hx) as [Hnil|(r & Hr & Ht & Hs & Hin)].
      { by apply elem_of_nil in Hnil. }
      exists r. split; [done|]. split; [done|]. split; [done|].
      by eapply rows_start_from. }
    assert (∀ j r, rels g1 !! j = Some r →
              ∃ r0, rels merged.1 !! j = Some r0 ∧ rtype r = rtype r0
                    ∧ rstart r = rstart r0
                    ∧ (j ∉ merged.2.*2 → r = r0)) as Hg1.
    { intros j r. unfold g1. rewrite lookup_set_rel_properties_fold.
      destruct (decide (j ∈ merged.2.*2)) as [Hin|Hin].
      - destruct (rels merged.1 !! j) as [r0|]; [|done]. intros [= <-].
        by exists r0.
      - intros Hj. by exists r. }
    destruct (row ← merged.2;
              replicate (length (other_rels g1 relType row) `max` 1)
                (outgoing g (λ i, bool_decide (i = row.1)) relType))
      as [|row0 ?]; [done|].
    injection Hok as _ <-. split; [|split].
    + simpl. unfold g1. rewrite nodes_set_rel_properties_fold.
      unfold merged. by rewrite nodes_merge_fold.
    + intros j r Hj Hframe. simpl.
      assert (j ∉ merged.2.*2) as Hnot.
      { intros ([self j'] & -> & Hx)%list_elem_of_fmap.
        destruct (Hret' _ Hx) as (r' & Hr' & Ht & Hs & Hfrom). simpl in *.
        rewrite (lookup_weaken _ _ _ _ Hj Hsub) in Hr'. injection Hr' as <-.
        destruct Hframe as [?|Hf]; [done|]. rewrite Hs in Hf. congruence. }
      assert (rels g1 !! j = Some r) as Hj1.
      { unfold g1. rewrite lookup_set_rel_properties_fold.
        rewrite decide_False by done. by eapply lookup_weaken. }
      apply lookup_foldr_delete_Some. split; [|done].
      intros (row & Hin & Hrow)%list_elem_of_bind.
      unfold other_rels in Hin.
      apply list_elem_of_filter in Hin as [_ Hin].
      apply list_elem_of_fmap in Hin as ([j' r'] & -> & Hin).
      apply (elem_of_outgoing has_key) in Hin as (Hr' & Ht & Hs & _). simpl in *.
      rewrite Hj1 in Hr'. injection Hr' as <-.
      apply bool_decide_eq_true in Hs.
      destruct (Hret' _ Hrow) as (_ & _ & _ & _ & Hfrom).
      destruct Hframe as [?|Hf]; [done|]. rewrite Hs in Hf. congruence.
    + intros j r Hj Hj'. simpl in Hj'.
      apply lookup_foldr_delete_Some in Hj' as [_ Hj'].
      destruct (Hg1 j r Hj') as (r0 & Hr0 & -> & -> & _).
      destruct (Hnew j r0 Hj Hr0) as [? Hin]. split; [done|].
      by eapply rows_start_from.
  - injection Hok as _ <-. split; [done|]. split.
    + intros j r Hj Hframe. simpl. apply lookup_foldr_delete_Some.
      split; [|done].
      intros ([j' r'] & -> & Hin)%list_elem_of_fmap.
      apply (elem_of_outgoing has_key) in Hin as (Hr' & Ht & Hs & _). simpl in *.
      rewrite Hj in Hr'. injection Hr' as <-.
      destruct Hframe as [?|Hf]; [done|]. congruence.
    + intros j r Hj Hj'. simpl in Hj'.
      apply lookup_foldr_delete_Some in Hj' as [_ Hj']. congruence.
Qed.
End UpdateToOneFrame.

Lemma updateToOneRelationship_frame_witness :
  nodes Scenario.retargeted = nodes Scenario.two_franchises
  ∧ (∀ j r, rels Scenario.two_franchises !! j = Some r →
            rtype r ≠ "FRANCHISE_IS"
            ∨ node_is (is_from Scenario.type_labels Scenario.Movie "_gg")
                Scenario.two_franchises (rstart r) = false →
            rels Scenario.retargeted !! j = Some r)
  ∧ (∀ j r, rels Scenario.two_franchises !! j = None →
            rels Scenario.retargeted !! j = Some r →
            rtype r = "FRANCHISE_IS"
            ∧ node_is (is_from Scenario.type_labels Scenario.Movie "_gg")
                Scenario.two_franchises (rstart r) = true).
Proof.
  apply (updateToOneRelationship_frame Scenario.type_labels Scenario.has_key
           Scenario.Movie "_gg" Scenario.franchise_is_decl
           (ToKey (Some "dcu")) Scenario.two_franchises
           {[ "key" := Some (PStr "_mcu") ]} Scenario.retargeted
           "FRANCHISE_IS").
  - vm_compute. reflexivity.
  - reflexivity.
Defined.

(** ** fromString gives dates of the calendar only *)

Section VDateValid.

Variable neo4j_date_valid : Z → Z → Z → bool.

(** What the superclass checks, as the comment in the constructor says:
    the month and the day are within their ranges. *)
Hypothesis neo4j_date_ranges : ∀ y m d,
  neo4j_date_valid y m d = true → (1 ≤ m ≤ 12)%Z ∧ (1 ≤ d)%Z.

Lemma VDate_new_Ok y m d v :
  VDate_new neo4j_date_valid y m d = Ok v →
  v = mkVDate y m d ∧ neo4j_date_valid y m d = true
  ∧ (d ≤ default (if isLeapYear y then 29 else 28)
           (days_per_month_at (m - 1)))%Z.
Proof.
  unfold VDate_new. destruct (neo4j_date_valid y m d); simpl; [|done].
  destruct (Z.gtb_spec d (default (if isLeapYear y then 29 else 28)%Z
                            (days_per_month_at (m - 1)))); simpl; [done|].
  intros [= <-]. done.
Qed.

(** X21: whatever the string, a date that [fromString] returns is a
    date of the calendar: its month is from 1 to 12 and its day from 1 to
    the length of that month in that year. *)
Theorem fromString_is_a_date str v :
  fromString neo4j_date_valid str = Ok v →
  (1 ≤ month v ≤ 12)%Z
  ∧ (1 ≤ day v ≤ days_in_month (year v) (month v))%Z.
Proof.
  unfold fromString. cbv zeta.
  match goal with
  | |- context [fst ?md] => generalize md
  end.
  intros [[m|] [d|]]; destruct (parseInt (String.substring 0 4 str)) as [y|];
    simpl; try done.
  intros (-> & Hv & Hd)%VDate_new_Ok.
  destruct (neo4j_date_ranges _ _ _ Hv) as [Hm H1]. simpl.
  rewrite (days_per_month_in_year y m Hm) in Hd. lia.
Qed.

End VDateValid.

Lemma fromString_is_a_date_witness :
  (1 ≤ month (mkVDate 2024 2 29) ≤ 12)%Z
  ∧ (1 ≤ day (mkVDate 2024 2 29)
     ≤ days_in_month (year (mkVDate 2024 2 29)) (month (mkVDate 2024 2 29)))%Z.
Proof.
  apply (fromString_is_a_date driver_date_valid) with (str := "2024-02-29").
  - intros y m d H. apply bool_decide_eq_true in H. lia.
  - vm_compute. reflexivity.
Defined.

(** ** The labels of a VNode type *)

Section GetAllLabels.

Lemma labels_up_cons c proto :
  labels_up (c :: proto)
  = match label_of (c :: proto) with
    | Some l =>
        if bool_decide (l = EmptyString) then []
        else l :: (if bool_decide (l = "VNode") then [] else labels_up proto)
    | None => []
    end.
Proof. done. Qed.

Lemma labels_up_spec t :
  last t = Some _BaseVNodeType →
  Forall (λ c, own_label c ≠ Some EmptyString) t →
  ∃ ls, labels_up t = ls ++ ["VNode"] ∧ ("VNode" ∉ ls)
        ∧ (EmptyString ∉ ls) ∧ length (labels_up t) ≤ length t.
Proof.
  induction t as [|c proto IH]; intros Hlast Hall; [done|].
  apply Forall_cons in Hall as [Hc Hall].
  assert (∃ l, label_of (c :: proto) = Some l ∧ l ≠ EmptyString)
    as (l & Hl & Hne).
  { clear IH. revert c Hlast Hc. induction proto as [|c' proto IH];
      intros c Hlast Hc.
    - simpl in Hlast. injection Hlast as ->. by exists "VNode".
    - simpl. destruct (own_label c) as [l|] eqn:E.
      + exists l. split; [done|]. congruence.
      + apply Forall_cons in Hall as [Hc' Hall]. apply (IH Hall c'); [|done].
        by rewrite last_cons_cons in Hlast. }
  rewrite labels_up_cons, Hl. rewrite bool_decide_eq_false_2 by done.
  destruct (decide (l = "VNode")) as [->|Hv].
  - rewrite bool_decide_eq_true_2 by done. exists [].
    split; [done|]. split; [apply not_elem_of_nil|].
    split; [apply not_elem_of_nil|simpl; lia].
  - rewrite bool_decide_eq_false_2 by done.
    destruct proto as [|c' proto].
    { simpl in Hlast. injection Hlast as ->. simpl in Hl. congruence. }
    rewrite last_cons_cons in Hlast.
    destruct (IH Hlast Hall) as (ls & -> & Hnv & Hne' & Hlen).
    exists (l :: ls). split; [done|].
    split; [by intros [?|?]%elem_of_cons|].
    split; [by intros [?|?]%elem_of_cons|]. simpl in *. lia.
Qed.

(** X22: for a VNode type whose prototype chain ends in the base class,
    with no empty label on the chain and a label other than VNode, the
    list of labels starts with the label of the type and ends with VNode,
    which occurs nowhere else in it. *)
Theorem getAllLabels_spec vnt :
  last vnt = Some _BaseVNodeType →
  Forall (λ c, own_label c ≠ Some EmptyString) vnt →
  label_of vnt ≠ Some "VNode" →
  ∃ l ls, getAllLabels vnt = Ok (l :: ls ++ ["VNode"])
          ∧ label_of vnt = Some l
          ∧ ("VNode" ∉ l :: ls) ∧ (EmptyString ∉ l :: ls).
Proof.
  intros Hlast Hall Hv.
  destruct (labels_up_spec vnt Hlast Hall) as (ls & Hls & Hnv & Hne & _).
  destruct vnt as [|c proto]; [done|].
  unfold getAllLabels.
  rewrite labels_up_cons in Hls |- *.
  destruct (label_of (c :: proto)) as [l|] eqn:Hl.
  2:{ by destruct ls. }
  destruct (decide (l = EmptyString)) as [->|Hl0].
  { rewrite bool_decide_eq_true_2 in Hls by done. by destruct ls. }
  rewrite bool_decide_eq_false_2 in Hls by done.
  rewrite (bool_decide_eq_false_2 (l = "VNode")) in Hls by congruence.
  destruct ls as [|l' ls].
  { simpl in Hls. injection Hls as -> _. done. }
  simpl in Hls. injection Hls as <- Hrest.
  exists l, ls. cbn [truthy_label].
  rewrite !(bool_decide_eq_false_2 (l = EmptyString)) by done.
  rewrite (bool_decide_eq_false_2 (Some l = Some "VNode")) by done.
  rewrite (bool_decide_eq_false_2 (l = "VNode")) by congruence.
  simpl. rewrite Hrest. done.
Qed.

End GetAllLabels.

Lemma getAllLabels_spec_witness :
  ∃ l ls, getAllLabels Movie_chain = Ok (l :: ls ++ ["VNode"])
          ∧ label_of Movie_chain = Some l
          ∧ ("VNode" ∉ l :: ls) ∧ (EmptyString ∉ l :: ls).
Proof.
  apply getAllLabels_spec; [reflexivity| |simpl; discriminate].
  by_compute.
Defined.

(** A class that declares no label of its own repeats the label of its
    parent; the base class itself has no valid label. *)
Example getAllLabels_examples :
  getAllLabels Movie_chain = Ok ["TestMovie"; "VNode"]
  ∧ getAllLabels ({| class_name := "Sequel"; own_label := None |}
                  :: Movie_chain)
    = Ok ["TestMovie"; "TestMovie"; "VNode"]
  ∧ getAllLabels [ {| class_name := "VNodeType"; own_label := None |};
                   _BaseVNodeType ]
    = Err (Error "VNodeType VNodeType has no valid label.").
Proof. split_and!; reflexivity. Qed.


(** ** updateToManyRelationship *)

Section UpdateToMany.

Variable type_labels : BaseVNodeType → list string.
Variable has_key : Graph → nat → string → bool.
Variable stringify : Props → string.

Lemma update_fold_err fromType fromId relType targetLabels relResult e to :
  foldl (update_step type_labels has_key stringify fromType fromId relType
           targetLabels relResult) (Err e) to = Err e.
Proof. induction to; simpl; auto. Qed.

Lemma create_rows_fold relType props rows : ∀ g,
  let g' := foldl (λ g (row : nat * nat),
                     create_relationship (mkRel relType row.1 row.2 props) g)
              g rows in
  nodes g' = nodes g ∧ rels g ⊆ rels g'
  ∧ ∀ j r, rels g !! j = None → rels g' !! j = Some r →
           rtype r = relType ∧ rprops r = props.
Proof.
  induction rows as [|row rows IH]; intros g.
  { simpl. split; [done|]. split; [done|]. congruence. }
  cbn [foldl].
  destruct (IH (create_relationship (mkRel relType row.1 row.2 props) g))
    as (Hn & Hsub & Hnew).
  assert (rels g !! fresh (dom (rels g)) = None) as Hf
    by apply not_elem_of_dom, is_fresh.
  split; [by rewrite Hn|]. split.
  - etrans; [|exact Hsub]. simpl. by apply insert_subseteq.
  - intros j r Hj Hj'.
    destruct (decide (j = fresh (dom (rels g)))) as [->|Hne].
    + assert (rels (create_relationship (mkRel relType row.1 row.2 props) g)
                !! fresh (dom (rels g))
              = Some (mkRel relType row.1 row.2 props)) as Hc
        by (simpl; apply lookup_insert_eq).
      rewrite (lookup_weaken _ _ _ _ Hc Hsub) in Hj'. by injection Hj' as <-.
    + apply (Hnew j r); [|done]. simpl. by rewrite lookup_insert_ne.
Qed.

(** One turn of the loop either takes the relationship it found off the
    set, or creates relationships with the new properties. *)
Lemma update_step_Ok fromType fromId relType targetLabels relResult st spec
    st' :
  update_step type_labels has_key stringify fromType fromId relType
    targetLabels relResult (Ok st) spec = Ok st' →
  nodes st'.1 = nodes st.1 ∧ rels st.1 ⊆ rels st'.1
  ∧ (∀ j r, rels st.1 !! j = None → rels st'.1 !! j = Some r →
            rtype r = relType ∧ rprops r = spec.2)
  ∧ (∀ j, j ∈ st'.2 → j ∈ st.2)
  ∧ (∀ j, j ∈ st.2 → j ∉ st'.2 →
          ∃ el, List.find (identical_to stringify spec.1 spec.2) relResult
                = Some el
                ∧ oldRelId el = j).
Proof.
  unfold update_step. cbn [mbind Result_bind].
  destruct (List.find _ relResult) as [el|] eqn:Hfind.
  - intros [= <-]. simpl. split; [done|]. split; [done|].
    split; [congruence|]. split.
    + intros j. unfold set_delete. rewrite list_elem_of_filter. tauto.
    + intros j Hj Hnot. exists el. split; [done|].
      destruct (decide (oldRelId el = j)) as [|Hne]; [done|].
      exfalso. apply Hnot. unfold set_delete. apply list_elem_of_filter.
      split; [congruence|done].
  - destruct (bool_decide (targetLabels = [])); [done|].
    cbn [throw_if mbind Result_bind].
    destruct (bool_decide (length _ ≠ 1)).
    { by destruct (bool_decide _). }
    intros [= <-]. cbn [fst snd].
    match goal with
    | |- context [foldl _ st.1 ?rows] =>
        destruct (create_rows_fold relType spec.2 rows st.1)
          as (Hn & Hsub & Hnew)
    end.
    split; [done|]. split; [done|]. split; [done|]. split; [done|].
    intros j Hj Hnot. done.
Qed.

Lemma update_fold_Ok fromType fromId relType targetLabels relResult to :
  ∀ st st',
  foldl (update_step type_labels has_key stringify fromType fromId relType
           targetLabels relResult) (Ok st) to = Ok st' →
  nodes st'.1 = nodes st.1 ∧ rels st.1 ⊆ rels st'.1
  ∧ (∀ j r, rels st.1 !! j = None → rels st'.1 !! j = Some r →
            rtype r = relType ∧ ∃ spec, spec ∈ to ∧ rprops r = spec.2)
  ∧ (∀ j, j ∈ st'.2 → j ∈ st.2)
  ∧ (∀ j, j ∈ st.2 → j ∉ st'.2 →
          ∃ spec el, spec ∈ to
                     ∧ List.find (identical_to stringify spec.1 spec.2)
                         relResult = Some el
                     ∧ oldRelId el = j).
Proof.
  induction to as [|spec to IH]; intros st st' Hok.
  { simpl in Hok. injection Hok as <-. split; [done|]. split; [done|].
    split; [congruence|]. split; [done|]. intros j Hj Hnot. done. }
  cbn [foldl] in Hok.
  destruct (update_step type_labels has_key stringify fromType fromId relType
              targetLabels relResult (Ok st) spec) as [st1|e] eqn:E.
  2:{ by rewrite update_fold_err in Hok. }
  apply update_step_Ok in E as (Hn1 & Hsub1 & Hnew1 & Hset1 & Hgone1).
  destruct (IH st1 st' Hok) as (Hn & Hsub & Hnew & Hset & Hgone).
  split; [congruence|]. split; [by etrans|]. split; [|split].
  - intros j r Hj Hj'. destruct (rels st1.1 !! j) as [r1|] eqn:Hj1.
    + rewrite (lookup_weaken _ _ _ _ Hj1 Hsub) in Hj'. injection Hj' as <-.
      destruct (Hnew1 j r1 Hj Hj1) as [? ?]. split; [done|].
      exists spec. split; [apply list_elem_of_here|done].
    + destruct (Hnew j r Hj1 Hj') as (? & spec' & ? & ?). split; [done|].
      exists spec'. split; [by right|done].
  - auto.
  - intros j Hj Hnot. destruct (decide (j ∈ st1.2)) as [Hin|Hnin].
    + destruct (Hgone j Hin Hnot) as (spec' & el & ? & ? & ?).
      exists spec', el. split; [by right|done].
    + destruct (Hgone1 j Hj Hnin) as (el & ? & ?).
      exists spec, el. split; [apply list_elem_of_here|done].
Qed.

Lemma elem_of_existing_rels g fromType fromId relType el :
  el ∈ existing_rels type_labels g fromType fromId relType
  ↔ ∃ j r, rels g !! j = Some r ∧ rtype r = relType
           ∧ node_is (is_from type_labels fromType fromId) g (rstart r) = true
           ∧ node_is (has_label "VNode") g (rend r) = true
           ∧ el = existing_row g (j, r).
Proof.
  unfold existing_rels. rewrite list_elem_of_fmap. split.
  - intros ([j r] & -> & (Hr & Ht & Hs & He)%(elem_of_outgoing has_key)).
    by exists j, r.
  - intros (j & r & Hr & Ht & Hs & He & ->). exists (j, r). split; [done|].
    by apply (elem_of_outgoing has_key).
Qed.

(** The row of a relationship in the result of the first query. *)
Lemma row_in_existing_rels g fromType fromId relType j r :
  rels g !! j = Some r →
  rtype r = relType →
  node_is (is_from type_labels fromType fromId) g (rstart r) = true →
  node_is (has_label "VNode") g (rend r) = true →
  existing_row g (j, r)
  ∈ existing_rels type_labels g fromType fromId relType.
Proof. intros. apply elem_of_existing_rels. by exists j, r. Qed.

(** A successful call is the loop followed by the deletion. *)
Lemma updateToManyRelationship_Ok fromType fromId rel to g prevTo g'
    relType :
  updateToManyRelationship type_labels has_key stringify (fromType, fromId)
    rel to g = Ok (prevTo, g') →
  getRelationshipType rel = Ok relType →
  let relResult := existing_rels type_labels g fromType fromId relType in
  ∃ st,
    foldl (update_step type_labels has_key stringify fromType fromId relType
             (rel_to rel) relResult)
      (Ok (g, remove_dups (oldRelId <$> relResult))) to = Ok st
    ∧ nodes g' = nodes g
    ∧ (∀ j r, rels g' !! j = Some r → rels st.1 !! j = Some r)
    ∧ (∀ j r, rels g' !! j = Some r →
              rtype r = relType →
              node_is (is_from type_labels fromType fromId) g (rstart r)
              = true →
              node_is (has_label "VNode") g (rend r) = true →
              j ∉ st.2)
    ∧ (∀ j r, rels st.1 !! j = Some r →
              j ∉ st.2
              ∨ rtype r ≠ relType
              ∨ node_is (is_from type_labels fromType fromId) g (rstart r)
                = false
              ∨ node_is (has_label "VNode") g (rend r) = false →
              rels g' !! j = Some r).
Proof.
  intros Hok Hrt relResult. unfold updateToManyRelationship in Hok.
  rewrite Hrt in Hok. cbn [mbind Result_bind fst snd] in Hok.
  destruct (bool_decide (vt_rel fromType !! relType ≠ Some rel));
    [done|]. cbn [throw_if mbind Result_bind] in Hok.
  fold relResult in Hok.
  destruct (foldl _ _ to) as [st|e] eqn:Hfold; [|done].
  cbn [mbind Result_bind] in Hok. injection Hok as _ <-.
  exists st. split; [done|].
  apply update_fold_Ok in Hfold as (Hn & _). cbn [fst] in Hn.
  destruct (bool_decide (0 < length st.2)) eqn:Hlen.
  - split; [done|]. simpl. split; [|split].
    + by intros j r [_ ?]%lookup_foldr_delete_Some.
    + intros j r [Hnot Hj]%lookup_foldr_delete_Some Ht Hs He Hin.
      apply Hnot, list_elem_of_filter. split; [done|].
      apply list_elem_of_fmap. exists (j, r). split; [done|].
      apply (elem_of_outgoing has_key). split; [done|]. split; [done|].
      unfold node_is in *. by rewrite Hn.
    + intros j r Hj Hout. apply lookup_foldr_delete_Some. split; [|done].
      intros [Hin Hrow]%list_elem_of_filter.
      apply list_elem_of_fmap in Hrow as ([j' r'] & -> & Hrow).
      apply (elem_of_outgoing has_key) in Hrow as (Hr' & Ht & Hs & He).
      simpl in *. rewrite Hj in Hr'. injection Hr' as <-.
      unfold node_is in *. rewrite Hn in Hs, He.
      destruct Hout as [?|[?|[?|?]]]; [done|done|congruence|congruence].
  - split; [done|]. split; [done|]. split; [|done].
    intros j r _ _ _ _ Hin. apply bool_decide_eq_false in Hlen.
    destruct st.2; [by apply elem_of_nil in Hin|simpl in Hlen; lia].
Qed.

(** A relationship of the first query that is still there was the one
    that [find] gave for an entry of [to]. *)
Lemma kept_was_found fromType fromId rel to g prevTo g' relType j r :
  updateToManyRelationship type_labels has_key stringify (fromType, fromId)
    rel to g = Ok (prevTo, g') →
  getRelationshipType rel = Ok relType →
  rels g !! j = Some r →
  rels g' !! j = Some r →
  rtype r = relType →
  node_is (is_from type_labels fromType fromId) g (rstart r) = true →
  node_is (has_label "VNode") g (rend r) = true →
  ∃ spec, spec ∈ to
          ∧ List.find (identical_to stringify spec.1 spec.2)
              (existing_rels type_labels g fromType fromId relType)
            = Some (existing_row g (j, r)).
Proof.
  intros Hok Hrt Hj0 Hj Ht Hs He.
  destruct (updateToManyRelationship_Ok _ _ _ _ _ _ _ _ Hok Hrt)
    as (st & Hfold & _ & _ & Hnot & _).
  apply update_fold_Ok in Hfold as (_ & _ & _ & _ & Hgone).
  cbn [fst snd] in Hgone.
  destruct (Hgone j) as (spec & el & Hspec & Hfind & Hid).
  { apply elem_of_remove_dups, list_elem_of_fmap.
    exists (existing_row g (j, r)). split; [done|].
    by apply row_in_existing_rels. }
  { by eapply Hnot. }
  exists spec. split; [done|]. rewrite Hfind. f_equal.
  apply find_some in Hfind as [Hel%list_elem_of_In _].
  apply elem_of_existing_rels in Hel as (j' & r' & Hr' & _ & _ & _ & ->).
  simpl in Hid. subst j'. congruence.
Qed.

(** X23 (updateToManyRelationship
    overwrites): after a successful call the nodes are as before, and every
    relationship of the declared type from the from-node to a VNode is one
    that an entry of [to] asked for: a relationship that was there before,
    whose target has the key of the entry as its VNID or slugId and whose
    properties have the same text as those of the entry, or a new one with
    the properties of the entry.  A relationship of another type, from
    another node or to a node that is not a VNode is left as it was. *)
Theorem updateToManyRelationship_overwrites fromType fromId rel to g prevTo
    g' relType :
  updateToManyRelationship type_labels has_key stringify (fromType, fromId)
    rel to g = Ok (prevTo, g') →
  getRelationshipType rel = Ok relType →
  nodes g' = nodes g
  ∧ (∀ j r, rels g' !! j = Some r →
            rtype r = relType →
            node_is (is_from type_labels fromType fromId) g (rstart r)
            = true →
            node_is (has_label "VNode") g (rend r) = true →
            ∃ spec, spec ∈ to
                    ∧ stringify (rprops r) = stringify spec.2
                    ∧ (rels g !! j = None → rprops r = spec.2)
                    ∧ (rels g !! j = Some r →
                       node_vnid g (rend r) = Some (PStr spec.1)
                       ∨ current_property g (rend r) "slugId"
                         = Some (PStr spec.1)))
  ∧ (∀ j r, rels g !! j = Some r →
            rtype r ≠ relType
            ∨ node_is (is_from type_labels fromType fromId) g (rstart r)
              = false
            ∨ node_is (has_label "VNode") g (rend r) = false →
            rels g' !! j = Some r).
Proof.
  intros Hok Hrt.
  destruct (updateToManyRelationship_Ok _ _ _ _ _ _ _ _ Hok Hrt)
    as (st & Hfold & Hnodes & Hleft & _ & Hstay).
  apply update_fold_Ok in Hfold as (_ & Hsub & Hnew & _).
  cbn [fst snd] in Hsub, Hnew.
  split; [done|]. split.
  - intros j r Hj Ht Hs He. destruct (rels g !! j) as [r0|] eqn:Hj0.
    + assert (r0 = r) as ->.
      { apply Hleft in Hj. rewrite (lookup_weaken _ _ _ _ Hj0 Hsub) in Hj.
        congruence. }
      destruct (kept_was_found _ _ _ _ _ _ _ _ _ _ Hok Hrt Hj0 Hj Ht Hs He)
        as (spec & Hspec & Hfind).
      apply find_some in Hfind as [_ Hident].
      unfold identical_to in Hident. simpl in Hident.
      apply andb_true_iff in Hident as [Hkey Hstr%bool_decide_eq_true].
      exists spec. split; [done|]. split; [done|]. split; [done|].
      intros _. apply orb_true_iff in Hkey as [Hk|Hk];
        apply bool_decide_eq_true in Hk; auto.
    + destruct (Hnew j r Hj0 (Hleft j r Hj)) as (_ & spec & Hspec & Hp).
      exists spec. split; [done|]. split; [by rewrite Hp|].
      split; [done|]. done.
  - intros j r Hj Hframe. apply Hstay; [by eapply lookup_weaken|].
    by right.
Qed.

(** [find] gives the first element that passes. *)
Lemma find_first {A} (P : A → bool) (l : list A) (a : A) :
  List.find P l = Some a →
  ∃ i, l !! i = Some a
       ∧ ∀ k x, l !! k = Some x → P x = true → i ≤ k.
Proof.
  induction l as [|y l IH]; [done|]. simpl.
  destruct (P y) eqn:HP.
  - intros [= ->]. exists 0. split; [done|]. intros; lia.
  - intros (i & Hi & Hmin)%IH. exists (S i). split; [done|].
    intros [|k] x Hk Hx; simpl in Hk; [congruence|].
    specialize (Hmin k x Hk Hx). lia.
Qed.

(** Two relationships of the first query to the same target, with
    properties of the same text, that are both still there are one. *)
Lemma kept_twins_same fromType fromId rel to g prevTo g' relType j1 j2 r1
    r2 :
  updateToManyRelationship type_labels has_key stringify (fromType, fromId)
    rel to g = Ok (prevTo, g') →
  getRelationshipType rel = Ok relType →
  rels g !! j1 = Some r1 →
  rels g !! j2 = Some r2 →
  rtype r1 = relType →
  rtype r2 = relType →
  node_is (is_from type_labels fromType fromId) g (rstart r1) = true →
  node_is (is_from type_labels fromType fromId) g (rstart r2) = true →
  node_is (has_label "VNode") g (rend r1) = true →
  rend r1 = rend r2 →
  stringify (rprops r1) = stringify (rprops r2) →
  rels g' !! j1 = Some r1 →
  rels g' !! j2 = Some r2 →
  j1 = j2.
Proof.
  intros Hok Hrt H1 H2 Ht1 Ht2 Hs1 Hs2 He1 Hend Hstr H1' H2'.
  assert (node_is (has_label "VNode") g (rend r2) = true) as He2
    by by rewrite <- Hend.
  destruct (kept_was_found _ _ _ _ _ _ _ _ _ _ Hok Hrt H1 H1' Ht1 Hs1 He1)
    as (spec1 & _ & Hf1).
  destruct (kept_was_found _ _ _ _ _ _ _ _ _ _ Hok Hrt H2 H2' Ht2 Hs2 He2)
    as (spec2 & _ & Hf2).
  assert (∀ key props,
            identical_to stringify key props (existing_row g (j1, r1))
            = identical_to stringify key props (existing_row g (j2, r2)))
    as Hsame.
  { intros key props. unfold identical_to. simpl. by rewrite Hend, Hstr. }
  pose proof Hf1 as [_ Hp1]%find_some. pose proof Hf2 as [_ Hp2]%find_some.
  apply find_first in Hf1 as (i1 & Hi1 & Hmin1).
  apply find_first in Hf2 as (i2 & Hi2 & Hmin2).
  assert (i1 = i2) as ->.
  { apply Nat.le_antisymm.
    - apply (Hmin1 _ _ Hi2). by rewrite <- Hsame.
    - apply (Hmin2 _ _ Hi1). by rewrite Hsame. }
  rewrite Hi1 in Hi2. by injection Hi2.
Qed.

(** X25 (one of two twins goes):
    of two relationships of the declared type from the from-node to the same
    VNode, whose properties have the same text, a successful call deletes
    at least one, however often [to] lists that target with these
    properties. *)
Theorem updateToManyRelationship_keeps_one_twin fromType fromId rel to g
    prevTo g' relType j1 j2 r1 r2 :
  updateToManyRelationship type_labels has_key stringify (fromType, fromId)
    rel to g = Ok (prevTo, g') →
  getRelationshipType rel = Ok relType →
  rels g !! j1 = Some r1 →
  rels g !! j2 = Some r2 →
  j1 ≠ j2 →
  rtype r1 = relType →
  rtype r2 = relType →
  node_is (is_from type_labels fromType fromId) g (rstart r1) = true →
  node_is (is_from type_labels fromType fromId) g (rstart r2) = true →
  node_is (has_label "VNode") g (rend r1) = true →
  rend r1 = rend r2 →
  stringify (rprops r1) = stringify (rprops r2) →
  rels g' !! j1 = None ∨ rels g' !! j2 = None.
Proof.
  intros Hok Hrt H1 H2 Hne Ht1 Ht2 Hs1 Hs2 He1 Hend Hstr.
  destruct (updateToManyRelationship_Ok _ _ _ _ _ _ _ _ Hok Hrt)
    as (st & Hfold & _ & Hleft & _).
  apply update_fold_Ok in Hfold as (_ & Hsub & _). cbn [fst] in Hsub.
  assert (∀ j r r', rels g !! j = Some r → rels g' !! j = Some r' → r' = r)
    as Hsame.
  { intros j r r' Hj Hj'. apply Hleft in Hj'.
    rewrite (lookup_weaken _ _ _ _ Hj Hsub) in Hj'. congruence. }
  destruct (rels g' !! j1) as [r1'|] eqn:H1'; [|by left].
  destruct (rels g' !! j2) as [r2'|] eqn:H2'; [|by right].
  rewrite (Hsame _ _ _ H1 H1') in H1'. rewrite (Hsame _ _ _ H2 H2') in H2'.
  destruct Hne. by eapply kept_twins_same.
Qed.

Lemma elem_of_create_targets g targetLabels key i :
  i ∈ create_targets has_key g targetLabels key
  ↔ has_key g i key = true
    ∧ node_is (λ n, existsb (λ l, has_label l n) targetLabels) g i = true.
Proof.
  unfold create_targets, node_is. rewrite list_elem_of_fmap. split.
  - intros ([j n] & -> & [H Hn%elem_of_map_to_list]%list_elem_of_filter).
    simpl in *. by rewrite Hn.
  - destruct (nodes g !! i) as [n|] eqn:Hn; [|by intros [_ ?]]. intros H.
    exists (i, n). split; [done|]. apply list_elem_of_filter. split; [done|].
    by apply elem_of_map_to_list.
Qed.

Lemma update_step_served g0 fromType fromId relType targetLabels relResult st
    spec st' :
  nodes st.1 = nodes g0 →
  update_step type_labels has_key stringify fromType fromId relType
    targetLabels relResult (Ok st) spec = Ok st' →
  served type_labels has_key stringify g0 fromType fromId relType
    targetLabels relResult st st' spec.
Proof.
  intros Hg0. unfold update_step. cbn [mbind Result_bind].
  destruct (List.find _ relResult) as [el|] eqn:Hfind.
  - intros [= <-]. left. apply find_some in Hfind as [Hel%list_elem_of_In Hid].
    exists el. split; [done|]. split; [done|]. simpl. unfold set_delete.
    rewrite list_elem_of_filter. tauto.
  - destruct (bool_decide (targetLabels = [])); [done|].
    cbn [throw_if mbind Result_bind].
    set (rows := self ← from_nodes type_labels st.1 fromType fromId;
                 target ← create_targets has_key st.1 targetLabels spec.1;
                 [(self, target)]).
    destruct (decide (length rows ≠ 1)) as [Hlen|Hlen].
    { rewrite (bool_decide_eq_true_2 _ Hlen). by destruct (bool_decide _). }
    rewrite (bool_decide_eq_false_2 _ Hlen). intros [= <-].
    apply dec_stable in Hlen.
    destruct rows as [|[self target] [|]] eqn:Hrows; try done.
    assert ((self, target) ∈ rows) as Hin
      by (rewrite Hrows; apply list_elem_of_here).
    unfold rows in Hin. apply list_elem_of_bind in Hin as (s & Hin & Hs).
    apply list_elem_of_bind in Hin as (t & Hin & Ht).
    apply list_elem_of_singleton in Hin. injection Hin as -> ->.
    apply (elem_of_from_nodes type_labels) in Hs.
    apply elem_of_create_targets in Ht as [Hkey Hlab].
    right. exists (fresh (dom (rels st.1))), s, t, st.1.
    split; [apply not_elem_of_dom, is_fresh|].
    split; [simpl; apply lookup_insert_eq|]. split; [done|].
    unfold node_is in *. rewrite <- Hg0. done.
Qed.

Lemma update_fold_served g0 fromType fromId relType targetLabels relResult
    to : ∀ st st',
  nodes st.1 = nodes g0 →
  foldl (update_step type_labels has_key stringify fromType fromId relType
           targetLabels relResult) (Ok st) to = Ok st' →
  ∀ spec, spec ∈ to →
          served type_labels has_key stringify g0 fromType fromId relType
            targetLabels relResult st st' spec.
Proof.
  induction to as [|spec0 to IH]; intros st st' Hg0 Hok spec Hin.
  { by apply elem_of_nil in Hin. }
  cbn [foldl] in Hok.
  destruct (update_step type_labels has_key stringify fromType fromId relType
              targetLabels relResult (Ok st) spec0) as [st1|e] eqn:E.
  2:{ by rewrite update_fold_err in Hok. }
  pose proof (update_step_Ok _ _ _ _ _ _ _ _ E) as (Hn1 & Hsub1 & _).
  pose proof (update_fold_Ok _ _ _ _ _ _ _ _ Hok) as (_ & Hsub & _ & Hset & _).
  apply elem_of_cons in Hin as [->|Hin].
  - apply (update_step_served g0) in E; [|done].
    destruct E as [(el & ? & ? & Hnot)|(j & s & t & gi & ? & Hj & ?)].
    + left. exists el. split; [done|]. split; [done|]. auto.
    + right. exists j, s, t, gi. split; [done|].
      split; [by eapply lookup_weaken|done].
  - destruct (IH st1 st' ltac:(congruence) Hok spec Hin)
      as [?|(j & s & t & gi & Hj & ?)]; [by left|].
    right. exists j, s, t, gi. split; [|done].
    destruct (rels st.1 !! j) as [r|] eqn:Hr; [|done].
    by rewrite (lookup_weaken _ _ _ _ Hr Hsub1) in Hj.
Qed.

(** X24 (every entry of [to] is served):
    after a successful call there is, for every entry of [to], a
    relationship of the declared type from the from-node whose properties
    have the text of the entry's: one that was there before, to a VNode with
    the key of the entry as VNID or slugId, or a new one with the properties
    of the entry, to a node that has one of the declared target labels and
    had the key when the relationship was created. *)
Theorem updateToManyRelationship_serves fromType fromId rel to g prevTo g'
    relType spec :
  updateToManyRelationship type_labels has_key stringify (fromType, fromId)
    rel to g = Ok (prevTo, g') →
  getRelationshipType rel = Ok relType →
  spec ∈ to →
  ∃ j r, rels g' !! j = Some r
         ∧ rtype r = relType
         ∧ node_is (is_from type_labels fromType fromId) g (rstart r) = true
         ∧ stringify (rprops r) = stringify spec.2
         ∧ ((rels g !! j = Some r
             ∧ node_is (has_label "VNode") g (rend r) = true
             ∧ (node_vnid g (rend r) = Some (PStr spec.1)
                ∨ current_property g (rend r) "slugId" = Some (PStr spec.1)))
            ∨ (rels g !! j = None
               ∧ rprops r = spec.2
               ∧ node_is (λ n, existsb (λ l, has_label l n) (rel_to rel)) g
                   (rend r) = true
               ∧ ∃ gi, nodes gi = nodes g
                       ∧ has_key gi (rend r) spec.1 = true)).
Proof.
  intros Hok Hrt Hspec.
  destruct (updateToManyRelationship_Ok _ _ _ _ _ _ _ _ Hok Hrt)
    as (st & Hfold & _ & _ & _ & Hstay).
  pose proof (update_fold_Ok _ _ _ _ _ _ _ _ Hfold)
    as (_ & Hsub & _ & Hset & _).
  pose proof (update_fold_served g _ _ _ _ _ _ (g, _) _ eq_refl Hfold spec
                Hspec) as Hserved.
  cbn [fst snd] in Hsub, Hset, Hserved.
  destruct Hserved as [(el & Hel & Hid & Hnot)
                      |(j & s & t & gi & Hj0 & Hj & Hgi & Hs & Ht & Hkey)].
  - apply elem_of_existing_rels in Hel as (j & r & Hr & Hty & Hs & He & ->).
    simpl in Hnot. unfold identical_to in Hid. simpl in Hid.
    apply andb_true_iff in Hid as [Hkey Hstr%bool_decide_eq_true].
    exists j, r.
    split; [apply Hstay; [by eapply lookup_weaken|by left]|].
    split; [done|]. split; [done|]. split; [done|]. left.
    split; [done|]. split; [done|].
    apply orb_true_iff in Hkey as [Hk|Hk];
      apply bool_decide_eq_true in Hk; auto.
  - exists j, (mkRel relType s t spec.2). split.
    + apply Hstay; [done|]. left. intros Hin. apply Hset in Hin.
      apply elem_of_remove_dups, list_elem_of_fmap in Hin as (el & -> & Hel).
      apply elem_of_existing_rels in Hel as (j' & r' & Hr' & _ & _ & _ & ->).
      simpl in Hj0. congruence.
    + split; [done|]. split; [done|]. split; [done|]. right.
      split; [done|]. split; [done|]. split; [done|]. by exists gi.
Qed.

End UpdateToMany.

Lemma updateToManyRelationship_overwrites_witness :
  nodes in_both_franchises = nodes Scenario.two_franchises
  ∧ (∀ j r, rels in_both_franchises !! j = Some r →
            rtype r = "FRANCHISE_IS" →
            node_is (is_from Scenario.type_labels Scenario.Movie "_gg")
              Scenario.two_franchises (rstart r) = true →
            node_is (has_label "VNode") Scenario.two_franchises (rend r)
            = true →
            ∃ spec, spec ∈ both_franchises
                    ∧ show_props (rprops r) = show_props spec.2
                    ∧ (rels Scenario.two_franchises !! j = None →
                       rprops r = spec.2)
                    ∧ (rels Scenario.two_franchises !! j = Some r →
                       node_vnid Scenario.two_franchises (rend r)
                       = Some (PStr spec.1)
                       ∨ current_property Scenario.two_franchises (rend r)
                           "slugId" = Some (PStr spec.1)))
  ∧ (∀ j r, rels Scenario.two_franchises !! j = Some r →
            rtype r ≠ "FRANCHISE_IS"
            ∨ node_is (is_from Scenario.type_labels Scenario.Movie "_gg")
                Scenario.two_franchises (rstart r) = false
            ∨ node_is (has_label "VNode") Scenario.two_franchises (rend r)
              = false →
            rels in_both_franchises !! j = Some r).
Proof.
  apply (updateToManyRelationship_overwrites Scenario.type_labels
           Scenario.has_key show_props Scenario.Movie "_gg"
           Scenario.franchise_is_decl both_franchises Scenario.two_franchises
           [relationship_spec (Some (PStr "_mcu")) ∅] in_both_franchises
           "FRANCHISE_IS").
  - vm_compute. reflexivity.
  - reflexivity.
Defined.

Lemma updateToManyRelationship_serves_witness :
  ∃ j r, rels in_both_franchises !! j = Some r
         ∧ rtype r = "FRANCHISE_IS"
         ∧ node_is (is_from Scenario.type_labels Scenario.Movie "_gg")
             Scenario.two_franchises (rstart r) = true
         ∧ show_props (rprops r) = show_props dcu_since.2
         ∧ ((rels Scenario.two_franchises !! j = Some r
             ∧ node_is (has_label "VNode") Scenario.two_franchises (rend r)
               = true
             ∧ (node_vnid Scenario.two_franchises (rend r)
                = Some (PStr dcu_since.1)
                ∨ current_property Scenario.two_franchises (rend r) "slugId"
                  = Some (PStr dcu_since.1)))
            ∨ (rels Scenario.two_franchises !! j = None
               ∧ rprops r = dcu_since.2
               ∧ node_is (λ n, existsb (λ l, has_label l n)
                                 (rel_to Scenario.franchise_is_decl))
                   Scenario.two_franchises (rend r) = true
               ∧ ∃ gi, nodes gi = nodes Scenario.two_franchises
                       ∧ Scenario.has_key gi (rend r) dcu_since.1 = true)).
Proof.
  apply (updateToManyRelationship_serves Scenario.type_labels
           Scenario.has_key show_props Scenario.Movie "_gg"
           Scenario.franchise_is_decl both_franchises Scenario.two_franchises
           [relationship_spec (Some (PStr "_mcu")) ∅] in_both_franchises
           "FRANCHISE_IS" dcu_since).
  - vm_compute. reflexivity.
  - reflexivity.
  - apply list_elem_of_further, list_elem_of_here.
Defined.

(** The movie points at the first franchise twice, and [to] lists the
    franchise twice: one of the two relationships is deleted. *)
Lemma updateToManyRelationship_keeps_one_twin_witness :
  rels Scenario.two_franchises !! 6 = None
  ∨ rels Scenario.two_franchises !! 9 = None.
Proof.
  apply (updateToManyRelationship_keeps_one_twin Scenario.type_labels
           Scenario.has_key show_props Scenario.Movie "_gg"
           Scenario.franchise_is_decl [("mcu", ∅); ("mcu", ∅)]
           Scenario.doubled
           [relationship_spec (Some (PStr "_mcu")) ∅;
            relationship_spec (Some (PStr "_mcu")) ∅]
           Scenario.two_franchises "FRANCHISE_IS" 6 9
           (mkRel "FRANCHISE_IS" 5 2 ∅) (mkRel "FRANCHISE_IS" 5 2 ∅)).
  - vm_compute. reflexivity.
  - reflexivity.
  - vm_compute. reflexivity.
  - vm_compute. reflexivity.
  - lia.
  - reflexivity.
  - reflexivity.
  - vm_compute. reflexivity.
  - vm_compute. reflexivity.
  - vm_compute. reflexivity.
  - reflexivity.
  - reflexivity.
Defined.

(** Asked for alone, the second franchise takes the place of the first;
    a target that does not exist makes the call fail; a relationship to a
    soft-deleted franchise is neither read nor deleted. *)
Example updateToManyRelationship_examples :
  updateToManyRelationship Scenario.type_labels Scenario.has_key show_props
    (Scenario.Movie, "_gg") Scenario.franchise_is_decl [("dcu", ∅)]
    Scenario.two_franchises
  = Ok ([relationship_spec (Some (PStr "_mcu")) ∅], only_dcu)
  ∧ updateToManyRelationship Scenario.type_labels Scenario.has_key show_props
      (Scenario.Movie, "_gg") Scenario.franchise_is_decl [("nope", ∅)]
      Scenario.two_franchises
    = Err (Error ("Cannot set FRANCHISE_IS relationship to VNode with key "
                  +:+ dquote +:+ "nope" +:+ dquote
                  +:+ " which doesn't exist or is the wrong type."))
  ∧ updateToManyRelationship Scenario.type_labels Scenario.has_key show_props
      (Scenario.Movie, "_gg") Scenario.franchise_is_decl []
      Scenario.franchise_soft_deleted
    = Ok ([], Scenario.franchise_soft_deleted).
Proof. repeat split; vm_compute; reflexivity. Qed.
